(** * GeoFieldTracker: the storage layer, embedded and verified

    A shallow embedding of the persistence layer of the field-tracking
    server: the file-snapshot backend ([FileStorage]), the in-memory
    backend ([MemStorage]), the MongoDB-style identifier generator and the
    two route handlers that validate before they reach the storage
    ([POST /api/users] and [PATCH /api/tasks/bulk-status]).

    Conventions of the embedding
    - a JavaScript [Map<string, V>] is an insertion-ordered association
      list with unique keys ([JsMap]): [Array.from(m.values())] and
      [find] observe that order;
    - a [Date] is its [getTime()] value, milliseconds since the epoch, in
      [Z]; every [new Date()] and [Date.now()] of an operation is an
      explicit argument, in program order;
    - a thrown [Error] is the [Throw] case of [Result], with its message;
    - an optional field is an [option]; JavaScript truthiness of an optional
      string is written out ([truthy]);
    - the objects held by a map are never shared between two keys (they are
      created by a [create*] call or parsed from JSON), so mutating the
      object returned by [get] and storing it back under the same key is
      the replacement of the value under that key;
    - the [save*] calls of the file backend rewrite a JSON file and swallow
      every error; they do not touch the in-memory maps and are left out. *)

From Stdlib Require Import ZArith List String Ascii Bool Lia.
From Stdlib Require Import Permutation Sorted.
Import ListNotations.

Local Open Scope string_scope.
Local Open Scope Z_scope.

(* ================================================================== *)
(** ** JavaScript strings and numbers *)

Definition Date := Z.

(** A JavaScript number that the storage layer only copies (a coordinate):
    it is kept as the bit pattern of its binary64 value. *)
Definition number := Z.

Definition truthy (o : option string) : option string :=
  match o with
  | Some s => if String.eqb s "" then None else Some s
  | None => None
  end.

(** [a || d] for an optional string [a] and a default [d]. *)
Definition orDefault (o : option string) (d : string) : string :=
  match truthy o with
  | Some s => s
  | None => d
  end.

Definition hexDigit (d : Z) : ascii :=
  match d with
  | 0 => "0" | 1 => "1" | 2 => "2" | 3 => "3"
  | 4 => "4" | 5 => "5" | 6 => "6" | 7 => "7"
  | 8 => "8" | 9 => "9" | 10 => "a" | 11 => "b"
  | 12 => "c" | 13 => "d" | 14 => "e" | _ => "f"
  end%char.

(** Digits of a non-negative integer in base [radix] (at most 16), most
    significant first, without leading zeros. *)
Fixpoint radixDigits (radix : Z) (fuel : nat) (n : Z) : string :=
  match fuel with
  | O => ""
  | S f =>
      if n <? radix then String (hexDigit n) ""
      else radixDigits radix f (n / radix)
             ++ String (hexDigit (n mod radix)) ""
  end.

(** Enough fuel for every radix from 2 on: one more than the binary
    logarithm. *)
Definition digitFuel (n : Z) : nat := S (Z.to_nat (Z.log2 n)).

(** [Number.prototype.toString(radix)] on an integer. *)
Definition toStringRadix (radix n : Z) : string :=
  if n <? 0 then "-" ++ radixDigits radix (digitFuel (- n)) (- n)
  else radixDigits radix (digitFuel n) n.

Definition toString16 (n : Z) : string := toStringRadix 16 n.

Definition toString10 (n : Z) : string := toStringRadix 10 n.

(** The filler of [padStart]: the first [n] characters of [pad] repeated;
    [cur] is what is left of the copy of [pad] being written. *)
Fixpoint padFill (n : nat) (cur pad : string) : string :=
  match n with
  | O => ""
  | S n' =>
      match cur with
      | String c rest => String c (padFill n' rest pad)
      | EmptyString =>
          match pad with
          | String c rest => String c (padFill n' rest pad)
          | EmptyString => ""
          end
      end
  end.

(** [String.prototype.padStart(target, pad)]: never truncates. *)
Definition padStart (target : nat) (pad s : string) : string :=
  if (target <=? String.length s)%nat then s
  else padFill (target - String.length s) pad pad ++ s.

Definition isLowerAscii (c : ascii) : bool :=
  let n := N_of_ascii c in ((97 <=? n) && (n <=? 122))%N.

Definition isUpperAscii (c : ascii) : bool :=
  let n := N_of_ascii c in ((65 <=? n) && (n <=? 90))%N.

Definition lowerChar (c : ascii) : ascii :=
  if isUpperAscii c then ascii_of_N (N_of_ascii c + 32) else c.

(** [String.prototype.toLowerCase] on the ASCII range.  A string is its
    bytes here, and the bytes of a character outside ASCII are kept,
    whereas the method also lowers the letters outside ASCII; the two
    agree on strings of ASCII characters. *)
Fixpoint toLowerCase (s : string) : string :=
  match s with
  | EmptyString => EmptyString
  | String c r => String (lowerChar c) (toLowerCase r)
  end.

Fixpoint forallChars (p : ascii -> bool) (s : string) : bool :=
  match s with
  | EmptyString => true
  | String c r => p c && forallChars p r
  end.

Definition isDigitChar (c : ascii) : bool :=
  let n := N_of_ascii c in ((48 <=? n) && (n <=? 57))%N.

Definition isLowerHexChar (c : ascii) : bool :=
  let n := N_of_ascii c in
  isDigitChar c || ((97 <=? n) && (n <=? 102))%N.

Definition isHexChar (c : ascii) : bool :=
  let n := N_of_ascii c in
  isLowerHexChar c || ((65 <=? n) && (n <=? 70))%N.

(** Value of one hexadecimal digit, either case. *)
Definition hexCharValue (c : ascii) : Z :=
  let n := Z.of_N (N_of_ascii c) in
  if isDigitChar c then n - 48
  else if isLowerAscii c then n - 87
  else n - 55.

(** Value of a string of hexadecimal digits, read most significant first. *)
Definition hexValue (s : string) : Z :=
  fold_left (fun acc c => 16 * acc + hexCharValue c)
            (list_ascii_of_string s) 0.

(** Modelled from the spec: [isValidObjectId] of [@shared/schema], which is
    imported by the backends and the routes but is not among the sources.
    The spec fixes the format it accepts: an id is well-formed when it
    matches "the 24-hex-character format". *)
Definition isValidObjectId (id : string) : bool :=
  (String.length id =? 24)%nat && forallChars isHexChar id.

(** The shape the generator promises: 24 lowercase hexadecimal
    characters. *)
Definition isLowerHex24 (id : string) : bool :=
  (String.length id =? 24)%nat && forallChars isLowerHexChar id.

(* ================================================================== *)
(** ** The identifier generator of the file backend *)

(** What [generateObjectId] reads from its environment: [Date.now()] and
    the three values [Math.floor(Math.random() * k)].  [Math.random()] lies
    in [0, 1), so the draws lie in [0, k). *)
Record IdSource : Type := mkIdSource {
  src_now : Z;
  src_machine : Z;
  src_process : Z;
  src_counter : Z
}.

Definition drawsInRange (e : IdSource) : Prop :=
  0 <= src_machine e < 16777215 /\
  0 <= src_process e < 65535 /\
  0 <= src_counter e < 16777215.

Definition timestampPart (e : IdSource) : string :=
  padStart 8 "0" (toString16 (src_now e / 1000)).

Definition generateObjectId (e : IdSource) : string :=
  let timestamp := timestampPart e in
  let machineId := padStart 6 "0" (toString16 (src_machine e)) in
  let processId := padStart 4 "0" (toString16 (src_process e)) in
  let counter := padStart 6 "0" (toString16 (src_counter e)) in
  timestamp ++ machineId ++ processId ++ counter.

(** The time prefix of an id: its first eight characters. *)
Definition timePrefix (id : string) : string := substring 0 8 id.

(** The clock is within the range whose seconds fit eight hexadecimal
    digits (it leaves it on 2106-02-07). *)
Definition clockFits (now : Z) : Prop := 0 <= now < 4294967296 * 1000.

(* ================================================================== *)
(** ** Results and the state monad of an operation *)

Inductive Result (A : Type) : Type :=
| Ok (a : A)
| Throw (message : string).

Arguments Ok {A} a.
Arguments Throw {A} message.

(** An operation on a store [S]: its outcome and the store it leaves.  A
    [Throw] keeps the mutations made before it. *)
Definition M (S A : Type) : Type := S -> Result A * S.

Definition ret {S A : Type} (a : A) : M S A := fun s => (Ok a, s).

Definition throw {S A : Type} (message : string) : M S A :=
  fun s => (Throw message, s).

Definition bind {S A B : Type} (m : M S A) (k : A -> M S B) : M S B :=
  fun s =>
    match m s with
    | (Ok a, s') => k a s'
    | (Throw e, s') => (Throw e, s')
    end.

Definition gets {S A : Type} (f : S -> A) : M S A := fun s => (Ok (f s), s).

Definition modify {S : Type} (f : S -> S) : M S unit :=
  fun s => (Ok tt, f s).

Notation "x <- c ;; k" := (bind c (fun x => k))
  (at level 61, c at next level, right associativity).
Notation "c ;;; k" := (bind c (fun _ => k))
  (at level 61, right associativity).

(* ================================================================== *)
(** ** [Map<string, V>] *)

Module JsMap.
Section WithValue.
Context {V : Type}.

Definition t : Type := list (string * V).

Definition empty : t := [].

Fixpoint get (k : string) (m : t) : option V :=
  match m with
  | [] => None
  | (k', v) :: r => if String.eqb k k' then Some v else get k r
  end.

(** [set] keeps the position of a key that is present and appends a new
    one. *)
Fixpoint set (k : string) (v : V) (m : t) : t :=
  match m with
  | [] => [(k, v)]
  | (k', v') :: r =>
      if String.eqb k k' then (k, v) :: r else (k', v') :: set k v r
  end.

Fixpoint delete (k : string) (m : t) : t :=
  match m with
  | [] => []
  | (k', v') :: r =>
      if String.eqb k k' then r else (k', v') :: delete k r
  end.

Definition has (k : string) (m : t) : bool :=
  match get k m with Some _ => true | None => false end.

Definition values (m : t) : list V := map snd m.

Definition keys (m : t) : list string := map fst m.

Definition size (m : t) : nat := List.length m.
End WithValue.
Arguments t V : clear implicits.
End JsMap.

(* ================================================================== *)
(** ** Data model *)

Inductive Role : Type := Supervisor | Field.

Definition Role_eqb (a b : Role) : bool :=
  match a, b with
  | Supervisor, Supervisor | Field, Field => true
  | _, _ => false
  end.

(** A GeoJSON point, [{ type, coordinates: [lng, lat] }]. *)
Module Point.
Record t : Type := mk { type : string; coordinates : number * number }.
End Point.

Inductive Coordinates : Type :=
| Position (p : number * number)
| Line (l : list (number * number))
| Rings (r : list (list (number * number))).

(** A GeoJSON geometry, [{ type, coordinates }]. *)
Module Geometry.
Record t : Type := mk { type : string; coordinates : Coordinates }.
End Geometry.

(** Modelled from the spec: the [Insert*] input types of [@shared/schema],
    which is not among the sources.  Their fields are the attributes of the
    spec's data model, as the [create*] operations read them. *)
Module InsertUser.
Record t : Type := mk {
  username : string;
  password : string;
  name : string;
  email : string;
  role : Role;
  teamId : option string
}.
Definition set_teamId (x : t) (v : option string) : t :=
  mk (username x) (password x) (name x) (email x) (role x) v.
Definition set_password (x : t) (v : string) : t :=
  mk (username x) v (name x) (email x) (role x) (teamId x).
End InsertUser.

Module InsertTeam.
Record t : Type := mk {
  name : string;
  description : option string;
  status : option string;
  createdBy : string
}.
Definition set_status (x : t) (v : option string) : t :=
  mk (name x) (description x) v (createdBy x).
End InsertTeam.

Module InsertTask.
Record t : Type := mk {
  title : string;
  description : option string;
  status : option string;
  priority : string;
  createdBy : option string;
  assignedTo : option string;
  dueDate : option Date;
  location : option Point.t;
  boundaryId : option string;
  featureId : option string
}.
Definition set_status (x : t) (v : option string) : t :=
  mk (title x) (description x) v (priority x) (createdBy x)
     (assignedTo x) (dueDate x) (location x) (boundaryId x) (featureId x).
Definition set_assignedTo (x : t) (v : option string) : t :=
  mk (title x) (description x) (status x) (priority x) (createdBy x)
     v (dueDate x) (location x) (boundaryId x) (featureId x).
End InsertTask.

Module InsertFeature.
Record t : Type := mk {
  name : string;
  feaNo : string;
  feaState : string;
  feaStatus : string;
  feaType : string;
  specificType : string;
  maintenance : option string;
  maintenanceDate : option Date;
  geometry : option Geometry.t;
  remarks : option string;
  createdBy : option string;
  boundaryId : option string
}.
End InsertFeature.

Module InsertBoundary.
Record t : Type := mk {
  name : string;
  description : option string;
  status : option string;
  assignedTo : option string;
  geometry : Geometry.t
}.
Definition set_status (x : t) (v : option string) : t :=
  mk (name x) (description x) v (assignedTo x) (geometry x).
Definition set_assignedTo (x : t) (v : option string) : t :=
  mk (name x) (description x) (status x) v (geometry x).
End InsertBoundary.

Module InsertTaskUpdate.
Record t : Type := mk {
  taskId : string;
  userId : string;
  comment : option string;
  oldStatus : option string;
  newStatus : option string
}.
End InsertTaskUpdate.

Module InsertTaskEvidence.
Record t : Type := mk {
  taskId : string;
  userId : string;
  imageUrl : string;
  description : option string
}.
End InsertTaskEvidence.

(** [Partial<InsertFeature>], the update of [updateFeature]: a field is
    [None] when the update does not carry it. *)
Module PartialFeature.
Record t : Type := mk {
  name : option string;
  feaNo : option string;
  feaState : option string;
  feaStatus : option string;
  feaType : option string;
  specificType : option string;
  maintenance : option string;
  maintenanceDate : option Date;
  geometry : option Geometry.t;
  remarks : option string;
  createdBy : option string;
  boundaryId : option string
}.
Definition empty : t :=
  mk None None None None None None None None None None None None.
End PartialFeature.

(** *** Records of the file backend *)

Module FileUser.
Record t : Type := mk {
  _id : string;
  username : string;
  password : string;
  name : string;
  email : string;
  role : Role;
  teamId : option string;
  lastActive : option Date;
  currentLocation : option Point.t;
  createdAt : Date;
  updatedAt : Date
}.
Definition set_teamId (x : t) (v : option string) : t :=
  mk (_id x) (username x) (password x) (name x) (email x) (role x)
     v (lastActive x) (currentLocation x) (createdAt x) (updatedAt x).
Definition set_lastActive (x : t) (v : option Date) : t :=
  mk (_id x) (username x) (password x) (name x) (email x) (role x)
     (teamId x) v (currentLocation x) (createdAt x) (updatedAt x).
Definition set_currentLocation (x : t) (v : option Point.t) : t :=
  mk (_id x) (username x) (password x) (name x) (email x) (role x)
     (teamId x) (lastActive x) v (createdAt x) (updatedAt x).
Definition set_updatedAt (x : t) (v : Date) : t :=
  mk (_id x) (username x) (password x) (name x) (email x) (role x)
     (teamId x) (lastActive x) (currentLocation x) (createdAt x) v.
End FileUser.

Module FileTeam.
Record t : Type := mk {
  _id : string;
  name : string;
  description : option string;
  status : string;
  createdBy : string;
  approvedBy : option string;
  createdAt : Date;
  updatedAt : Date
}.
Definition set_status (x : t) (v : string) : t :=
  mk (_id x) (name x) (description x) v (createdBy x) (approvedBy x)
     (createdAt x) (updatedAt x).
Definition set_approvedBy (x : t) (v : option string) : t :=
  mk (_id x) (name x) (description x) (status x) (createdBy x) v
     (createdAt x) (updatedAt x).
Definition set_updatedAt (x : t) (v : Date) : t :=
  mk (_id x) (name x) (description x) (status x) (createdBy x)
     (approvedBy x) (createdAt x) v.
End FileTeam.

Module FileTask.
Record t : Type := mk {
  _id : string;
  title : string;
  description : option string;
  status : string;
  priority : string;
  createdBy : option string;
  assignedTo : option string;
  dueDate : option Date;
  location : option Point.t;
  boundaryId : option string;
  featureId : option string;
  createdAt : Date;
  updatedAt : Date
}.
Definition set_status (x : t) (v : string) : t :=
  mk (_id x) (title x) (description x) v (priority x) (createdBy x)
     (assignedTo x) (dueDate x) (location x) (boundaryId x) (featureId x)
     (createdAt x) (updatedAt x).
Definition set_assignedTo (x : t) (v : option string) : t :=
  mk (_id x) (title x) (description x) (status x) (priority x)
     (createdBy x) v (dueDate x) (location x) (boundaryId x)
     (featureId x) (createdAt x) (updatedAt x).
Definition set_updatedAt (x : t) (v : Date) : t :=
  mk (_id x) (title x) (description x) (status x) (priority x)
     (createdBy x) (assignedTo x) (dueDate x) (location x) (boundaryId x)
     (featureId x) (createdAt x) v.
End FileTask.

Module FileFeature.
Record t : Type := mk {
  _id : string;
  name : string;
  feaNo : string;
  feaState : string;
  feaStatus : string;
  feaType : string;
  specificType : string;
  maintenance : string;
  maintenanceDate : option Date;
  geometry : option Geometry.t;
  remarks : option string;
  createdBy : option string;
  boundaryId : option string;
  createdAt : Date;
  updatedAt : Date;
  lastUpdated : Date
}.
End FileFeature.

Module FileBoundary.
Record t : Type := mk {
  _id : string;
  name : string;
  description : option string;
  status : string;
  assignedTo : option string;
  geometry : Geometry.t;
  createdAt : Date;
  updatedAt : Date
}.
Definition set_status (x : t) (v : string) : t :=
  mk (_id x) (name x) (description x) v (assignedTo x) (geometry x)
     (createdAt x) (updatedAt x).
Definition set_assignedTo (x : t) (v : option string) : t :=
  mk (_id x) (name x) (description x) (status x) v (geometry x)
     (createdAt x) (updatedAt x).
Definition set_updatedAt (x : t) (v : Date) : t :=
  mk (_id x) (name x) (description x) (status x) (assignedTo x)
     (geometry x) (createdAt x) v.
End FileBoundary.

Module FileTaskUpdate.
Record t : Type := mk {
  _id : string;
  taskId : string;
  userId : string;
  comment : option string;
  oldStatus : option string;
  newStatus : option string;
  createdAt : Date
}.
End FileTaskUpdate.

Module FileTaskEvidence.
Record t : Type := mk {
  _id : string;
  taskId : string;
  userId : string;
  imageUrl : string;
  description : option string;
  createdAt : Date
}.
End FileTaskEvidence.

(** *** Records of the in-memory backend

    Each is built as [{ _id, ...insert, createdAt, ... }]: the fields of the
    creation input, spread as they are ([data]), and the fields the backend
    adds. *)

Module MemUser.
Record t : Type := mk {
  _id : string;
  data : InsertUser.t;
  createdAt : Date;
  updatedAt : Date;
  lastActive : option Date;
  currentLocation : option Point.t
}.
Definition set_data (x : t) (v : InsertUser.t) : t :=
  mk (_id x) v (createdAt x) (updatedAt x) (lastActive x)
     (currentLocation x).
Definition set_updatedAt (x : t) (v : Date) : t :=
  mk (_id x) (data x) (createdAt x) v (lastActive x) (currentLocation x).
Definition set_lastActive (x : t) (v : option Date) : t :=
  mk (_id x) (data x) (createdAt x) (updatedAt x) v (currentLocation x).
Definition set_currentLocation (x : t) (v : option Point.t) : t :=
  mk (_id x) (data x) (createdAt x) (updatedAt x) (lastActive x) v.
End MemUser.

Module MemTeam.
Record t : Type := mk {
  _id : string;
  data : InsertTeam.t;
  createdAt : Date;
  updatedAt : Date;
  approvedBy : option string
}.
Definition set_data (x : t) (v : InsertTeam.t) : t :=
  mk (_id x) v (createdAt x) (updatedAt x) (approvedBy x).
Definition set_updatedAt (x : t) (v : Date) : t :=
  mk (_id x) (data x) (createdAt x) v (approvedBy x).
Definition set_approvedBy (x : t) (v : option string) : t :=
  mk (_id x) (data x) (createdAt x) (updatedAt x) v.
End MemTeam.

Module MemTask.
Record t : Type := mk {
  _id : string;
  data : InsertTask.t;
  createdAt : Date;
  updatedAt : Date
}.
Definition set_data (x : t) (v : InsertTask.t) : t :=
  mk (_id x) v (createdAt x) (updatedAt x).
Definition set_updatedAt (x : t) (v : Date) : t :=
  mk (_id x) (data x) (createdAt x) v.
End MemTask.

Module MemFeature.
Record t : Type := mk {
  _id : string;
  data : InsertFeature.t;
  createdAt : Date;
  updatedAt : Date;
  lastUpdated : Date
}.
End MemFeature.

Module MemBoundary.
Record t : Type := mk {
  _id : string;
  data : InsertBoundary.t;
  createdAt : Date;
  updatedAt : Date
}.
Definition set_data (x : t) (v : InsertBoundary.t) : t :=
  mk (_id x) v (createdAt x) (updatedAt x).
Definition set_updatedAt (x : t) (v : Date) : t :=
  mk (_id x) (data x) (createdAt x) v.
End MemBoundary.

Module MemTaskUpdate.
Record t : Type := mk {
  _id : string;
  data : InsertTaskUpdate.t;
  createdAt : Date
}.
End MemTaskUpdate.

Module MemTaskEvidence.
Record t : Type := mk {
  _id : string;
  data : InsertTaskEvidence.t;
  createdAt : Date
}.
End MemTaskEvidence.

(* ================================================================== *)
(** ** Arrays and maps built from arrays *)

(** Where [x] goes in an array that is already in order: after every
    element that the comparator puts strictly before it. *)
Fixpoint sortInsert {A : Type} (compareFn : A -> A -> Z) (x : A)
  (l : list A) : list A :=
  match l with
  | [] => [x]
  | y :: r =>
      if 0 <? compareFn x y then y :: sortInsert compareFn x r
      else x :: y :: r
  end.

(** [Array.prototype.sort(compareFn)].  The sort is stable, so for a
    comparator that orders the elements consistently its result is the one
    array that is in order and keeps elements that compare equal in their
    original order; this insertion sort computes that array. *)
Fixpoint arraySort {A : Type} (compareFn : A -> A -> Z) (l : list A)
  : list A :=
  match l with
  | [] => []
  | x :: r => sortInsert compareFn x (arraySort compareFn r)
  end.

(** A date field of a stored record is a [Date] when this process built
    the record ([new Date()]), and the ISO string that [JSON.stringify]
    wrote for it when the record was read from a data file: [JSON.parse]
    is called without a reviver and the load functions store the parsed
    objects as they are.  The record types keep the instant in both cases.
    The one place where the code tells the two apart is
    [createdAt.getTime()]; there [isDate r] says whether the [createdAt]
    of the record [r] is a [Date].

    [(a, b) => b.createdAt.getTime() - a.createdAt.getTime()]: the date of
    [b] is read first, and a string has no [getTime] to call. *)
Definition byCreatedAt {A : Type} (isDate : A -> bool)
  (createdAt : A -> Date) (a b : A) : Result Z :=
  if isDate b then
    if isDate a then Ok (createdAt b - createdAt a)
    else Throw "TypeError: a.createdAt.getTime is not a function"
  else Throw "TypeError: b.createdAt.getTime is not a function".

(** [sortInsert] with a comparator that can throw. *)
Fixpoint sortInsertM {A : Type} (compareFn : A -> A -> Result Z) (x : A)
  (l : list A) : Result (list A) :=
  match l with
  | [] => Ok [x]
  | y :: r =>
      match compareFn x y with
      | Throw e => Throw e
      | Ok c =>
          if 0 <? c
          then match sortInsertM compareFn x r with
               | Ok r' => Ok (y :: r')
               | Throw e => Throw e
               end
          else Ok (x :: y :: r)
      end
  end.

(** [Array.prototype.sort(compareFn)] with a comparator that can throw:
    the sort ends with the first call that throws.  An array of fewer than
    two elements is returned without a call.  On a longer array every
    element is passed to the comparator at least once, in this sort as in
    any other, so whether the sort throws does not depend on the order of
    the calls, which the language leaves to the engine; which of the two
    messages of [byCreatedAt] is seen does. *)
Fixpoint arraySortM {A : Type} (compareFn : A -> A -> Result Z)
  (l : list A) : Result (list A) :=
  match l with
  | [] => Ok []
  | x :: r =>
      match arraySortM compareFn r with
      | Ok r' => sortInsertM compareFn x r'
      | Throw e => Throw e
      end
  end.

(** [new Map(entries)]: the entries are set one after the other. *)
Definition mapOfEntries {V : Type} (entries : list (string * V))
  : JsMap.t V :=
  fold_left (fun m kv => JsMap.set (fst kv) (snd kv) m) entries [].

(** [u ?? d] and the effect of [{...d, ...u}] on one field: the update's
    value when it carries one. *)
Definition orElse {A : Type} (u : option A) (d : A) : A :=
  match u with
  | Some v => v
  | None => d
  end.

Definition orElseOpt {A : Type} (u d : option A) : option A :=
  match u with
  | Some v => Some v
  | None => d
  end.
(* ================================================================== *)
(** ** The file-snapshot backend *)

Record LatLng : Type := mkLatLng { lat : number; lng : number }.

Module FileStorage.

Record t : Type := mk {
  users : JsMap.t FileUser.t;
  tasks : JsMap.t FileTask.t;
  features : JsMap.t FileFeature.t;
  boundaries : JsMap.t FileBoundary.t;
  taskUpdates : JsMap.t FileTaskUpdate.t;
  taskEvidence : JsMap.t FileTaskEvidence.t;
  teams : JsMap.t FileTeam.t
}.

Definition empty : t := mk [] [] [] [] [] [] [].

Definition on_users (f : JsMap.t FileUser.t -> JsMap.t FileUser.t)
  (s : t) : t :=
  mk (f (users s)) (tasks s) (features s) (boundaries s) (taskUpdates s)
     (taskEvidence s) (teams s).

Definition on_tasks (f : JsMap.t FileTask.t -> JsMap.t FileTask.t)
  (s : t) : t :=
  mk (users s) (f (tasks s)) (features s) (boundaries s) (taskUpdates s)
     (taskEvidence s) (teams s).

Definition on_features
  (f : JsMap.t FileFeature.t -> JsMap.t FileFeature.t) (s : t) : t :=
  mk (users s) (tasks s) (f (features s)) (boundaries s) (taskUpdates s)
     (taskEvidence s) (teams s).

Definition on_boundaries
  (f : JsMap.t FileBoundary.t -> JsMap.t FileBoundary.t) (s : t) : t :=
  mk (users s) (tasks s) (features s) (f (boundaries s)) (taskUpdates s)
     (taskEvidence s) (teams s).

Definition on_taskUpdates
  (f : JsMap.t FileTaskUpdate.t -> JsMap.t FileTaskUpdate.t) (s : t) : t :=
  mk (users s) (tasks s) (features s) (boundaries s) (f (taskUpdates s))
     (taskEvidence s) (teams s).

Definition on_teams (f : JsMap.t FileTeam.t -> JsMap.t FileTeam.t)
  (s : t) : t :=
  mk (users s) (tasks s) (features s) (boundaries s) (taskUpdates s)
     (taskEvidence s) (f (teams s)).

(** *** User operations *)

Definition getUser (id : string) : M t (option FileUser.t) :=
  if negb (isValidObjectId id) then ret None
  else gets (fun s => JsMap.get id (users s)).

Definition getUserByUsername (username : string)
  : M t (option FileUser.t) :=
  gets (fun s =>
          find (fun user => String.eqb (FileUser.username user) username)
               (JsMap.values (users s))).

Definition createUser (e : IdSource) (tCreated tUpdated : Date)
  (insertUser : InsertUser.t) : M t FileUser.t :=
  let id := generateObjectId e in
  let user :=
    FileUser.mk id
      (InsertUser.username insertUser)
      (InsertUser.password insertUser)
      (InsertUser.name insertUser)
      (InsertUser.email insertUser)
      (InsertUser.role insertUser)
      (truthy (InsertUser.teamId insertUser))
      None
      None
      tCreated
      tUpdated in
  modify (on_users (JsMap.set id user)) ;;;
  ret user.

Definition updateUserLocation (tActive tUpdated : Date) (id : string)
  (location : LatLng) : M t FileUser.t :=
  if negb (isValidObjectId id) then throw "Invalid user ID"
  else
    found <- gets (fun s => JsMap.get id (users s)) ;;
    match found with
    | None => throw ("User with id " ++ id ++ " not found")
    | Some user =>
        let user :=
          FileUser.set_currentLocation user
            (Some (Point.mk "Point" (lng location, lat location))) in
        let user := FileUser.set_lastActive user (Some tActive) in
        let user := FileUser.set_updatedAt user tUpdated in
        modify (on_users (JsMap.set id user)) ;;;
        ret user
    end.

(** *** Team operations *)

Definition createTeam (e : IdSource) (tCreated tUpdated : Date)
  (insertTeam : InsertTeam.t) : M t FileTeam.t :=
  let id := generateObjectId e in
  let team :=
    FileTeam.mk id
      (InsertTeam.name insertTeam)
      (InsertTeam.description insertTeam)
      (orDefault (InsertTeam.status insertTeam) "Pending")
      (InsertTeam.createdBy insertTeam)
      None
      tCreated
      tUpdated in
  modify (on_teams (JsMap.set id team)) ;;;
  ret team.

Definition getTeam (id : string) : M t (option FileTeam.t) :=
  if negb (isValidObjectId id) then ret None
  else gets (fun s => JsMap.get id (teams s)).

Definition assignUserToTeam (tUpdated : Date) (userId teamId : string)
  : M t FileUser.t :=
  if negb (isValidObjectId userId) || negb (isValidObjectId teamId)
  then throw "Invalid user or team ID"
  else
    found <- gets (fun s => JsMap.get userId (users s)) ;;
    match found with
    | None => throw ("User with id " ++ userId ++ " not found")
    | Some user =>
        let user := FileUser.set_teamId user (Some teamId) in
        let user := FileUser.set_updatedAt user tUpdated in
        modify (on_users (JsMap.set userId user)) ;;;
        ret user
    end.

(** *** Task operations *)

Definition createTask (e : IdSource) (tCreated tUpdated : Date)
  (insertTask : InsertTask.t) : M t FileTask.t :=
  let id := generateObjectId e in
  let task :=
    FileTask.mk id
      (InsertTask.title insertTask)
      (InsertTask.description insertTask)
      (orDefault (InsertTask.status insertTask) "Unassigned")
      (InsertTask.priority insertTask)
      (truthy (InsertTask.createdBy insertTask))
      (truthy (InsertTask.assignedTo insertTask))
      (InsertTask.dueDate insertTask)
      (match InsertTask.location insertTask with
       | Some l => Some (Point.mk "Point" (Point.coordinates l))
       | None => None
       end)
      (truthy (InsertTask.boundaryId insertTask))
      (truthy (InsertTask.featureId insertTask))
      tCreated
      tUpdated in
  modify (on_tasks (JsMap.set id task)) ;;;
  ret task.

Definition getTask (id : string) : M t (option FileTask.t) :=
  if negb (isValidObjectId id) then ret None
  else gets (fun s => JsMap.get id (tasks s)).

(** *** Task updates *)

Definition createTaskUpdate (e : IdSource) (tCreated : Date)
  (insertUpdate : InsertTaskUpdate.t) : M t FileTaskUpdate.t :=
  if negb (isValidObjectId (InsertTaskUpdate.taskId insertUpdate))
     || negb (isValidObjectId (InsertTaskUpdate.userId insertUpdate))
  then throw "Invalid task or user ID"
  else
    let id := generateObjectId e in
    let update :=
      FileTaskUpdate.mk id
        (InsertTaskUpdate.taskId insertUpdate)
        (InsertTaskUpdate.userId insertUpdate)
        (InsertTaskUpdate.comment insertUpdate)
        (InsertTaskUpdate.oldStatus insertUpdate)
        (InsertTaskUpdate.newStatus insertUpdate)
        tCreated in
    modify (on_taskUpdates (JsMap.set id update)) ;;;
    ret update.

(** [e] and [tAudit] are read by the [createTaskUpdate] call. *)
Definition updateTaskStatus (e : IdSource) (tUpdated tAudit : Date)
  (id status userId : string) : M t FileTask.t :=
  if negb (isValidObjectId id) || negb (isValidObjectId userId)
  then throw "Invalid task or user ID"
  else
    found <- gets (fun s => JsMap.get id (tasks s)) ;;
    match found with
    | None => throw ("Task with id " ++ id ++ " not found")
    | Some task =>
        let oldStatus := FileTask.status task in
        let task := FileTask.set_status task status in
        let task := FileTask.set_updatedAt task tUpdated in
        modify (on_tasks (JsMap.set id task)) ;;;
        createTaskUpdate e tAudit
          (InsertTaskUpdate.mk id userId
             (Some ("Status updated to " ++ status))
             (Some oldStatus)
             (Some status)) ;;;
        ret task
    end.

Definition assignTask (tUpdated : Date) (id assignedTo : string)
  : M t FileTask.t :=
  if negb (isValidObjectId id) || negb (isValidObjectId assignedTo)
  then throw "Invalid task or user ID"
  else
    found <- gets (fun s => JsMap.get id (tasks s)) ;;
    match found with
    | None => throw ("Task with id " ++ id ++ " not found")
    | Some task =>
        let task := FileTask.set_assignedTo task (Some assignedTo) in
        let task := FileTask.set_status task "Assigned" in
        let task := FileTask.set_updatedAt task tUpdated in
        modify (on_tasks (JsMap.set id task)) ;;;
        ret task
    end.

(** *** Feature operations *)

(** The geometry conversion of [createFeature]: a geometry whose type is
    none of the three is dropped. *)
Definition convertGeometry (g : option Geometry.t) : option Geometry.t :=
  match g with
  | None => None
  | Some geom =>
      if String.eqb (Geometry.type geom) "Point"
      then Some (Geometry.mk "Point" (Geometry.coordinates geom))
      else if String.eqb (Geometry.type geom) "LineString"
      then Some (Geometry.mk "LineString" (Geometry.coordinates geom))
      else if String.eqb (Geometry.type geom) "Polygon"
      then Some (Geometry.mk "Polygon" (Geometry.coordinates geom))
      else None
  end.

Definition createFeature (e : IdSource)
  (tCreated tUpdated tLast : Date) (insertFeature : InsertFeature.t)
  : M t FileFeature.t :=
  let id := generateObjectId e in
  let geometry := convertGeometry (InsertFeature.geometry insertFeature) in
  let feature :=
    FileFeature.mk id
      (InsertFeature.name insertFeature)
      (InsertFeature.feaNo insertFeature)
      (InsertFeature.feaState insertFeature)
      (InsertFeature.feaStatus insertFeature)
      (InsertFeature.feaType insertFeature)
      (InsertFeature.specificType insertFeature)
      (orDefault (InsertFeature.maintenance insertFeature) "None")
      (InsertFeature.maintenanceDate insertFeature)
      geometry
      (InsertFeature.remarks insertFeature)
      (truthy (InsertFeature.createdBy insertFeature))
      (truthy (InsertFeature.boundaryId insertFeature))
      tCreated
      tUpdated
      tLast in
  modify (on_features (JsMap.set id feature)) ;;;
  ret feature.

Definition getFeature (id : string) : M t (option FileFeature.t) :=
  if negb (isValidObjectId id) then ret None
  else gets (fun s => JsMap.get id (features s)).

(** *** Boundary operations *)

Definition createBoundary (e : IdSource) (tCreated tUpdated : Date)
  (insertBoundary : InsertBoundary.t) : M t FileBoundary.t :=
  let id := generateObjectId e in
  let boundary :=
    FileBoundary.mk id
      (InsertBoundary.name insertBoundary)
      (InsertBoundary.description insertBoundary)
      (orDefault (InsertBoundary.status insertBoundary) "New")
      (truthy (InsertBoundary.assignedTo insertBoundary))
      (Geometry.mk "Polygon"
         (Geometry.coordinates (InsertBoundary.geometry insertBoundary)))
      tCreated
      tUpdated in
  modify (on_boundaries (JsMap.set id boundary)) ;;;
  ret boundary.

Definition getBoundary (id : string) : M t (option FileBoundary.t) :=
  if negb (isValidObjectId id) then ret None
  else gets (fun s => JsMap.get id (boundaries s)).


(** *** Further user and team operations *)

Definition on_taskEvidence
  (f : JsMap.t FileTaskEvidence.t -> JsMap.t FileTaskEvidence.t) (s : t)
  : t :=
  mk (users s) (tasks s) (features s) (boundaries s) (taskUpdates s)
     (f (taskEvidence s)) (teams s).

Definition updateUserLastActive (tActive tUpdated : Date) (id : string)
  : M t FileUser.t :=
  if negb (isValidObjectId id) then throw "Invalid user ID"
  else
    found <- gets (fun s => JsMap.get id (users s)) ;;
    match found with
    | None => throw ("User with id " ++ id ++ " not found")
    | Some user =>
        let user := FileUser.set_lastActive user (Some tActive) in
        let user := FileUser.set_updatedAt user tUpdated in
        modify (on_users (JsMap.set id user)) ;;;
        ret user
    end.

Definition getAllFieldUsers : M t (list FileUser.t) :=
  gets (fun s =>
          filter (fun user => Role_eqb (FileUser.role user) Field)
                 (JsMap.values (users s))).

Definition getTeamByName (name : string) : M t (option FileTeam.t) :=
  gets (fun s =>
          find (fun team => String.eqb (FileTeam.name team) name)
               (JsMap.values (teams s))).

Definition updateTeamStatus (tUpdated : Date) (id status : string)
  (approvedBy : option string) : M t FileTeam.t :=
  if negb (isValidObjectId id) then throw "Invalid team ID"
  else
    match truthy approvedBy with
    | Some approver =>
        if negb (isValidObjectId approver) then throw "Invalid approver ID"
        else ret tt
    | None => ret tt
    end ;;;
    found <- gets (fun s => JsMap.get id (teams s)) ;;
    match found with
    | None => throw ("Team with id " ++ id ++ " not found")
    | Some team =>
        let team := FileTeam.set_status team status in
        let team := FileTeam.set_updatedAt team tUpdated in
        let team :=
          match truthy approvedBy with
          | Some approver => FileTeam.set_approvedBy team (Some approver)
          | None => team
          end in
        modify (on_teams (JsMap.set id team)) ;;;
        ret team
    end.

Definition getAllTeams : M t (list FileTeam.t) :=
  gets (fun s => JsMap.values (teams s)).

Definition optEqb (o : option string) (x : string) : bool :=
  match o with
  | Some v => String.eqb v x
  | None => false
  end.

Definition getUsersByTeam (teamId : string) : M t (list FileUser.t) :=
  if negb (isValidObjectId teamId) then ret []
  else
    gets (fun s =>
            filter (fun user => optEqb (FileUser.teamId user) teamId)
                   (JsMap.values (users s))).

(** *** Task queries *)

Definition getTasksByAssignee (userId : string) : M t (list FileTask.t) :=
  if negb (isValidObjectId userId) then ret []
  else
    gets (fun s =>
            filter (fun task => optEqb (FileTask.assignedTo task) userId)
                   (JsMap.values (tasks s))).

Definition getTasksByCreator (userId : string) : M t (list FileTask.t) :=
  if negb (isValidObjectId userId) then ret []
  else
    gets (fun s =>
            filter (fun task => optEqb (FileTask.createdBy task) userId)
                   (JsMap.values (tasks s))).

Definition getAllTasks (isDate : FileTask.t -> bool)
  : M t (list FileTask.t) :=
  fun s =>
    (arraySortM (byCreatedAt isDate FileTask.createdAt)
       (JsMap.values (tasks s)),
     s).

(** *** Feature update, deletion and queries *)

(** The geometry of [updateFeature]: the update's geometry when its type is
    one of the three, the existing geometry otherwise. *)
Definition mergeGeometry (existing update : option Geometry.t)
  : option Geometry.t :=
  match update with
  | None => existing
  | Some geom =>
      if String.eqb (Geometry.type geom) "Point"
      then Some (Geometry.mk "Point" (Geometry.coordinates geom))
      else if String.eqb (Geometry.type geom) "LineString"
      then Some (Geometry.mk "LineString" (Geometry.coordinates geom))
      else if String.eqb (Geometry.type geom) "Polygon"
      then Some (Geometry.mk "Polygon" (Geometry.coordinates geom))
      else existing
  end.

(** [tLast] is read before [tUpdated]. *)
Definition updateFeature (tLast tUpdated : Date) (id : string)
  (featureUpdate : PartialFeature.t) : M t FileFeature.t :=
  if negb (isValidObjectId id) then throw "Invalid feature ID"
  else
    found <- gets (fun s => JsMap.get id (features s)) ;;
    match found with
    | None => throw ("Feature with id " ++ id ++ " not found")
    | Some existingFeature =>
        let geometry :=
          mergeGeometry (FileFeature.geometry existingFeature)
            (PartialFeature.geometry featureUpdate) in
        let updatedFeature :=
          FileFeature.mk
            (FileFeature._id existingFeature)
            (orElse (PartialFeature.name featureUpdate)
               (FileFeature.name existingFeature))
            (orElse (PartialFeature.feaNo featureUpdate)
               (FileFeature.feaNo existingFeature))
            (orElse (PartialFeature.feaState featureUpdate)
               (FileFeature.feaState existingFeature))
            (orElse (truthy (PartialFeature.feaStatus featureUpdate))
               (FileFeature.feaStatus existingFeature))
            (orElse (PartialFeature.feaType featureUpdate)
               (FileFeature.feaType existingFeature))
            (orElse (PartialFeature.specificType featureUpdate)
               (FileFeature.specificType existingFeature))
            (orElse (PartialFeature.maintenance featureUpdate)
               (FileFeature.maintenance existingFeature))
            (orElseOpt (PartialFeature.maintenanceDate featureUpdate)
               (FileFeature.maintenanceDate existingFeature))
            geometry
            (orElseOpt (PartialFeature.remarks featureUpdate)
               (FileFeature.remarks existingFeature))
            (orElseOpt (PartialFeature.createdBy featureUpdate)
               (FileFeature.createdBy existingFeature))
            (orElseOpt (PartialFeature.boundaryId featureUpdate)
               (FileFeature.boundaryId existingFeature))
            (FileFeature.createdAt existingFeature)
            tUpdated
            tLast in
        modify (on_features (JsMap.set id updatedFeature)) ;;;
        ret updatedFeature
    end.

Definition deleteFeature (id : string) : M t bool :=
  if negb (isValidObjectId id) then ret false
  else
    result <- gets (fun s => JsMap.has id (features s)) ;;
    modify (on_features (JsMap.delete id)) ;;;
    ret result.

Definition getFeaturesByType (type : string) : M t (list FileFeature.t) :=
  gets (fun s =>
          filter (fun feature => String.eqb (FileFeature.feaType feature) type)
                 (JsMap.values (features s))).

Definition getFeaturesByStatus (status : string)
  : M t (list FileFeature.t) :=
  gets (fun s =>
          filter (fun feature =>
                    String.eqb (FileFeature.feaStatus feature) status)
                 (JsMap.values (features s))).

Definition getAllFeatures : M t (list FileFeature.t) :=
  gets (fun s => JsMap.values (features s)).

(** *** Boundary updates *)

Definition updateBoundaryStatus (tUpdated : Date) (id status : string)
  : M t FileBoundary.t :=
  if negb (isValidObjectId id) then throw "Invalid boundary ID"
  else
    found <- gets (fun s => JsMap.get id (boundaries s)) ;;
    match found with
    | None => throw ("Boundary with id " ++ id ++ " not found")
    | Some boundary =>
        let boundary := FileBoundary.set_status boundary status in
        let boundary := FileBoundary.set_updatedAt boundary tUpdated in
        modify (on_boundaries (JsMap.set id boundary)) ;;;
        ret boundary
    end.

Definition assignBoundary (tUpdated : Date) (id userId : string)
  : M t FileBoundary.t :=
  if negb (isValidObjectId id) || negb (isValidObjectId userId)
  then throw "Invalid boundary or user ID"
  else
    found <- gets (fun s => JsMap.get id (boundaries s)) ;;
    match found with
    | None => throw ("Boundary with id " ++ id ++ " not found")
    | Some boundary =>
        let boundary := FileBoundary.set_assignedTo boundary (Some userId) in
        let boundary := FileBoundary.set_updatedAt boundary tUpdated in
        modify (on_boundaries (JsMap.set id boundary)) ;;;
        ret boundary
    end.

Definition getAllBoundaries : M t (list FileBoundary.t) :=
  gets (fun s => JsMap.values (boundaries s)).

(** *** Task updates and evidence *)

Definition getTaskUpdates (isDate : FileTaskUpdate.t -> bool)
  (taskId : string) : M t (list FileTaskUpdate.t) :=
  if negb (isValidObjectId taskId) then ret []
  else
    fun s =>
      (arraySortM (byCreatedAt isDate FileTaskUpdate.createdAt)
         (filter (fun update =>
                    String.eqb (FileTaskUpdate.taskId update) taskId)
                 (JsMap.values (taskUpdates s))),
       s).

Definition addTaskEvidence (e : IdSource) (tCreated : Date)
  (insertEvidence : InsertTaskEvidence.t) : M t FileTaskEvidence.t :=
  if negb (isValidObjectId (InsertTaskEvidence.taskId insertEvidence))
     || negb (isValidObjectId (InsertTaskEvidence.userId insertEvidence))
  then throw "Invalid task or user ID"
  else
    let id := generateObjectId e in
    let evidence :=
      FileTaskEvidence.mk id
        (InsertTaskEvidence.taskId insertEvidence)
        (InsertTaskEvidence.userId insertEvidence)
        (InsertTaskEvidence.imageUrl insertEvidence)
        (InsertTaskEvidence.description insertEvidence)
        tCreated in
    modify (on_taskEvidence (JsMap.set id evidence)) ;;;
    ret evidence.

Definition getTaskEvidence (isDate : FileTaskEvidence.t -> bool)
  (taskId : string) : M t (list FileTaskEvidence.t) :=
  if negb (isValidObjectId taskId) then ret []
  else
    fun s =>
      (arraySortM (byCreatedAt isDate FileTaskEvidence.createdAt)
         (filter (fun evidence =>
                    String.eqb (FileTaskEvidence.taskId evidence) taskId)
                 (JsMap.values (taskEvidence s))),
       s).

(** *** Loading a collection

    [data] is the array found under the collection's name in the parsed
    JSON file; it is [None] when the file does not exist or reading or
    parsing it throws (the error is logged and the map is kept). *)

Definition loadUsers (data : option (list FileUser.t)) : M t unit :=
  match data with
  | Some users =>
      modify (on_users (fun _ =>
                mapOfEntries
                  (map (fun user => (FileUser._id user, user)) users)))
  | None => ret tt
  end.

Definition loadTasks (data : option (list FileTask.t)) : M t unit :=
  match data with
  | Some tasks =>
      modify (on_tasks (fun _ =>
                mapOfEntries
                  (map (fun task => (FileTask._id task, task)) tasks)))
  | None => ret tt
  end.

(** *** Saving a collection

    [saveUsers] and [saveTasks] write the array of the map's values, in
    the map's order; a write error is logged and nothing else happens.
    What is here is the array handed to [JSON.stringify]. *)

Definition saveUsers (s : t) : list FileUser.t := JsMap.values (users s).

Definition saveTasks (s : t) : list FileTask.t := JsMap.values (tasks s).
End FileStorage.

(* ================================================================== *)
(** ** The in-memory backend *)

Module MemStorage.

Record t : Type := mk {
  users : JsMap.t MemUser.t;
  teams : JsMap.t MemTeam.t;
  tasks : JsMap.t MemTask.t;
  features : JsMap.t MemFeature.t;
  boundaries : JsMap.t MemBoundary.t;
  taskUpdates : JsMap.t MemTaskUpdate.t;
  taskEvidence : JsMap.t MemTaskEvidence.t;
  userCurrentId : Z;
  teamCurrentId : Z;
  taskCurrentId : Z;
  featureCurrentId : Z;
  boundaryCurrentId : Z;
  taskUpdateCurrentId : Z;
  taskEvidenceCurrentId : Z
}.

Definition empty : t := mk [] [] [] [] [] [] [] 1 1 1 1 1 1 1.

Definition on_users (f : JsMap.t MemUser.t -> JsMap.t MemUser.t)
  (s : t) : t :=
  mk (f (users s)) (teams s) (tasks s) (features s) (boundaries s)
     (taskUpdates s) (taskEvidence s) (userCurrentId s) (teamCurrentId s)
     (taskCurrentId s) (featureCurrentId s) (boundaryCurrentId s)
     (taskUpdateCurrentId s) (taskEvidenceCurrentId s).

Definition on_teams (f : JsMap.t MemTeam.t -> JsMap.t MemTeam.t)
  (s : t) : t :=
  mk (users s) (f (teams s)) (tasks s) (features s) (boundaries s)
     (taskUpdates s) (taskEvidence s) (userCurrentId s) (teamCurrentId s)
     (taskCurrentId s) (featureCurrentId s) (boundaryCurrentId s)
     (taskUpdateCurrentId s) (taskEvidenceCurrentId s).

Definition on_tasks (f : JsMap.t MemTask.t -> JsMap.t MemTask.t)
  (s : t) : t :=
  mk (users s) (teams s) (f (tasks s)) (features s) (boundaries s)
     (taskUpdates s) (taskEvidence s) (userCurrentId s) (teamCurrentId s)
     (taskCurrentId s) (featureCurrentId s) (boundaryCurrentId s)
     (taskUpdateCurrentId s) (taskEvidenceCurrentId s).

Definition on_features
  (f : JsMap.t MemFeature.t -> JsMap.t MemFeature.t) (s : t) : t :=
  mk (users s) (teams s) (tasks s) (f (features s)) (boundaries s)
     (taskUpdates s) (taskEvidence s) (userCurrentId s) (teamCurrentId s)
     (taskCurrentId s) (featureCurrentId s) (boundaryCurrentId s)
     (taskUpdateCurrentId s) (taskEvidenceCurrentId s).

Definition on_boundaries
  (f : JsMap.t MemBoundary.t -> JsMap.t MemBoundary.t) (s : t) : t :=
  mk (users s) (teams s) (tasks s) (features s) (f (boundaries s))
     (taskUpdates s) (taskEvidence s) (userCurrentId s) (teamCurrentId s)
     (taskCurrentId s) (featureCurrentId s) (boundaryCurrentId s)
     (taskUpdateCurrentId s) (taskEvidenceCurrentId s).

Definition on_taskUpdates
  (f : JsMap.t MemTaskUpdate.t -> JsMap.t MemTaskUpdate.t) (s : t) : t :=
  mk (users s) (teams s) (tasks s) (features s) (boundaries s)
     (f (taskUpdates s)) (taskEvidence s) (userCurrentId s)
     (teamCurrentId s) (taskCurrentId s) (featureCurrentId s)
     (boundaryCurrentId s) (taskUpdateCurrentId s)
     (taskEvidenceCurrentId s).

(** The post-increments [this.xCurrentId++]: the value read, and the
    counter advanced. *)
Definition nextUserId : M t Z :=
  fun s =>
    (Ok (userCurrentId s),
     mk (users s) (teams s) (tasks s) (features s) (boundaries s)
        (taskUpdates s) (taskEvidence s) (userCurrentId s + 1)
        (teamCurrentId s) (taskCurrentId s) (featureCurrentId s)
        (boundaryCurrentId s) (taskUpdateCurrentId s)
        (taskEvidenceCurrentId s)).

Definition nextTeamId : M t Z :=
  fun s =>
    (Ok (teamCurrentId s),
     mk (users s) (teams s) (tasks s) (features s) (boundaries s)
        (taskUpdates s) (taskEvidence s) (userCurrentId s)
        (teamCurrentId s + 1) (taskCurrentId s) (featureCurrentId s)
        (boundaryCurrentId s) (taskUpdateCurrentId s)
        (taskEvidenceCurrentId s)).

Definition nextTaskId : M t Z :=
  fun s =>
    (Ok (taskCurrentId s),
     mk (users s) (teams s) (tasks s) (features s) (boundaries s)
        (taskUpdates s) (taskEvidence s) (userCurrentId s)
        (teamCurrentId s) (taskCurrentId s + 1) (featureCurrentId s)
        (boundaryCurrentId s) (taskUpdateCurrentId s)
        (taskEvidenceCurrentId s)).

Definition nextFeatureId : M t Z :=
  fun s =>
    (Ok (featureCurrentId s),
     mk (users s) (teams s) (tasks s) (features s) (boundaries s)
        (taskUpdates s) (taskEvidence s) (userCurrentId s)
        (teamCurrentId s) (taskCurrentId s) (featureCurrentId s + 1)
        (boundaryCurrentId s) (taskUpdateCurrentId s)
        (taskEvidenceCurrentId s)).

Definition nextBoundaryId : M t Z :=
  fun s =>
    (Ok (boundaryCurrentId s),
     mk (users s) (teams s) (tasks s) (features s) (boundaries s)
        (taskUpdates s) (taskEvidence s) (userCurrentId s)
        (teamCurrentId s) (taskCurrentId s) (featureCurrentId s)
        (boundaryCurrentId s + 1) (taskUpdateCurrentId s)
        (taskEvidenceCurrentId s)).

Definition nextTaskUpdateId : M t Z :=
  fun s =>
    (Ok (taskUpdateCurrentId s),
     mk (users s) (teams s) (tasks s) (features s) (boundaries s)
        (taskUpdates s) (taskEvidence s) (userCurrentId s)
        (teamCurrentId s) (taskCurrentId s) (featureCurrentId s)
        (boundaryCurrentId s) (taskUpdateCurrentId s + 1)
        (taskEvidenceCurrentId s)).

Definition generateId (prefix : string) (counter : Z) : string :=
  prefix ++ "_" ++ padStart 6 "0" (toString10 counter).

(** *** User methods *)

Definition getUser (id : string) : M t (option MemUser.t) :=
  gets (fun s => JsMap.get id (users s)).

Definition getUserByUsername (username : string)
  : M t (option MemUser.t) :=
  gets (fun s =>
          find (fun user =>
                  String.eqb
                    (toLowerCase (InsertUser.username (MemUser.data user)))
                    (toLowerCase username))
               (JsMap.values (users s))).

Definition createUser (tCreated tUpdated : Date)
  (insertUser : InsertUser.t) : M t MemUser.t :=
  n <- nextUserId ;;
  let id := generateId "user" n in
  let user := MemUser.mk id insertUser tCreated tUpdated None None in
  modify (on_users (JsMap.set id user)) ;;;
  ret user.

(** *** Team methods *)

Definition createTeam (tCreated tUpdated : Date)
  (insertTeam : InsertTeam.t) : M t MemTeam.t :=
  n <- nextTeamId ;;
  let id := generateId "team" n in
  let team := MemTeam.mk id insertTeam tCreated tUpdated None in
  modify (on_teams (JsMap.set id team)) ;;;
  ret team.

Definition getTeam (id : string) : M t (option MemTeam.t) :=
  gets (fun s => JsMap.get id (teams s)).

Definition assignUserToTeam (tUpdated : Date) (userId teamId : string)
  : M t MemUser.t :=
  foundUser <- getUser userId ;;
  match foundUser with
  | None => throw ("User with ID " ++ userId ++ " not found")
  | Some user =>
      foundTeam <- getTeam teamId ;;
      match foundTeam with
      | None => throw ("Team with ID " ++ teamId ++ " not found")
      | Some _ =>
          let user :=
            MemUser.set_data user
              (InsertUser.set_teamId (MemUser.data user) (Some teamId)) in
          let user := MemUser.set_updatedAt user tUpdated in
          modify (on_users (JsMap.set userId user)) ;;;
          ret user
      end
  end.

(** *** Task methods *)

Definition createTask (tCreated tUpdated : Date)
  (insertTask : InsertTask.t) : M t MemTask.t :=
  n <- nextTaskId ;;
  let id := generateId "task" n in
  let task := MemTask.mk id insertTask tCreated tUpdated in
  modify (on_tasks (JsMap.set id task)) ;;;
  ret task.

Definition getTask (id : string) : M t (option MemTask.t) :=
  gets (fun s => JsMap.get id (tasks s)).

(** [userId] is not used by the body. *)
Definition updateTaskStatus (tUpdated : Date) (id status userId : string)
  : M t MemTask.t :=
  found <- getTask id ;;
  match found with
  | None => throw ("Task with ID " ++ id ++ " not found")
  | Some task =>
      let task :=
        MemTask.set_data task
          (InsertTask.set_status (MemTask.data task) (Some status)) in
      let task := MemTask.set_updatedAt task tUpdated in
      modify (on_tasks (JsMap.set id task)) ;;;
      ret task
  end.

Definition assignTask (tUpdated : Date) (id assignedTo : string)
  : M t MemTask.t :=
  found <- getTask id ;;
  match found with
  | None => throw ("Task with ID " ++ id ++ " not found")
  | Some task =>
      let task :=
        MemTask.set_data task
          (InsertTask.set_assignedTo (MemTask.data task)
             (Some assignedTo)) in
      let task :=
        MemTask.set_data task
          (InsertTask.set_status (MemTask.data task) (Some "Assigned")) in
      let task := MemTask.set_updatedAt task tUpdated in
      modify (on_tasks (JsMap.set id task)) ;;;
      ret task
  end.

(** *** Feature and boundary methods *)

Definition createFeature (tCreated tUpdated tLast : Date)
  (insertFeature : InsertFeature.t) : M t MemFeature.t :=
  n <- nextFeatureId ;;
  let id := generateId "feature" n in
  let feature := MemFeature.mk id insertFeature tCreated tUpdated tLast in
  modify (on_features (JsMap.set id feature)) ;;;
  ret feature.

Definition getFeature (id : string) : M t (option MemFeature.t) :=
  gets (fun s => JsMap.get id (features s)).

Definition createBoundary (tCreated tUpdated : Date)
  (insertBoundary : InsertBoundary.t) : M t MemBoundary.t :=
  n <- nextBoundaryId ;;
  let id := generateId "boundary" n in
  let boundary := MemBoundary.mk id insertBoundary tCreated tUpdated in
  modify (on_boundaries (JsMap.set id boundary)) ;;;
  ret boundary.

Definition getBoundary (id : string) : M t (option MemBoundary.t) :=
  gets (fun s => JsMap.get id (boundaries s)).

(** *** Task update methods *)

Definition createTaskUpdate (tCreated : Date)
  (insertUpdate : InsertTaskUpdate.t) : M t MemTaskUpdate.t :=
  n <- nextTaskUpdateId ;;
  let id := generateId "update" n in
  let update := MemTaskUpdate.mk id insertUpdate tCreated in
  modify (on_taskUpdates (JsMap.set id update)) ;;;
  ret update.


(** *** Further methods *)

Definition on_taskEvidence
  (f : JsMap.t MemTaskEvidence.t -> JsMap.t MemTaskEvidence.t) (s : t)
  : t :=
  mk (users s) (teams s) (tasks s) (features s) (boundaries s)
     (taskUpdates s) (f (taskEvidence s)) (userCurrentId s)
     (teamCurrentId s) (taskCurrentId s) (featureCurrentId s)
     (boundaryCurrentId s) (taskUpdateCurrentId s)
     (taskEvidenceCurrentId s).

Definition nextTaskEvidenceId : M t Z :=
  fun s =>
    (Ok (taskEvidenceCurrentId s),
     mk (users s) (teams s) (tasks s) (features s) (boundaries s)
        (taskUpdates s) (taskEvidence s) (userCurrentId s)
        (teamCurrentId s) (taskCurrentId s) (featureCurrentId s)
        (boundaryCurrentId s) (taskUpdateCurrentId s)
        (taskEvidenceCurrentId s + 1)).

Definition updateUserLocation (tUpdated : Date) (id : string)
  (location : LatLng) : M t MemUser.t :=
  found <- getUser id ;;
  match found with
  | None => throw ("User with ID " ++ id ++ " not found")
  | Some user =>
      let user :=
        MemUser.set_currentLocation user
          (Some (Point.mk "Point" (lng location, lat location))) in
      let user := MemUser.set_updatedAt user tUpdated in
      modify (on_users (JsMap.set id user)) ;;;
      ret user
  end.

Definition updateUserLastActive (tActive tUpdated : Date) (id : string)
  : M t MemUser.t :=
  found <- getUser id ;;
  match found with
  | None => throw ("User with ID " ++ id ++ " not found")
  | Some user =>
      let user := MemUser.set_lastActive user (Some tActive) in
      let user := MemUser.set_updatedAt user tUpdated in
      modify (on_users (JsMap.set id user)) ;;;
      ret user
  end.

Definition getAllFieldUsers : M t (list MemUser.t) :=
  gets (fun s =>
          filter (fun user =>
                    Role_eqb (InsertUser.role (MemUser.data user)) Field)
                 (JsMap.values (users s))).

Definition getTeamByName (name : string) : M t (option MemTeam.t) :=
  gets (fun s =>
          find (fun team =>
                  String.eqb
                    (toLowerCase (InsertTeam.name (MemTeam.data team)))
                    (toLowerCase name))
               (JsMap.values (teams s))).

Definition updateTeamStatus (tUpdated : Date) (id status : string)
  (approvedBy : option string) : M t MemTeam.t :=
  found <- getTeam id ;;
  match found with
  | None => throw ("Team with ID " ++ id ++ " not found")
  | Some team =>
      let team :=
        MemTeam.set_data team
          (InsertTeam.set_status (MemTeam.data team) (Some status)) in
      let team := MemTeam.set_updatedAt team tUpdated in
      let team :=
        match truthy approvedBy with
        | Some approver => MemTeam.set_approvedBy team (Some approver)
        | None => team
        end in
      modify (on_teams (JsMap.set id team)) ;;;
      ret team
  end.

Definition getAllTeams : M t (list MemTeam.t) :=
  gets (fun s => JsMap.values (teams s)).

Definition getUsersByTeam (teamId : string) : M t (list MemUser.t) :=
  gets (fun s =>
          filter (fun user =>
                    FileStorage.optEqb
                      (InsertUser.teamId (MemUser.data user)) teamId)
                 (JsMap.values (users s))).

Definition getTasksByAssignee (userId : string) : M t (list MemTask.t) :=
  gets (fun s =>
          filter (fun task =>
                    FileStorage.optEqb
                      (InsertTask.assignedTo (MemTask.data task)) userId)
                 (JsMap.values (tasks s))).

Definition getTasksByCreator (userId : string) : M t (list MemTask.t) :=
  gets (fun s =>
          filter (fun task =>
                    FileStorage.optEqb
                      (InsertTask.createdBy (MemTask.data task)) userId)
                 (JsMap.values (tasks s))).

Definition getAllTasks : M t (list MemTask.t) :=
  gets (fun s => JsMap.values (tasks s)).

(** [updatedAt] is read before [lastUpdated]. *)
Definition updateFeature (tUpdated tLast : Date) (id : string)
  (featureUpdate : PartialFeature.t) : M t MemFeature.t :=
  found <- getFeature id ;;
  match found with
  | None => throw ("Feature with ID " ++ id ++ " not found")
  | Some feature =>
      let old := MemFeature.data feature in
      let updatedFeature :=
        MemFeature.mk
          (MemFeature._id feature)
          (InsertFeature.mk
             (orElse (PartialFeature.name featureUpdate)
                (InsertFeature.name old))
             (orElse (PartialFeature.feaNo featureUpdate)
                (InsertFeature.feaNo old))
             (orElse (PartialFeature.feaState featureUpdate)
                (InsertFeature.feaState old))
             (orElse (PartialFeature.feaStatus featureUpdate)
                (InsertFeature.feaStatus old))
             (orElse (PartialFeature.feaType featureUpdate)
                (InsertFeature.feaType old))
             (orElse (PartialFeature.specificType featureUpdate)
                (InsertFeature.specificType old))
             (orElseOpt (PartialFeature.maintenance featureUpdate)
                (InsertFeature.maintenance old))
             (orElseOpt (PartialFeature.maintenanceDate featureUpdate)
                (InsertFeature.maintenanceDate old))
             (orElseOpt (PartialFeature.geometry featureUpdate)
                (InsertFeature.geometry old))
             (orElseOpt (PartialFeature.remarks featureUpdate)
                (InsertFeature.remarks old))
             (orElseOpt (PartialFeature.createdBy featureUpdate)
                (InsertFeature.createdBy old))
             (orElseOpt (PartialFeature.boundaryId featureUpdate)
                (InsertFeature.boundaryId old)))
          (MemFeature.createdAt feature)
          tUpdated
          tLast in
      modify (on_features (JsMap.set id updatedFeature)) ;;;
      ret updatedFeature
  end.

Definition deleteFeature (id : string) : M t bool :=
  result <- gets (fun s => JsMap.has id (features s)) ;;
  modify (on_features (JsMap.delete id)) ;;;
  ret result.

Definition getAllFeatures : M t (list MemFeature.t) :=
  gets (fun s => JsMap.values (features s)).

Definition updateBoundaryStatus (tUpdated : Date) (id status : string)
  : M t MemBoundary.t :=
  found <- getBoundary id ;;
  match found with
  | None => throw ("Boundary with ID " ++ id ++ " not found")
  | Some boundary =>
      let boundary :=
        MemBoundary.set_data boundary
          (InsertBoundary.set_status (MemBoundary.data boundary)
             (Some status)) in
      let boundary := MemBoundary.set_updatedAt boundary tUpdated in
      modify (on_boundaries (JsMap.set id boundary)) ;;;
      ret boundary
  end.

Definition assignBoundary (tUpdated : Date) (id userId : string)
  : M t MemBoundary.t :=
  found <- getBoundary id ;;
  match found with
  | None => throw ("Boundary with ID " ++ id ++ " not found")
  | Some boundary =>
      let boundary :=
        MemBoundary.set_data boundary
          (InsertBoundary.set_assignedTo (MemBoundary.data boundary)
             (Some userId)) in
      let boundary := MemBoundary.set_updatedAt boundary tUpdated in
      modify (on_boundaries (JsMap.set id boundary)) ;;;
      ret boundary
  end.

Definition getAllBoundaries : M t (list MemBoundary.t) :=
  gets (fun s => JsMap.values (boundaries s)).

Definition getTaskUpdates (taskId : string) : M t (list MemTaskUpdate.t) :=
  gets (fun s =>
          filter (fun update =>
                    String.eqb
                      (InsertTaskUpdate.taskId (MemTaskUpdate.data update))
                      taskId)
                 (JsMap.values (taskUpdates s))).

Definition addTaskEvidence (tCreated : Date)
  (insertEvidence : InsertTaskEvidence.t) : M t MemTaskEvidence.t :=
  n <- nextTaskEvidenceId ;;
  let id := generateId "evidence" n in
  let evidence := MemTaskEvidence.mk id insertEvidence tCreated in
  modify (on_taskEvidence (JsMap.set id evidence)) ;;;
  ret evidence.

Definition getTaskEvidence (taskId : string)
  : M t (list MemTaskEvidence.t) :=
  gets (fun s =>
          filter (fun evidence =>
                    String.eqb
                      (InsertTaskEvidence.taskId
                         (MemTaskEvidence.data evidence))
                      taskId)
                 (JsMap.values (taskEvidence s))).
End MemStorage.

(* ================================================================== *)
(** ** The route handlers that validate before the storage call *)

Inductive Body (A : Type) : Type :=
| Message (message : string)
| ZodErrors (errors : list string)
| InvalidIds (message : string) (invalidIds : list string)
| UpdatedCount (message : string) (updatedCount : nat)
| Entity (a : A).

Arguments Message {A} message.
Arguments ZodErrors {A} errors.
Arguments InvalidIds {A} message invalidIds.
Arguments UpdatedCount {A} message updatedCount.
Arguments Entity {A} a.

Record Response (A : Type) : Type := respond {
  statusCode : Z;
  body : Body A
}.

Arguments respond {A} statusCode body.
Arguments statusCode {A} r.
Arguments body {A} r.

(** [try { m } catch (error) { h error }]. *)
Definition tryCatch {S A : Type} (m : M S A) (h : string -> M S A)
  : M S A :=
  fun s =>
    match m s with
    | (Ok a, s') => (Ok a, s')
    | (Throw e, s') => h e s'
    end.

(** What [const { password, ...userResponse } = newUser] keeps of a user of
    the file backend. *)
Module UserResponse.
Record t : Type := mk {
  _id : string;
  username : string;
  name : string;
  email : string;
  role : Role;
  teamId : option string;
  lastActive : option Date;
  currentLocation : option Point.t;
  createdAt : Date;
  updatedAt : Date
}.
Definition ofFileUser (u : FileUser.t) : t :=
  mk (FileUser._id u) (FileUser.username u) (FileUser.name u)
     (FileUser.email u) (FileUser.role u) (FileUser.teamId u)
     (FileUser.lastActive u) (FileUser.currentLocation u)
     (FileUser.createdAt u) (FileUser.updatedAt u).
End UserResponse.

Section UsersRoute.
(** The handler reaches the active backend through [storage]; the two
    methods it calls, and what it reads of their results, are the
    parameters.  [bcrypt_hash p] is the value of [bcrypt.hash(p, 10)]. *)
Context {S Team User Reply : Type}.
Variable storage_getTeam : string -> M S (option Team).
Variable storage_createUser : InsertUser.t -> M S User.
Variable team_status : Team -> string.
Variable withoutPassword : User -> Reply.
Variable bcrypt_hash : string -> string.

(** The guard on [userData.role === "Field" && userData.teamId]: the
    reply of the branch that returns early, if one does. *)
Definition checkTeam (userData : InsertUser.t)
  : M S (option (Response Reply)) :=
  match InsertUser.role userData, truthy (InsertUser.teamId userData) with
  | Field, Some teamId =>
      if negb (isValidObjectId teamId)
      then ret (Some (respond 400 (Message "Invalid team ID format")))
      else
        team <- storage_getTeam teamId ;;
        match team with
        | None => ret (Some (respond 400 (Message "Team does not exist")))
        | Some team =>
            if negb (String.eqb (team_status team) "Approved")
            then ret (Some (respond 400
                          (Message "Team is not approved for registration")))
            else ret None
        end
  | _, _ => ret None
  end.

(** [POST /api/users].  [parsed] is the outcome of
    [insertUserSchema.parse(req.body)]: the user data, or the errors of
    the [ZodError] it throws. *)
Definition postUsers (parsed : InsertUser.t + list string)
  : M S (Response Reply) :=
  tryCatch
    (match parsed with
     | inr errors => ret (respond 400 (ZodErrors errors))
     | inl userData =>
         early <- checkTeam userData ;;
         match early with
         | Some reply => ret reply
         | None =>
             let userData :=
               InsertUser.set_password userData
                 (bcrypt_hash (InsertUser.password userData)) in
             newUser <- storage_createUser userData ;;
             ret (respond 201 (Entity (withoutPassword newUser)))
         end
     end)
    (fun _ => ret (respond 500 (Message "Failed to create user"))).
End UsersRoute.

(** [POST /api/users] with the file backend as [storage]. *)
Definition postUsersFile (bcrypt_hash : string -> string) (e : IdSource)
  (tCreated tUpdated : Date) (parsed : InsertUser.t + list string)
  : M FileStorage.t (Response UserResponse.t) :=
  postUsers FileStorage.getTeam (FileStorage.createUser e tCreated tUpdated)
    FileTeam.status UserResponse.ofFileUser bcrypt_hash parsed.

(** Modelled from the spec: [bulkUpdateTaskStatus] of the document-database
    backend ([MongoStorage], imported by [server/index.ts]), which is not
    among the sources; only its caller, the handler [patchBulkStatus]
    further down, is.  Spec §4.5: it "validates every id is well-formed
    before applying any mutation (reject-all-or-nothing on format
    validity), then applies the status change independently to each
    existing id, skipping ids that do not resolve to a task, and returns
    the count of tasks actually mutated", and a mutation happens "exactly
    once per affected task".  The task collection is a map from id to task
    record; [clock id] is the time of the write to the task [id].  The
    audit record of §4.3 is outside this operation's result and is not
    modelled. *)
Module MongoStorage.

Definition t : Type := JsMap.t FileTask.t.

(** The tasks that a call affects: the ids of the call that resolve to a
    task, each once. *)
Definition affected (ids : list string) (tasks : t) : list string :=
  nodup string_dec (filter (fun id => JsMap.has id tasks) ids).

Definition bulkStep (clock : string -> Date) (status : string)
  (tasks : t) (id : string) : t :=
  match JsMap.get id tasks with
  | Some task =>
      let task := FileTask.set_status task status in
      let task := FileTask.set_updatedAt task (clock id) in
      JsMap.set id task tasks
  | None => tasks
  end.

Definition bulkUpdateTaskStatus (clock : string -> Date)
  (ids : list string) (status : string) : M t nat :=
  fun tasks =>
    if forallb isValidObjectId ids
    then
      let targets := affected ids tasks in
      (Ok (List.length targets),
       fold_left (bulkStep clock status) targets tasks)
    else (Throw "Invalid task ID format", tasks).

End MongoStorage.

(* ================================================================== *)
(** ** Guarded routes *)

(** What the handlers read of [req.user]. *)
Record SessionUser : Type := mkSessionUser {
  session_id : string;
  session_role : Role
}.

(** The middleware [isAuthenticated]; [user] is [None] when
    [req.isAuthenticated()] is false. *)
Definition isAuthenticated {S A : Type} (user : option SessionUser)
  (next : SessionUser -> M S (Response A)) : M S (Response A) :=
  match user with
  | Some u => next u
  | None => ret (respond 401 (Message "Not authenticated"))
  end.

(** The middleware [isSupervisor]. *)
Definition isSupervisor {S A : Type} (user : option SessionUser)
  (next : SessionUser -> M S (Response A)) : M S (Response A) :=
  match user with
  | Some u =>
      if Role_eqb (session_role u) Supervisor then next u
      else ret (respond 403
                  (Message "Access denied: Supervisor role required"))
  | None =>
      ret (respond 403 (Message "Access denied: Supervisor role required"))
  end.

(** The middleware [validateObjectId(paramName)] on the value [id] of that
    parameter. *)
Definition validateObjectId {S A : Type} (paramName id : string)
  (next : M S (Response A)) : M S (Response A) :=
  if negb (isValidObjectId id)
  then ret (respond 400 (Message ("Invalid " ++ paramName ++ " format")))
  else next.

Section FeatureRoutes.
Context {S Feature : Type}.
Variable storage_getFeature : string -> M S (option Feature).
Variable storage_deleteFeature : string -> M S bool.
Variable feature_createdBy : Feature -> option string.

(** [DELETE /api/features/:id]. *)
Definition deleteFeatureRoute (user : option SessionUser) (id : string)
  : M S (Response unit) :=
  isAuthenticated user (fun user =>
    validateObjectId "id" id
      (tryCatch
         (feature <- storage_getFeature id ;;
          match feature with
          | None => ret (respond 404 (Message "Feature not found"))
          | Some feature =>
              if negb (FileStorage.optEqb (feature_createdBy feature)
                         (session_id user))
                 && negb (Role_eqb (session_role user) Supervisor)
              then
                ret (respond 403
                       (Message
                          "You don't have permission to delete this feature"))
              else
                deleted <- storage_deleteFeature id ;;
                if deleted
                then ret (respond 200
                            (Message "Feature deleted successfully"))
                else ret (respond 500 (Message "Failed to delete feature"))
          end)
         (fun _ => ret (respond 500 (Message "Failed to delete feature"))))).
End FeatureRoutes.

(** [DELETE /api/features/:id] with the file backend as [storage]. *)
Definition deleteFeatureRouteFile (user : option SessionUser) (id : string)
  : M FileStorage.t (Response unit) :=
  deleteFeatureRoute FileStorage.getFeature FileStorage.deleteFeature
    FileFeature.createdBy user id.

Section TeamRoutes.
Context {S Team : Type}.
Variable storage_getTeam : string -> M S (option Team).
Variable storage_updateTeamStatus :
  string -> string -> option string -> M S Team.

(** [PATCH /api/teams/:id/status]; [status] is the body's [status]. *)
Definition patchTeamStatus (user : option SessionUser) (id status : string)
  : M S (Response Team) :=
  isSupervisor user (fun user =>
    validateObjectId "id" id
      (tryCatch
         (if negb (existsb (String.eqb status)
                     ["Pending"; "Approved"; "Rejected"])
          then ret (respond 400 (Message "Invalid status"))
          else
            team <- storage_getTeam id ;;
            match team with
            | None => ret (respond 404 (Message "Team not found"))
            | Some _ =>
                updatedTeam <-
                  storage_updateTeamStatus id status
                    (if String.eqb status "Approved"
                     then Some (session_id user) else None) ;;
                ret (respond 200 (Entity updatedTeam))
            end)
         (fun _ =>
            ret (respond 500 (Message "Failed to update team status"))))).
End TeamRoutes.

(** [PATCH /api/teams/:id/status] with the file backend as [storage]. *)
Definition patchTeamStatusFile (tUpdated : Date)
  (user : option SessionUser) (id status : string)
  : M FileStorage.t (Response FileTeam.t) :=
  patchTeamStatus FileStorage.getTeam
    (FileStorage.updateTeamStatus tUpdated) user id status.

Section BulkRoute.
Context {S : Type}.
Variable storage_bulkUpdateTaskStatus : list string -> string -> M S nat.

(** [PATCH /api/tasks/bulk-status], behind [isAuthenticated].  [taskIds]
    is [None] when the body has no array under that name. *)
Definition patchBulkStatus (user : option SessionUser)
  (taskIds : option (list string)) (status : option string)
  : M S (Response unit) :=
  isAuthenticated user (fun _ =>
    tryCatch
      (match taskIds with
       | None | Some [] =>
           ret (respond 400 (Message "Task IDs array is required"))
       | Some taskIds =>
           match truthy status with
           | None => ret (respond 400 (Message "Status is required"))
           | Some status =>
               let invalidIds :=
                 filter (fun id => negb (isValidObjectId id)) taskIds in
               if (0 <? List.length invalidIds)%nat
               then ret (respond 400
                           (InvalidIds "Invalid task ID format" invalidIds))
               else
                 updatedCount <-
                   storage_bulkUpdateTaskStatus taskIds status ;;
                 ret (respond 200
                        (UpdatedCount
                           ("Updated "
                              ++ toString10 (Z.of_nat updatedCount)
                              ++ " tasks")
                           updatedCount))
           end
       end)
      (fun _ =>
         ret (respond 500 (Message "Failed to bulk update task status")))).

(** The route is registered inside [if (hasEnhancedMethods)], where
    [hasEnhancedMethods] is [storage.getUsersNearLocation !== undefined]:
    [None] when the backend has no such method, and then this code
    answers no request to the path. *)
Definition bulkStatusRoute (hasEnhancedMethods : bool)
  : option (option SessionUser -> option (list string) -> option string ->
            M S (Response unit)) :=
  if hasEnhancedMethods then Some patchBulkStatus else None.
End BulkRoute.

(* ================================================================== *)
(** ** Initial data *)

Section InitialData.
(** [addInitialData(storage)] of [server/index.ts].  The first argument of
    [createUser] and of [createTeam] names the call (the supervisor is 0,
    the demo user 1; the teams are 0 to 3), for what the backend reads from
    its environment in it.  The calls of [log] print and are left out; what
    is caught is thrown again. *)
Context {S User Team : Type}.
Variable storage_getUserByUsername : string -> M S (option User).
Variable storage_createUser : nat -> InsertUser.t -> M S User.
Variable storage_getAllTeams : M S (list Team).
Variable storage_createTeam : nat -> InsertTeam.t -> M S Team.
Variable user_id : User -> string.
Variable team_id : Team -> string.

Definition supervisorData : InsertUser.t :=
  InsertUser.mk "supervisor12" "supervisor@12" "System Supervisor"
    "supervisor@geowhats.com" Supervisor None.

Definition initialTeams (supervisorId : string) : list InsertTeam.t :=
  [ InsertTeam.mk "Field Team Alpha"
      (Some "Primary field operations team for towers and infrastructure")
      (Some "Approved") supervisorId;
    InsertTeam.mk "Field Team Beta"
      (Some "Secondary field operations team for maintenance tasks")
      (Some "Approved") supervisorId;
    InsertTeam.mk "Maintenance Team"
      (Some "Specialized team for infrastructure maintenance and repairs")
      (Some "Approved") supervisorId;
    InsertTeam.mk "Survey Team"
      (Some "Team responsible for site surveys and boundary mapping")
      (Some "Approved") supervisorId ].

Definition fieldUserData (teamId : string) : InsertUser.t :=
  InsertUser.mk "field_user_demo" "demo123" "Demo Field User"
    "field.demo@geowhats.com" Field (Some teamId).

(** [for (const teamData of teams) await storage.createTeam(teamData)]. *)
Fixpoint createTeams (n : nat) (teams : list InsertTeam.t) : M S unit :=
  match teams with
  | [] => ret tt
  | teamData :: rest =>
      storage_createTeam n teamData ;;;
      createTeams (Datatypes.S n) rest
  end.

Definition addInitialData : M S unit :=
  existingSupervisor <- storage_getUserByUsername "supervisor12" ;;
  supervisorId <-
    match existingSupervisor with
    | None =>
        supervisor <- storage_createUser 0%nat supervisorData ;;
        ret (user_id supervisor)
    | Some existing => ret (user_id existing)
    end ;;
  allTeams <- storage_getAllTeams ;;
  match allTeams with
  | [] => createTeams 0%nat (initialTeams supervisorId)
  | _ :: _ => ret tt
  end ;;;
  existingFieldUser <- storage_getUserByUsername "field_user_demo" ;;
  match existingFieldUser, allTeams with
  | None, first :: _ =>
      storage_createUser 1%nat (fieldUserData (team_id first)) ;;;
      ret tt
  | _, _ => ret tt
  end.
End InitialData.

(** What the file backend reads in one [create*] call: the id source and
    the two clock readings. *)
Record CreateEnv : Type := mkCreateEnv {
  env_source : IdSource;
  env_created : Date;
  env_updated : Date
}.

(** [addInitialData] with the file backend as [storage]. *)
Definition addInitialDataFile (userEnv teamEnv : nat -> CreateEnv)
  : M FileStorage.t unit :=
  addInitialData FileStorage.getUserByUsername
    (fun n =>
       FileStorage.createUser (env_source (userEnv n))
         (env_created (userEnv n)) (env_updated (userEnv n)))
    FileStorage.getAllTeams
    (fun n =>
       FileStorage.createTeam (env_source (teamEnv n))
         (env_created (teamEnv n)) (env_updated (teamEnv n)))
    FileUser._id FileTeam._id.
(* ================================================================== *)
(** ** Specification functions *)

(** [n] mod [16^k] written with exactly [k] hexadecimal digits. *)
Fixpoint hexFixed (k : nat) (n : Z) : string :=
  match k with
  | O => ""
  | S k' => hexFixed k' (n / 16) ++ String (hexDigit (n mod 16)) ""
  end.

Fixpoint zeros (k : nat) : string :=
  match k with
  | O => ""
  | S k' => String "0" (zeros k')
  end.

(** Two strings are equal up to the case of their ASCII letters. *)
Definition sameUpToCase (a b : string) : Prop :=
  toLowerCase a = toLowerCase b.

(** The task update that a status change of the file backend is to leave:
    [id] is the record's own id, [oldStatus] the status before the write. *)
Definition auditRecord (id taskId userId oldStatus newStatus : string)
  (createdAt : Date) : FileTaskUpdate.t :=
  FileTaskUpdate.mk id taskId userId
    (Some ("Status updated to " ++ newStatus))
    (Some oldStatus) (Some newStatus) createdAt.

(** [create] then [get] by the id of the created entity gives that entity
    back, with [updatedAt] not before [createdAt]. *)
Definition roundTrip {S A : Type} (create : M S A)
  (get : string -> M S (option A)) (idOf : A -> string)
  (createdAt updatedAt : A -> Date) (s : S) : Prop :=
  exists (a : A) (s' : S),
    create s = (Ok a, s') /\
    get (idOf a) s' = (Ok (Some a), s') /\
    createdAt a <= updatedAt a.

(** What the bulk operation writes over a task. *)
Definition bulkWrite (clock : string -> Date) (status id : string)
  (task : FileTask.t) : FileTask.t :=
  FileTask.set_updatedAt (FileTask.set_status task status) (clock id).

(** Every key of the map is the id of the record under it, and no key
    occurs twice. *)
Definition keyedById {V : Type} (idOf : V -> string) (m : JsMap.t V)
  : Prop :=
  NoDup (JsMap.keys m) /\
  Forall (fun kv => idOf (snd kv) = fst kv) m.

Definition fileWellKeyed (s : FileStorage.t) : Prop :=
  keyedById FileUser._id (FileStorage.users s) /\
  keyedById FileTask._id (FileStorage.tasks s) /\
  keyedById FileFeature._id (FileStorage.features s) /\
  keyedById FileBoundary._id (FileStorage.boundaries s) /\
  keyedById FileTaskUpdate._id (FileStorage.taskUpdates s) /\
  keyedById FileTaskEvidence._id (FileStorage.taskEvidence s) /\
  keyedById FileTeam._id (FileStorage.teams s).

(** Value of a string of digits in base [radix], read most significant
    first. *)
Definition radixValue (radix : Z) (s : string) : Z :=
  fold_left (fun acc c => radix * acc + hexCharValue c)
            (list_ascii_of_string s) 0.

(** The number that [generateId] wrote into an id: what follows the prefix
    and the underscore, read in base ten. *)
Definition idCounter (prefix id : string) : Z :=
  radixValue 10
    (substring (S (String.length prefix))
       (String.length id - S (String.length prefix)) id).

(** Every key of the map was issued by [generateId] from a counter value
    below the current one. *)
Definition issuedBy {V : Type} (prefix : string) (counter : Z)
  (m : JsMap.t V) : Prop :=
  0 <= counter /\
  forall k, In k (JsMap.keys m) ->
            exists n, 0 <= n < counter /\ k = MemStorage.generateId prefix n.

Definition memIssued (s : MemStorage.t) : Prop :=
  issuedBy "user" (MemStorage.userCurrentId s) (MemStorage.users s) /\
  issuedBy "team" (MemStorage.teamCurrentId s) (MemStorage.teams s) /\
  issuedBy "task" (MemStorage.taskCurrentId s) (MemStorage.tasks s) /\
  issuedBy "feature" (MemStorage.featureCurrentId s)
    (MemStorage.features s) /\
  issuedBy "boundary" (MemStorage.boundaryCurrentId s)
    (MemStorage.boundaries s) /\
  issuedBy "update" (MemStorage.taskUpdateCurrentId s)
    (MemStorage.taskUpdates s) /\
  issuedBy "evidence" (MemStorage.taskEvidenceCurrentId s)
    (MemStorage.taskEvidence s).

(** The keys of [m] are ids that [generateId] made from the counter values
    1 up to, but not including, [counter], the next value to be used. *)
Definition numberedBy {V : Type} (prefix : string) (counter : Z)
  (m : JsMap.t V) : Prop :=
  1 <= counter /\
  forall k, In k (JsMap.keys m) ->
            exists n, 1 <= n < counter /\ k = MemStorage.generateId prefix n.

Definition memNumbered (s : MemStorage.t) : Prop :=
  numberedBy "user" (MemStorage.userCurrentId s) (MemStorage.users s) /\
  numberedBy "team" (MemStorage.teamCurrentId s) (MemStorage.teams s) /\
  numberedBy "task" (MemStorage.taskCurrentId s) (MemStorage.tasks s) /\
  numberedBy "feature" (MemStorage.featureCurrentId s)
    (MemStorage.features s) /\
  numberedBy "boundary" (MemStorage.boundaryCurrentId s)
    (MemStorage.boundaries s) /\
  numberedBy "update" (MemStorage.taskUpdateCurrentId s)
    (MemStorage.taskUpdates s) /\
  numberedBy "evidence" (MemStorage.taskEvidenceCurrentId s)
    (MemStorage.taskEvidence s).

(** An operation that adds one record: it succeeds, the id of the record it
    returns was not a key, and the collection afterwards is the former one
    followed by that record. *)
Definition appendsOne {S A : Type} (op : M S A) (coll : S -> JsMap.t A)
  (idOf : A -> string) (s : S) : Prop :=
  exists (a : A) (s' : S),
    op s = (Ok a, s') /\
    JsMap.get (idOf a) (coll s) = None /\
    coll s' = (coll s ++ [(idOf a, a)])%list.

(* ================================================================== *)
(** ** Sample environments and stores *)

(** 2023-11-14T22:13:20.123Z and three draws. *)
Definition sampleSource : IdSource :=
  mkIdSource 1700000000123 255 0 16777214.

(** The last millisecond whose seconds fit eight hexadecimal digits, and
    the first one after it (2106-02-07T06:28:16.000Z). *)
Definition lastFitSource : IdSource := mkIdSource 4294967295999 1 2 3.

Definition overflowSource : IdSource := mkIdSource 4294967296000 1 2 3.

Definition sampleSource2 : IdSource :=
  mkIdSource 1700000005000 7 8 9.

Definition sampleInsertTask : InsertTask.t :=
  InsertTask.mk "Inspect tower" None (Some "In Progress") "High"
    None None None None None None.

(** The in-memory backend after one [createTask]: the task ["task_000001"]
    with status ["In Progress"] and no task update. *)
Definition memWithTask : MemStorage.t :=
  snd (MemStorage.createTask 1000 1000 sampleInsertTask MemStorage.empty).

(** The file backend after one [createTask], and the id of that task. *)
Definition fileWithTask : FileStorage.t :=
  snd (FileStorage.createTask sampleSource 1000 1000 sampleInsertTask
         FileStorage.empty).

Definition sampleTaskId : string := "6553f1000000ff0000fffffe".

Definition sampleUserId : string := "6553f0000000aa0000bbbbbb".

Definition sampleInsertUser : InsertUser.t :=
  InsertUser.mk "Alice" "secret" "Alice Doe" "alice@example.org"
    Supervisor None.

(** The in-memory backend after one [createUser]: the user
    ["user_000001"]. *)
Definition memWithUser : MemStorage.t :=
  snd (MemStorage.createUser 1000 1000 sampleInsertUser MemStorage.empty).

(** The file backend after one [createUser]: the user ["Alice"] under the
    id generated from [sampleSource]. *)
Definition fileWithUser : FileStorage.t :=
  snd (FileStorage.createUser sampleSource 1000 1000 sampleInsertUser
         FileStorage.empty).

Definition sampleAliceId : string := "6553f1000000ff0000fffffe".

(** A well-formed id under which no team is stored. *)
Definition sampleTeamId : string := "6553f2000000110000222222".

(** The file backend after one [createTeam], without a status (the team is
    ["Pending"]) and with the status ["Approved"]; the team's id; and the
    registration of a field user against that team. *)
Definition fileWithPendingTeam : FileStorage.t :=
  snd (FileStorage.createTeam sampleSource 1000 1000
         (InsertTeam.mk "Alpha" None None sampleUserId) FileStorage.empty).

Definition fileWithApprovedTeam : FileStorage.t :=
  snd (FileStorage.createTeam sampleSource 1000 1000
         (InsertTeam.mk "Alpha" None (Some "Approved") sampleUserId)
         FileStorage.empty).

Definition storedTeamId : string := "6553f1000000ff0000fffffe".

Definition fieldUserInput : InsertUser.t :=
  InsertUser.mk "bob" "pw" "Bob" "bob@example.org" Field
    (Some storedTeamId).

Definition sampleHash (p : string) : string := "$2a$10$" ++ p.

(** A task collection with two tasks, and their ids. *)
Definition twoTasks : MongoStorage.t :=
  FileStorage.tasks
    (snd (FileStorage.createTask sampleSource2 1500 1500 sampleInsertTask
            fileWithTask)).

Definition secondTaskId : string := "6553f1050000070008000009".

Definition sampleClock (id : string) : Date := 9000.

Definition sampleInsertFeature : InsertFeature.t :=
  InsertFeature.mk "Tower 1" "T-1" "Plan" "New" "Tower" "Lattice"
    None None (Some (Geometry.mk "Point" (Position (20, 10))))
    None (Some sampleUserId) None.

(** The file backend after one [createFeature]; the feature's id is
    [sampleTaskId], the creator is [sampleUserId]. *)
Definition fileWithFeature : FileStorage.t :=
  snd (FileStorage.createFeature sampleSource 1000 1000 1000
         sampleInsertFeature FileStorage.empty).

(** The file backend after one [createTeam] with status ["Approved"],
    approved afterwards by [sampleUserId]. *)
Definition fileWithApprovedBy : FileStorage.t :=
  snd (FileStorage.updateTeamStatus 2000 storedTeamId "Approved"
         (Some sampleUserId) fileWithApprovedTeam).

Definition creatorSession : SessionUser := mkSessionUser sampleUserId Field.

Definition strangerSession : SessionUser :=
  mkSessionUser sampleTeamId Field.

Definition supervisorSession : SessionUser :=
  mkSessionUser sampleUserId Supervisor.

(** Environments for the calls of [addInitialData]: distinct clock seconds
    give distinct ids. *)
Definition seedUserEnv (n : nat) : CreateEnv :=
  mkCreateEnv (mkIdSource (1700000000000 + 1000 * Z.of_nat n) 1 1 1)
    1000 1000.

Definition seedTeamEnv (n : nat) : CreateEnv :=
  mkCreateEnv (mkIdSource (1700000100000 + 1000 * Z.of_nat n) 2 2 2)
    1000 1000.

(** The file backend after the first and after the second start. *)
Definition afterFirstStart : FileStorage.t :=
  snd (addInitialDataFile seedUserEnv seedTeamEnv FileStorage.empty).

Definition afterSecondStart : FileStorage.t :=
  snd (addInitialDataFile seedUserEnv seedTeamEnv afterFirstStart).

(** The in-memory backend after one [createFeature]: the feature
    ["feature_000001"]. *)
Definition memWithFeature : MemStorage.t :=
  snd (MemStorage.createFeature 1000 1000 1000 sampleInsertFeature
         MemStorage.empty).

Definition sampleInsertBoundary : InsertBoundary.t :=
  InsertBoundary.mk "North" None None None
    (Geometry.mk "Polygon"
       (Rings [[(0, 0); (0, 10); (10, 10); (0, 0)]])).

(** The file backend after one [createBoundary]; the boundary's id is
    [sampleTaskId]. *)
Definition fileWithBoundary : FileStorage.t :=
  snd (FileStorage.createBoundary sampleSource 1000 1000
         sampleInsertBoundary FileStorage.empty).

(** The file backend with two tasks, created at 1000 and at 1500. *)
Definition fileWithTwoTasks : FileStorage.t :=
  snd (FileStorage.createTask sampleSource2 1500 1500 sampleInsertTask
         fileWithTask).

(** The file backend after a status change of its task: one task update,
    written at 2001 under the id [secondTaskId]. *)
Definition fileWithUpdate : FileStorage.t :=
  snd (FileStorage.updateTaskStatus sampleSource2 2000 2001 sampleTaskId
         "Completed" sampleUserId fileWithTask).

Definition sampleInsertEvidence : InsertTaskEvidence.t :=
  InsertTaskEvidence.mk sampleTaskId sampleUserId "/uploads/1.png"
    (Some "").

(** The file backend with one evidence of its task, added at 4000 under the
    id [secondTaskId]. *)
Definition fileWithEvidence : FileStorage.t :=
  snd (FileStorage.addTaskEvidence sampleSource2 4000 sampleInsertEvidence
         fileWithTask).

(** The file backend after a second status change of its task: two task
    updates, written at 2001 and at 3001. *)
Definition fileWithTwoUpdates : FileStorage.t :=
  snd (FileStorage.updateTaskStatus sampleSource 3000 3001 sampleTaskId
         "Verified" sampleUserId fileWithUpdate).

(* ================================================================== *)
(** * Verification *)

(** ** Maps *)

Module JsMapFacts.
Section WithValue.
Context {V : Type}.
Implicit Types (m : JsMap.t V) (k : string) (v : V).

Lemma get_set_same k v m : JsMap.get k (JsMap.set k v m) = Some v.
Proof.
  induction m as [|[k' v'] r IH]; simpl.
  - now rewrite String.eqb_refl.
  - destruct (String.eqb k k') eqn:E; simpl; rewrite ?String.eqb_refl.
    + reflexivity.
    + now rewrite E.
Qed.

Lemma get_set_other k k' v m :
  k <> k' -> JsMap.get k' (JsMap.set k v m) = JsMap.get k' m.
Proof.
  intros Hne. induction m as [|[k0 v0] r IH]; simpl.
  - destruct (String.eqb k' k) eqn:E; [|reflexivity].
    apply String.eqb_eq in E. congruence.
  - destruct (String.eqb k k0) eqn:E; simpl.
    + apply String.eqb_eq in E. subst k0.
      destruct (String.eqb k' k) eqn:E'; [|reflexivity].
      apply String.eqb_eq in E'. congruence.
    + now rewrite IH.
Qed.

Lemma values_set_fresh k v m :
  JsMap.get k m = None ->
  JsMap.values (JsMap.set k v m) = (JsMap.values m ++ [v])%list.
Proof.
  unfold JsMap.values. induction m as [|[k' v'] r IH]; simpl; intros H.
  - reflexivity.
  - destruct (String.eqb k k'); [discriminate|].
    simpl. now rewrite IH.
Qed.

Lemma size_set_fresh k v m :
  JsMap.get k m = None ->
  JsMap.size (JsMap.set k v m) = S (JsMap.size m).
Proof.
  unfold JsMap.size. induction m as [|[k' v'] r IH]; simpl; intros H.
  - reflexivity.
  - destruct (String.eqb k k'); [discriminate|].
    simpl. now rewrite IH.
Qed.

Lemma size_set_present k v v0 m :
  JsMap.get k m = Some v0 ->
  JsMap.size (JsMap.set k v m) = JsMap.size m.
Proof.
  unfold JsMap.size. induction m as [|[k' v'] r IH]; simpl; intros H.
  - discriminate.
  - destruct (String.eqb k k'); simpl; [reflexivity|].
    now rewrite IH.
Qed.

Lemma get_in_values k v m :
  JsMap.get k m = Some v -> In v (JsMap.values m).
Proof.
  unfold JsMap.values. induction m as [|[k' v'] r IH]; simpl; intros H.
  - discriminate.
  - destruct (String.eqb k k').
    + left. congruence.
    + right. auto.
Qed.

Lemma keys_set_present k v v0 m :
  JsMap.get k m = Some v0 -> JsMap.keys (JsMap.set k v m) = JsMap.keys m.
Proof.
  unfold JsMap.keys. induction m as [|[k' v'] r IH]; simpl; intros H.
  - discriminate.
  - destruct (String.eqb k k') eqn:E; simpl.
    + apply String.eqb_eq in E. now subst.
    + now rewrite IH.
Qed.

Lemma has_set k k' v v0 m :
  JsMap.get k m = Some v0 ->
  JsMap.has k' (JsMap.set k v m) = JsMap.has k' m.
Proof.
  intros H. unfold JsMap.has.
  destruct (String.eqb k k') eqn:E.
  - apply String.eqb_eq in E. subst k'.
    now rewrite get_set_same, H.
  - apply String.eqb_neq in E. now rewrite get_set_other.
Qed.
End WithValue.
End JsMapFacts.

(** ** Strings and hexadecimal digits *)

Lemma length_app (a b : string) :
  String.length (a ++ b) = (String.length a + String.length b)%nat.
Proof. induction a; simpl; [reflexivity | now rewrite IHa]. Qed.

Lemma append_assoc (a b c : string) : (a ++ b) ++ c = a ++ b ++ c.
Proof. induction a; simpl; [reflexivity | now rewrite IHa]. Qed.

Lemma forallChars_app (p : ascii -> bool) (a b : string) :
  forallChars p (a ++ b) = forallChars p a && forallChars p b.
Proof.
  induction a; simpl; [reflexivity | rewrite IHa; apply andb_assoc].
Qed.

Lemma list_ascii_app (a b : string) :
  list_ascii_of_string (a ++ b)
  = (list_ascii_of_string a ++ list_ascii_of_string b)%list.
Proof. induction a; simpl; [reflexivity | now rewrite IHa]. Qed.

Lemma substring_prefix (a b : string) :
  substring 0 (String.length a) (a ++ b) = a.
Proof.
  induction a; simpl.
  - destruct b; reflexivity.
  - now rewrite IHa.
Qed.

Lemma substring_skip (a b : string) (n : nat) :
  substring (String.length a) n (a ++ b) = substring 0 n b.
Proof. induction a; simpl; [reflexivity | exact IHa]. Qed.

Lemma zeros_snoc (k : nat) : zeros k ++ "0" = zeros (S k).
Proof. induction k; simpl; [reflexivity | now rewrite IHk]. Qed.

Lemma padFill_zeros (n : nat) :
  padFill n "0" "0" = zeros n /\ padFill n "" "0" = zeros n.
Proof.
  induction n as [|n [IH1 IH2]]; simpl; [split; reflexivity|].
  now rewrite IH2.
Qed.

Lemma padStart_zeros (k : nat) (s : string) :
  (String.length s <= k)%nat ->
  padStart k "0" s = zeros (k - String.length s) ++ s.
Proof.
  intros H. unfold padStart.
  destruct (Nat.leb_spec k (String.length s)) as [Hle|Hlt].
  - replace (k - String.length s)%nat with O by lia. reflexivity.
  - now rewrite (proj1 (padFill_zeros _)).
Qed.

Lemma hexFixed_zero (k : nat) : hexFixed k 0 = zeros k.
Proof.
  induction k; simpl; [reflexivity|].
  change (0 / 16) with 0. rewrite IHk. apply zeros_snoc.
Qed.

Lemma hexFixed_length (k : nat) (n : Z) : String.length (hexFixed k n) = k.
Proof.
  revert n. induction k; intros n; simpl; [reflexivity|].
  rewrite length_app, IHk. simpl. lia.
Qed.

Lemma hexDigit_cases (x : Z) :
  0 <= x < 16 ->
  x = 0 \/ x = 1 \/ x = 2 \/ x = 3 \/ x = 4 \/ x = 5 \/ x = 6 \/ x = 7 \/
  x = 8 \/ x = 9 \/ x = 10 \/ x = 11 \/ x = 12 \/ x = 13 \/ x = 14 \/ x = 15.
Proof. lia. Qed.

Ltac each_digit x H :=
  let C := fresh "C" in
  pose proof (hexDigit_cases x H) as C;
  repeat (destruct C as [C|C]; [subst x|]); [..|subst x].

Lemma hexDigit_lower (x : Z) :
  0 <= x < 16 -> isLowerHexChar (hexDigit x) = true.
Proof. intros H. each_digit x H; reflexivity. Qed.

Lemma hexDigit_value (x : Z) :
  0 <= x < 16 -> hexCharValue (hexDigit x) = x.
Proof. intros H. each_digit x H; reflexivity. Qed.

Lemma hexDigit_code (x : Z) :
  0 <= x < 16 ->
  Z.of_N (N_of_ascii (hexDigit x)) = if x <? 10 then 48 + x else 87 + x.
Proof. intros H. each_digit x H; reflexivity. Qed.

Lemma hexDigit_compare (x y : Z) :
  0 <= x < 16 -> 0 <= y < 16 ->
  Ascii.compare (hexDigit x) (hexDigit y) = (x ?= y).
Proof.
  intros Hx Hy. unfold Ascii.compare.
  rewrite <- N2Z.inj_compare, !hexDigit_code by assumption.
  destruct (Z.ltb_spec x 10), (Z.ltb_spec y 10);
    destruct (Z.compare_spec x y) as [E|E|E];
    try (apply Z.compare_eq_iff; lia);
    try (apply Z.compare_lt_iff; lia);
    try (apply Z.compare_gt_iff; lia).
Qed.

Lemma hexFixed_lower (k : nat) (n : Z) :
  forallChars isLowerHexChar (hexFixed k n) = true.
Proof.
  revert n. induction k; intros n; simpl; [reflexivity|].
  rewrite forallChars_app, IHk. simpl.
  rewrite hexDigit_lower; [reflexivity|].
  apply Z.mod_pos_bound. lia.
Qed.

Lemma lowerHex_isHex (s : string) :
  forallChars isLowerHexChar s = true -> forallChars isHexChar s = true.
Proof.
  induction s; simpl; [reflexivity|].
  intros H. apply andb_prop in H as [Ha Hs].
  rewrite IHs by assumption. unfold isHexChar. rewrite Ha. reflexivity.
Qed.

Lemma hexValue_snoc (s : string) (c : ascii) :
  hexValue (s ++ String c "") = 16 * hexValue s + hexCharValue c.
Proof.
  unfold hexValue. rewrite list_ascii_app, fold_left_app. reflexivity.
Qed.

Lemma pow16_succ (k : nat) : 16 ^ Z.of_nat (S k) = 16 * 16 ^ Z.of_nat k.
Proof. rewrite Nat2Z.inj_succ, Z.pow_succ_r by lia. reflexivity. Qed.

Lemma div16_bound (k : nat) (n : Z) :
  0 <= n < 16 ^ Z.of_nat (S k) -> 0 <= n / 16 < 16 ^ Z.of_nat k.
Proof.
  rewrite pow16_succ. intros [H0 H1]. split.
  - apply Z.div_pos; lia.
  - apply Z.div_lt_upper_bound; lia.
Qed.

Lemma hexFixed_value (k : nat) (n : Z) :
  0 <= n < 16 ^ Z.of_nat k -> hexValue (hexFixed k n) = n.
Proof.
  revert n. induction k; intros n H.
  - simpl in *. unfold hexValue. simpl. lia.
  - simpl hexFixed. rewrite hexValue_snoc.
    rewrite IHk by (apply div16_bound; exact H).
    rewrite hexDigit_value by (apply Z.mod_pos_bound; lia).
    symmetry. apply Z.div_mod. lia.
Qed.

Lemma append_nil_r (s : string) : s ++ "" = s.
Proof. induction s; simpl; [reflexivity | now rewrite IHs]. Qed.

Lemma compare_snoc (s1 s2 : string) (c1 c2 : ascii) :
  String.length s1 = String.length s2 ->
  String.compare (s1 ++ String c1 "") (s2 ++ String c2 "")
  = match String.compare s1 s2 with
    | Eq => Ascii.compare c1 c2
    | r => r
    end.
Proof.
  revert s2. induction s1 as [|a s1 IH]; intros [|b s2] Hlen;
    simpl in *; try discriminate.
  - destruct (Ascii.compare c1 c2); reflexivity.
  - destruct (Ascii.compare a b); try reflexivity.
    apply IH. congruence.
Qed.

Lemma compare_base16 (a b : Z) :
  match a / 16 ?= b / 16 with
  | Eq => a mod 16 ?= b mod 16
  | r => r
  end = (a ?= b).
Proof.
  pose proof (Z.div_mod a 16 ltac:(lia)) as Ha.
  pose proof (Z.div_mod b 16 ltac:(lia)) as Hb.
  pose proof (Z.mod_pos_bound a 16 ltac:(lia)) as Ra.
  pose proof (Z.mod_pos_bound b 16 ltac:(lia)) as Rb.
  symmetry.
  destruct (Z.compare_spec (a / 16) (b / 16)) as [E|E|E].
  - destruct (Z.compare_spec (a mod 16) (b mod 16)) as [F|F|F].
    + apply Z.compare_eq_iff. lia.
    + apply Z.compare_lt_iff. lia.
    + apply Z.compare_gt_iff. lia.
  - apply Z.compare_lt_iff. lia.
  - apply Z.compare_gt_iff. lia.
Qed.

Lemma hexFixed_compare (k : nat) (a b : Z) :
  0 <= a < 16 ^ Z.of_nat k -> 0 <= b < 16 ^ Z.of_nat k ->
  String.compare (hexFixed k a) (hexFixed k b) = (a ?= b).
Proof.
  revert a b. induction k; intros a b Ha Hb.
  - simpl in *. assert (a = 0) by lia. assert (b = 0) by lia.
    subst. reflexivity.
  - simpl hexFixed.
    rewrite compare_snoc by (now rewrite !hexFixed_length).
    rewrite IHk by (apply div16_bound; assumption).
    rewrite hexDigit_compare by (apply Z.mod_pos_bound; lia).
    apply compare_base16.
Qed.

(** With enough fuel the digits of [n], padded with zeros to any width
    that holds them, are the fixed-width digits. *)
Lemma radixDigits_fixed (f : nat) :
  forall (n : Z) (k : nat),
    0 <= n -> n < 16 ^ Z.of_nat f -> n < 16 ^ Z.of_nat k -> (1 <= k)%nat ->
    (String.length (radixDigits 16 f n) <= k)%nat /\
    zeros (k - String.length (radixDigits 16 f n)) ++ radixDigits 16 f n
    = hexFixed k n.
Proof.
  induction f as [|f IH]; intros n k H0 Hf Hk H1.
  - simpl in *. assert (n = 0) by lia. subst n. split; [lia|].
    rewrite Nat.sub_0_r, append_nil_r. symmetry. apply hexFixed_zero.
  - cbn [radixDigits]. destruct (Z.ltb_spec n 16) as [Hs|Hb].
    + destruct k as [|k]; [lia|]. split; [simpl; lia|].
      cbn [String.length hexFixed]. rewrite Nat.sub_succ, Nat.sub_0_r.
      rewrite Z.div_small, Z.mod_small, hexFixed_zero by lia. reflexivity.
    + destruct k as [|k]; [lia|].
      assert (Hk1 : (1 <= k)%nat).
      { destruct k; [|lia]. change (16 ^ Z.of_nat 1) with 16 in Hk. lia. }
      destruct (IH (n / 16) k) as [Hlen Heq].
      * apply Z.div_pos; lia.
      * apply (div16_bound f n). lia.
      * apply (div16_bound k n). lia.
      * exact Hk1.
      * rewrite length_app. cbn [String.length]. split; [lia|].
        cbn [hexFixed]. rewrite <- Heq, append_assoc.
        replace (S k - (String.length (radixDigits 16 f (n / 16)) + 1))%nat
          with (k - String.length (radixDigits 16 f (n / 16)))%nat by lia.
        reflexivity.
Qed.

Lemma digitFuel_enough (n : Z) :
  0 <= n -> n < 16 ^ Z.of_nat (digitFuel n).
Proof.
  intros H. unfold digitFuel.
  rewrite Nat2Z.inj_succ, Z2Nat.id by apply Z.log2_nonneg.
  apply Z.lt_le_trans with (2 ^ Z.succ (Z.log2 n)).
  - destruct (Z.eq_dec n 0) as [->|Hn].
    + apply Z.pow_pos_nonneg; [lia | simpl; lia].
    + apply Z.log2_spec. lia.
  - apply Z.pow_le_mono_l. lia.
Qed.

Lemma toString16_padded (k : nat) (n : Z) :
  0 <= n < 16 ^ Z.of_nat k -> (1 <= k)%nat ->
  padStart k "0" (toString16 n) = hexFixed k n.
Proof.
  intros [H0 Hk] H1. unfold toString16, toStringRadix.
  destruct (Z.ltb_spec n 0) as [Hneg|_]; [lia|].
  destruct (radixDigits_fixed (digitFuel n) n k H0
              (digitFuel_enough n H0) Hk H1) as [Hlen Heq].
  now rewrite padStart_zeros.
Qed.

(** ** The identifier generator *)

Lemma clockFits_seconds (now : Z) :
  clockFits now -> 0 <= now / 1000 < 16 ^ Z.of_nat 8.
Proof.
  unfold clockFits. change (16 ^ Z.of_nat 8) with 4294967296.
  intros [H0 H1]. split.
  - apply Z.div_pos; lia.
  - apply Z.div_lt_upper_bound; lia.
Qed.

Lemma timestampPart_fixed (e : IdSource) :
  clockFits (src_now e) ->
  timestampPart e = hexFixed 8 (src_now e / 1000).
Proof.
  intros H. unfold timestampPart.
  apply toString16_padded; [apply clockFits_seconds; exact H | lia].
Qed.

Lemma generateObjectId_fixed (e : IdSource) :
  clockFits (src_now e) -> drawsInRange e ->
  generateObjectId e
  = hexFixed 8 (src_now e / 1000) ++ hexFixed 6 (src_machine e)
      ++ hexFixed 4 (src_process e) ++ hexFixed 6 (src_counter e).
Proof.
  intros Hc (Hm & Hp & Hn). unfold generateObjectId.
  rewrite timestampPart_fixed by exact Hc.
  rewrite !toString16_padded; try reflexivity; lia.
Qed.

Lemma generateObjectId_valid (e : IdSource) :
  clockFits (src_now e) -> drawsInRange e ->
  isLowerHex24 (generateObjectId e) = true /\
  isValidObjectId (generateObjectId e) = true.
Proof.
  intros Hc Hd. rewrite generateObjectId_fixed by assumption.
  assert (L : forallChars isLowerHexChar
                (hexFixed 8 (src_now e / 1000) ++ hexFixed 6 (src_machine e)
                   ++ hexFixed 4 (src_process e)
                   ++ hexFixed 6 (src_counter e)) = true).
  { now rewrite !forallChars_app, !hexFixed_lower. }
  unfold isLowerHex24, isValidObjectId.
  rewrite !length_app, !hexFixed_length, L, (lowerHex_isHex _ L).
  split; reflexivity.
Qed.

Lemma timePrefix_generateObjectId (e : IdSource) :
  clockFits (src_now e) ->
  timePrefix (generateObjectId e) = hexFixed 8 (src_now e / 1000).
Proof.
  intros Hc. unfold timePrefix, generateObjectId.
  rewrite timestampPart_fixed by exact Hc.
  exact (substring_prefix (hexFixed 8 (src_now e / 1000)) _).
Qed.

Lemma substring_at (a b : string) (m i n : nat) :
  String.length a = m -> substring (m + i) n (a ++ b) = substring i n b.
Proof.
  intros <-. induction a; simpl; [reflexivity | exact IHa].
Qed.

Lemma substring_head (a b : string) (n : nat) :
  String.length a = n -> substring 0 n (a ++ b) = a.
Proof. intros <-. apply substring_prefix. Qed.

Lemma substring_whole (s : string) (n : nat) :
  String.length s = n -> substring 0 n s = s.
Proof.
  intros H. rewrite <- (append_nil_r s) at 1. now apply substring_head.
Qed.

Lemma timePrefix_monotone (e1 e2 : IdSource) :
  clockFits (src_now e1) -> clockFits (src_now e2) ->
  src_now e1 <= src_now e2 ->
  String.leb (timePrefix (generateObjectId e1))
             (timePrefix (generateObjectId e2)) = true.
Proof.
  intros H1 H2 Hle. rewrite !timePrefix_generateObjectId by assumption.
  unfold String.leb.
  rewrite hexFixed_compare by (apply clockFits_seconds; assumption).
  assert (Hs : src_now e1 / 1000 <= src_now e2 / 1000)
    by (apply Z.div_le_mono; lia).
  destruct (Z.compare_spec (src_now e1 / 1000) (src_now e2 / 1000));
    (reflexivity || lia).
Qed.

(** C7, as amended: while the clock's epoch seconds fit eight hexadecimal
    digits, the id that [generateObjectId] builds from the clock reading and
    the three random draws is a 24-character lowercase hexadecimal string
    whose characters 0-7 encode the epoch seconds, 8-13 the machine draw,
    14-17 the process draw and 18-23 the counter draw; and for a second id
    generated at a clock reading that is not earlier, the 8-character time
    prefixes compare in non-decreasing order. *)
Theorem generateObjectId_format (e e' : IdSource) :
  clockFits (src_now e) ->
  (drawsInRange e ->
   isLowerHex24 (generateObjectId e) = true /\
   hexValue (substring 0 8 (generateObjectId e)) = src_now e / 1000 /\
   hexValue (substring 8 6 (generateObjectId e)) = src_machine e /\
   hexValue (substring 14 4 (generateObjectId e)) = src_process e /\
   hexValue (substring 18 6 (generateObjectId e)) = src_counter e) /\
  (clockFits (src_now e') -> src_now e <= src_now e' ->
   String.leb (timePrefix (generateObjectId e))
              (timePrefix (generateObjectId e')) = true).
Proof.
  intros Hc. split; [|intros Hc' Hle; now apply timePrefix_monotone].
  intros Hd.
  split; [apply generateObjectId_valid; assumption|].
  rewrite generateObjectId_fixed by assumption.
  destruct Hd as (Hm & Hp & Hn).
  set (a := hexFixed 8 (src_now e / 1000)).
  set (b := hexFixed 6 (src_machine e)).
  set (c := hexFixed 4 (src_process e)).
  set (d := hexFixed 6 (src_counter e)).
  assert (La : String.length a = 8%nat) by apply hexFixed_length.
  assert (Lb : String.length b = 6%nat) by apply hexFixed_length.
  assert (Lc : String.length c = 4%nat) by apply hexFixed_length.
  assert (Ld : String.length d = 6%nat) by apply hexFixed_length.
  split; [|split; [|split]].
  - rewrite (substring_head a _ 8 La). unfold a.
    apply hexFixed_value, clockFits_seconds, Hc.
  - rewrite (substring_at a _ 8 0 6 La), (substring_head b _ 6 Lb).
    unfold b. apply hexFixed_value.
    change (16 ^ Z.of_nat 6) with 16777216. lia.
  - rewrite (substring_at a _ 8 6 4 La), (substring_at b _ 6 0 4 Lb),
      (substring_head c _ 4 Lc).
    unfold c. apply hexFixed_value.
    change (16 ^ Z.of_nat 4) with 65536. lia.
  - rewrite (substring_at a _ 8 10 6 La), (substring_at b _ 6 4 6 Lb),
      (substring_at c _ 4 0 6 Lc), (substring_whole d 6 Ld).
    unfold d. apply hexFixed_value.
    change (16 ^ Z.of_nat 6) with 16777216. lia.
Qed.

Lemma generateObjectId_format_witness :
  clockFits (src_now sampleSource) /\ drawsInRange sampleSource /\
  clockFits (src_now lastFitSource) /\
  src_now sampleSource <= src_now lastFitSource /\
  isLowerHex24 (generateObjectId sampleSource) = true /\
  hexValue (substring 0 8 (generateObjectId sampleSource)) = 1700000000 /\
  String.leb (timePrefix (generateObjectId sampleSource))
             (timePrefix (generateObjectId lastFitSource)) = true.
Proof.
  assert (C : clockFits (src_now sampleSource))
    by (cbv [clockFits src_now sampleSource]; lia).
  assert (D : drawsInRange sampleSource)
    by (cbv [drawsInRange src_machine src_process src_counter sampleSource];
        lia).
  assert (C' : clockFits (src_now lastFitSource))
    by (cbv [clockFits src_now lastFitSource]; lia).
  assert (L : src_now sampleSource <= src_now lastFitSource)
    by (cbv [src_now sampleSource lastFitSource]; lia).
  destruct (generateObjectId_format sampleSource lastFitSource C)
    as [Hshape Hmono].
  destruct (Hshape D) as (H1 & H2 & _).
  split; [exact C|]. split; [exact D|]. split; [exact C'|].
  split; [exact L|]. split; [exact H1|]. split; [exact H2|].
  exact (Hmono C' L).
Defined.

(** The first clock reading past the eight-digit range gives 25
    characters, and its time prefix is below the one of the millisecond
    before. *)
Lemma generateObjectId_past_2106 :
  0 <= src_now lastFitSource <= src_now overflowSource /\
  drawsInRange overflowSource /\
  generateObjectId overflowSource = "1000000000000010002000003" /\
  isLowerHex24 (generateObjectId overflowSource) = false /\
  String.leb (timePrefix (generateObjectId lastFitSource))
             (timePrefix (generateObjectId overflowSource)) = false.
Proof.
  split; [cbv [src_now lastFitSource overflowSource]; lia|].
  split;
    [cbv [drawsInRange src_machine src_process src_counter overflowSource];
     lia|].
  repeat split; vm_compute; reflexivity.
Qed.

(** ** Status changes and their audit records *)

Ltac run_op :=
  cbn [negb orb andb];
  cbv beta iota delta [bind gets modify ret throw tryCatch];
  cbn beta iota.

(** The file backend: a call with well-formed ids on an existing task
    returns the task with the new status and stores, under the generated
    id, one task update that carries the task id, the user id, the status
    before the write, the new status and the comment. *)
Lemma file_updateTaskStatus_audit
  (e : IdSource) (tUpdated tAudit : Date) (id status userId : string)
  (s : FileStorage.t) (task : FileTask.t) :
  isValidObjectId id = true -> isValidObjectId userId = true ->
  JsMap.get id (FileStorage.tasks s) = Some task ->
  exists task' s',
    FileStorage.updateTaskStatus e tUpdated tAudit id status userId s
    = (Ok task', s') /\
    FileTask.status task' = status /\
    JsMap.get id (FileStorage.tasks s') = Some task' /\
    FileStorage.taskUpdates s'
    = JsMap.set (generateObjectId e)
        (auditRecord (generateObjectId e) id userId (FileTask.status task)
           status tAudit)
        (FileStorage.taskUpdates s).
Proof.
  intros Hid Hu Hget.
  unfold FileStorage.updateTaskStatus, FileStorage.createTaskUpdate.
  cbn [InsertTaskUpdate.taskId InsertTaskUpdate.userId
       InsertTaskUpdate.comment InsertTaskUpdate.oldStatus
       InsertTaskUpdate.newStatus].
  rewrite Hid, Hu. run_op. rewrite Hget.
  eexists _, _. split; [reflexivity|].
  split; [reflexivity|]. split; [|reflexivity].
  cbn. apply JsMapFacts.get_set_same.
Qed.

(** When the generated id is not yet a key, that is one more record, the
    last one. *)
Lemma file_updateTaskStatus_appends
  (e : IdSource) (tUpdated tAudit : Date) (id status userId : string)
  (s : FileStorage.t) (task : FileTask.t) :
  isValidObjectId id = true -> isValidObjectId userId = true ->
  JsMap.get id (FileStorage.tasks s) = Some task ->
  JsMap.get (generateObjectId e) (FileStorage.taskUpdates s) = None ->
  exists task' s',
    FileStorage.updateTaskStatus e tUpdated tAudit id status userId s
    = (Ok task', s') /\
    JsMap.values (FileStorage.taskUpdates s')
    = (JsMap.values (FileStorage.taskUpdates s)
       ++ [auditRecord (generateObjectId e) id userId
             (FileTask.status task) status tAudit])%list.
Proof.
  intros Hid Hu Hget Hfresh.
  destruct (file_updateTaskStatus_audit e tUpdated tAudit id status userId
              s task Hid Hu Hget) as (task' & s' & Hrun & _ & _ & Hupd).
  exists task', s'. split; [exact Hrun|].
  rewrite Hupd. now apply JsMapFacts.values_set_fresh.
Qed.

(** A call of the file backend that throws has written nothing: neither a
    status nor a task update. *)
Lemma file_updateTaskStatus_throw_unchanged
  (e : IdSource) (tUpdated tAudit : Date) (id status userId : string)
  (s : FileStorage.t) (message : string) :
  fst (FileStorage.updateTaskStatus e tUpdated tAudit id status userId s)
  = Throw message ->
  snd (FileStorage.updateTaskStatus e tUpdated tAudit id status userId s)
  = s.
Proof.
  unfold FileStorage.updateTaskStatus, FileStorage.createTaskUpdate.
  cbn [InsertTaskUpdate.taskId InsertTaskUpdate.userId].
  destruct (isValidObjectId id), (isValidObjectId userId); run_op;
    try reflexivity.
  destruct (JsMap.get id (FileStorage.tasks s)); cbn [fst snd];
    [discriminate | reflexivity].
Qed.

(** The in-memory backend never writes a task update in
    [updateTaskStatus], whatever the outcome. *)
Lemma mem_updateTaskStatus_taskUpdates
  (tUpdated : Date) (id status userId : string) (s : MemStorage.t) :
  MemStorage.taskUpdates
    (snd (MemStorage.updateTaskStatus tUpdated id status userId s))
  = MemStorage.taskUpdates s.
Proof.
  unfold MemStorage.updateTaskStatus, MemStorage.getTask. run_op.
  destruct (JsMap.get id (MemStorage.tasks s)); reflexivity.
Qed.

(** C1, the failing call: in the in-memory backend the task
    ["task_000001"] has status ["In Progress"] and there is no task update;
    [updateTaskStatus("task_000001", "Completed", "user_000001")] succeeds
    and sets the status, and there is still no task update, where one with
    [oldStatus] ["In Progress"], [newStatus] ["Completed"] and comment
    ["Status updated to Completed"] is required.  The file backend writes
    that record on its corresponding call. *)
Theorem mem_updateTaskStatus_writes_no_audit :
  JsMap.size (MemStorage.taskUpdates memWithTask) = O /\
  (exists task s',
     MemStorage.updateTaskStatus 2000 "task_000001" "Completed"
       "user_000001" memWithTask = (Ok task, s') /\
     InsertTask.status (MemTask.data task) = Some "Completed" /\
     JsMap.size (MemStorage.taskUpdates s') = O) /\
  (exists task s',
     FileStorage.updateTaskStatus sampleSource2 2000 2001 sampleTaskId
       "Completed" sampleUserId fileWithTask = (Ok task, s') /\
     JsMap.values (FileStorage.taskUpdates s')
     = [auditRecord (generateObjectId sampleSource2) sampleTaskId
          sampleUserId "In Progress" "Completed" 2001]).
Proof.
  split; [reflexivity|]. split.
  - eexists _, _. split; [vm_compute; reflexivity|].
    split; reflexivity.
  - eexists _, _. split; [vm_compute; reflexivity|].
    vm_compute. reflexivity.
Qed.

(** ** Reads by id *)

(** C4, as amended: in the file backend, for every id that is not
    well-formed, [getUser], [getTask], [getFeature], [getTeam] and
    [getBoundary] return nothing, without an error and leaving the store as
    it is.  (The in-memory backend looks the id up without a format check,
    and its own ids are not of the 24-hex format.) *)
Theorem file_get_malformed (id : string) (s : FileStorage.t) :
  isValidObjectId id = false ->
  FileStorage.getUser id s = (Ok None, s) /\
  FileStorage.getTask id s = (Ok None, s) /\
  FileStorage.getFeature id s = (Ok None, s) /\
  FileStorage.getTeam id s = (Ok None, s) /\
  FileStorage.getBoundary id s = (Ok None, s).
Proof.
  intros H.
  unfold FileStorage.getUser, FileStorage.getTask, FileStorage.getFeature,
    FileStorage.getTeam, FileStorage.getBoundary.
  rewrite H. repeat split.
Qed.

Lemma file_get_malformed_witness :
  isValidObjectId "user_000001" = false /\
  FileStorage.getTask "user_000001" fileWithTask = (Ok None, fileWithTask).
Proof.
  assert (H : isValidObjectId "user_000001" = false) by reflexivity.
  split; [exact H|].
  exact (proj1 (proj2 (file_get_malformed "user_000001" fileWithTask H))).
Defined.

(** In the in-memory backend the id ["user_000001"], which is not of the
    24-hex format, is the id of the first user, and [getUser] returns that
    user. *)
Lemma mem_getUser_malformed_found :
  isValidObjectId "user_000001" = false /\
  exists user,
    MemStorage.getUser "user_000001" memWithUser
    = (Ok (Some user), memWithUser) /\
    MemUser._id user = "user_000001".
Proof.
  split; [reflexivity|].
  eexists. split; [vm_compute; reflexivity | reflexivity].
Qed.

(** ** Create, then get *)

Ltac file_round_trip Hc Hd Ht :=
  eexists _, _; split; [reflexivity|]; split; [|exact Ht];
  match goal with
  | |- ?get ?id ?s = _ =>
      let h := fresh in
      pose proof (proj2 (generateObjectId_valid _ Hc Hd)) as h;
      cbv beta iota delta
        [FileStorage.getUser FileStorage.getTeam FileStorage.getTask
         FileStorage.getFeature FileStorage.getBoundary];
      cbn [FileUser._id FileTeam._id FileTask._id FileFeature._id
           FileBoundary._id];
      rewrite h; run_op; cbn; rewrite JsMapFacts.get_set_same; reflexivity
  end.

Lemma file_createUser_get (e : IdSource) (t1 t2 : Date)
  (ins : InsertUser.t) (s : FileStorage.t) :
  clockFits (src_now e) -> drawsInRange e -> t1 <= t2 ->
  roundTrip (FileStorage.createUser e t1 t2 ins) FileStorage.getUser
    FileUser._id FileUser.createdAt FileUser.updatedAt s.
Proof. intros Hc Hd Ht. file_round_trip Hc Hd Ht. Qed.

Lemma file_createTeam_get (e : IdSource) (t1 t2 : Date)
  (ins : InsertTeam.t) (s : FileStorage.t) :
  clockFits (src_now e) -> drawsInRange e -> t1 <= t2 ->
  roundTrip (FileStorage.createTeam e t1 t2 ins) FileStorage.getTeam
    FileTeam._id FileTeam.createdAt FileTeam.updatedAt s.
Proof. intros Hc Hd Ht. file_round_trip Hc Hd Ht. Qed.

Lemma file_createTask_get (e : IdSource) (t1 t2 : Date)
  (ins : InsertTask.t) (s : FileStorage.t) :
  clockFits (src_now e) -> drawsInRange e -> t1 <= t2 ->
  roundTrip (FileStorage.createTask e t1 t2 ins) FileStorage.getTask
    FileTask._id FileTask.createdAt FileTask.updatedAt s.
Proof. intros Hc Hd Ht. file_round_trip Hc Hd Ht. Qed.

Lemma file_createFeature_get (e : IdSource) (t1 t2 t3 : Date)
  (ins : InsertFeature.t) (s : FileStorage.t) :
  clockFits (src_now e) -> drawsInRange e -> t1 <= t2 ->
  roundTrip (FileStorage.createFeature e t1 t2 t3 ins)
    FileStorage.getFeature
    FileFeature._id FileFeature.createdAt FileFeature.updatedAt s.
Proof. intros Hc Hd Ht. file_round_trip Hc Hd Ht. Qed.

Lemma file_createBoundary_get (e : IdSource) (t1 t2 : Date)
  (ins : InsertBoundary.t) (s : FileStorage.t) :
  clockFits (src_now e) -> drawsInRange e -> t1 <= t2 ->
  roundTrip (FileStorage.createBoundary e t1 t2 ins)
    FileStorage.getBoundary
    FileBoundary._id FileBoundary.createdAt FileBoundary.updatedAt s.
Proof. intros Hc Hd Ht. file_round_trip Hc Hd Ht. Qed.

Ltac mem_round_trip Ht :=
  unfold roundTrip;
  cbv beta iota zeta delta
    [MemStorage.createUser MemStorage.createTeam MemStorage.createTask
     MemStorage.createFeature MemStorage.createBoundary
     MemStorage.nextUserId MemStorage.nextTeamId MemStorage.nextTaskId
     MemStorage.nextFeatureId MemStorage.nextBoundaryId
     bind modify ret];
  eexists _, _; split; [reflexivity|]; split; [|exact Ht];
  cbv beta iota delta
    [MemStorage.getUser MemStorage.getTeam MemStorage.getTask
     MemStorage.getFeature MemStorage.getBoundary gets];
  cbn; rewrite JsMapFacts.get_set_same; reflexivity.

Lemma mem_create_get (t1 t2 t3 : Date) (s : MemStorage.t)
  (u : InsertUser.t) (tm : InsertTeam.t) (tk : InsertTask.t)
  (f : InsertFeature.t) (b : InsertBoundary.t) :
  t1 <= t2 ->
  roundTrip (MemStorage.createUser t1 t2 u) MemStorage.getUser
    MemUser._id MemUser.createdAt MemUser.updatedAt s /\
  roundTrip (MemStorage.createTeam t1 t2 tm) MemStorage.getTeam
    MemTeam._id MemTeam.createdAt MemTeam.updatedAt s /\
  roundTrip (MemStorage.createTask t1 t2 tk) MemStorage.getTask
    MemTask._id MemTask.createdAt MemTask.updatedAt s /\
  roundTrip (MemStorage.createFeature t1 t2 t3 f) MemStorage.getFeature
    MemFeature._id MemFeature.createdAt MemFeature.updatedAt s /\
  roundTrip (MemStorage.createBoundary t1 t2 b) MemStorage.getBoundary
    MemBoundary._id MemBoundary.createdAt MemBoundary.updatedAt s.
Proof.
  intros Ht. split; [|split; [|split; [|split]]]; mem_round_trip Ht.
Qed.

(** C5, as amended: for every creation input, a [create*] call followed by
    the corresponding [get] with the id of the returned entity yields that
    same entity, equal in every field, with [updatedAt] not before
    [createdAt] -- in the file backend while the epoch seconds of the clock
    reading that the id is built from fit eight hexadecimal digits, in the
    in-memory backend always; and in both provided the clock does not run
    backwards between the reading stored in [createdAt] and the one stored
    in [updatedAt]. *)
Theorem create_then_get
  (e : IdSource) (t1 t2 t3 : Date) (fs : FileStorage.t) (ms : MemStorage.t)
  (u : InsertUser.t) (tm : InsertTeam.t) (tk : InsertTask.t)
  (f : InsertFeature.t) (b : InsertBoundary.t) :
  t1 <= t2 ->
  (clockFits (src_now e) -> drawsInRange e ->
   roundTrip (FileStorage.createUser e t1 t2 u) FileStorage.getUser
     FileUser._id FileUser.createdAt FileUser.updatedAt fs /\
   roundTrip (FileStorage.createTeam e t1 t2 tm) FileStorage.getTeam
     FileTeam._id FileTeam.createdAt FileTeam.updatedAt fs /\
   roundTrip (FileStorage.createTask e t1 t2 tk) FileStorage.getTask
     FileTask._id FileTask.createdAt FileTask.updatedAt fs /\
   roundTrip (FileStorage.createFeature e t1 t2 t3 f) FileStorage.getFeature
     FileFeature._id FileFeature.createdAt FileFeature.updatedAt fs /\
   roundTrip (FileStorage.createBoundary e t1 t2 b) FileStorage.getBoundary
     FileBoundary._id FileBoundary.createdAt FileBoundary.updatedAt fs) /\
  (roundTrip (MemStorage.createUser t1 t2 u) MemStorage.getUser
     MemUser._id MemUser.createdAt MemUser.updatedAt ms /\
   roundTrip (MemStorage.createTeam t1 t2 tm) MemStorage.getTeam
     MemTeam._id MemTeam.createdAt MemTeam.updatedAt ms /\
   roundTrip (MemStorage.createTask t1 t2 tk) MemStorage.getTask
     MemTask._id MemTask.createdAt MemTask.updatedAt ms /\
   roundTrip (MemStorage.createFeature t1 t2 t3 f) MemStorage.getFeature
     MemFeature._id MemFeature.createdAt MemFeature.updatedAt ms /\
   roundTrip (MemStorage.createBoundary t1 t2 b) MemStorage.getBoundary
     MemBoundary._id MemBoundary.createdAt MemBoundary.updatedAt ms).
Proof.
  intros Ht. split.
  - intros Hc Hd.
    split; [now apply file_createUser_get|].
    split; [now apply file_createTeam_get|].
    split; [now apply file_createTask_get|].
    split; [now apply file_createFeature_get|].
    now apply file_createBoundary_get.
  - now apply mem_create_get.
Qed.

Lemma create_then_get_witness :
  clockFits (src_now sampleSource) /\ drawsInRange sampleSource /\
  1000 <= 1001 /\
  roundTrip (FileStorage.createTask sampleSource 1000 1001 sampleInsertTask)
    FileStorage.getTask FileTask._id FileTask.createdAt FileTask.updatedAt
    fileWithTask /\
  roundTrip (MemStorage.createTask 1000 1001 sampleInsertTask)
    MemStorage.getTask MemTask._id MemTask.createdAt MemTask.updatedAt
    memWithTask.
Proof.
  assert (C : clockFits (src_now sampleSource))
    by (cbv [clockFits src_now sampleSource]; lia).
  assert (D : drawsInRange sampleSource)
    by (cbv [drawsInRange src_machine src_process src_counter sampleSource];
        lia).
  assert (T : 1000 <= 1001) by lia.
  destruct (create_then_get sampleSource 1000 1001 1002 fileWithTask
              memWithTask sampleInsertUser
              (InsertTeam.mk "Alpha" None None sampleUserId)
              sampleInsertTask
              (InsertFeature.mk "Tower 1" "T-1" "Plan" "New" "Tower"
                 "Lattice" None None None None None None)
              (InsertBoundary.mk "North" None None None
                 (Geometry.mk "Polygon" (Rings [])))
              T) as [HFile (_ & _ & HM & _)].
  destruct (HFile C D) as (_ & _ & HF & _).
  repeat (split; [assumption|]). exact HM.
Defined.

(** Two calls of [createTask] of the file backend on the empty store.  At
    the first clock reading past the eight-digit range the task is stored
    under a 25-character id and [getTask] with that id returns nothing.
    With a clock that steps back from 2000 to 1000 between the two
    readings, [updatedAt] is before [createdAt]. *)
Lemma create_then_get_fails :
  (exists task s',
     FileStorage.createTask overflowSource 1000 1000 sampleInsertTask
       FileStorage.empty = (Ok task, s') /\
     JsMap.get (FileTask._id task) (FileStorage.tasks s') = Some task /\
     FileStorage.getTask (FileTask._id task) s' = (Ok None, s')) /\
  (exists task s',
     FileStorage.createTask sampleSource 2000 1000 sampleInsertTask
       FileStorage.empty = (Ok task, s') /\
     FileTask.updatedAt task < FileTask.createdAt task).
Proof.
  split.
  - eexists _, _. split; [vm_compute; reflexivity|].
    split; vm_compute; reflexivity.
  - eexists _, _. split; [vm_compute; reflexivity|].
    vm_compute. reflexivity.
Qed.

(** ** Assignment of a task *)

(** C6: for every existing task, whatever its status, [assignTask(id,
    userId)] returns and stores the task with [status] ["Assigned"] and
    [assignedTo] [userId] -- in the file backend, which first requires both
    ids to be well-formed, and in the in-memory backend. *)
Theorem assignTask_sets_assigned
  (tUpdated : Date) (id userId : string)
  (fs : FileStorage.t) (ftask : FileTask.t)
  (ms : MemStorage.t) (mtask : MemTask.t) :
  (isValidObjectId id = true -> isValidObjectId userId = true ->
   JsMap.get id (FileStorage.tasks fs) = Some ftask ->
   exists task' fs',
     FileStorage.assignTask tUpdated id userId fs = (Ok task', fs') /\
     FileTask.status task' = "Assigned" /\
     FileTask.assignedTo task' = Some userId /\
     JsMap.get id (FileStorage.tasks fs') = Some task') /\
  (JsMap.get id (MemStorage.tasks ms) = Some mtask ->
   exists task' ms',
     MemStorage.assignTask tUpdated id userId ms = (Ok task', ms') /\
     InsertTask.status (MemTask.data task') = Some "Assigned" /\
     InsertTask.assignedTo (MemTask.data task') = Some userId /\
     JsMap.get id (MemStorage.tasks ms') = Some task').
Proof.
  split.
  - intros Hid Hu Hget. unfold FileStorage.assignTask.
    rewrite Hid, Hu. run_op. rewrite Hget.
    eexists _, _. split; [reflexivity|].
    split; [reflexivity|]. split; [reflexivity|].
    cbn. apply JsMapFacts.get_set_same.
  - intros Hget. unfold MemStorage.assignTask, MemStorage.getTask.
    run_op. rewrite Hget.
    eexists _, _. split; [reflexivity|].
    split; [reflexivity|]. split; [reflexivity|].
    cbn. apply JsMapFacts.get_set_same.
Qed.

Lemma assignTask_sets_assigned_witness :
  exists ftask mtask,
    JsMap.get sampleTaskId (FileStorage.tasks fileWithTask) = Some ftask /\
    JsMap.get "task_000001" (MemStorage.tasks memWithTask) = Some mtask /\
    FileTask.status ftask = "In Progress" /\
    (exists task' fs',
       FileStorage.assignTask 3000 sampleTaskId sampleUserId fileWithTask
       = (Ok task', fs') /\
       FileTask.status task' = "Assigned") /\
    (exists task' ms',
       MemStorage.assignTask 3000 "task_000001" sampleUserId memWithTask
       = (Ok task', ms') /\
       InsertTask.status (MemTask.data task') = Some "Assigned").
Proof.
  eexists _, _.
  assert (G1 : JsMap.get sampleTaskId (FileStorage.tasks fileWithTask)
               = Some (FileTask.mk sampleTaskId "Inspect tower" None
                         "In Progress" "High" None None None None None None
                         1000 1000)) by reflexivity.
  assert (V1 : isValidObjectId sampleTaskId = true) by reflexivity.
  assert (V2 : isValidObjectId sampleUserId = true) by reflexivity.
  split; [exact G1|]. split; [reflexivity|]. split; [reflexivity|].
  split.
  - destruct (proj1 (assignTask_sets_assigned 3000 sampleTaskId sampleUserId
                       fileWithTask _ memWithTask
                       (MemTask.mk "x" sampleInsertTask 0 0)) V1 V2 G1)
      as (task' & fs' & H1 & H2 & _).
    exists task', fs'. split; assumption.
  - assert (G2 : JsMap.get "task_000001" (MemStorage.tasks memWithTask)
                 = Some (MemTask.mk "task_000001" sampleInsertTask
                           1000 1000)) by reflexivity.
    destruct (proj2 (assignTask_sets_assigned 3000 "task_000001"
                       sampleUserId fileWithTask
                       (FileTask.mk "x" "" None "" "" None None None None
                          None None 0 0)
                       memWithTask _) G2)
      as (task' & ms' & H1 & H2 & _).
    exists task', ms'. split; assumption.
Defined.

(** ** Location and team of a user *)

(** C9: in the file backend, [updateUserLocation(id, {lat, lng})] on an
    existing user (under a well-formed id, which the call requires) sets
    [currentLocation] to the point [[lng, lat]], longitude first, sets
    [lastActive] and [updatedAt] to the two clock readings of the call, and
    leaves every other field of that user, every other user, the order of
    the users and every other collection as they were. *)
Theorem file_updateUserLocation_frame
  (tActive tUpdated : Date) (id : string) (location : LatLng)
  (s : FileStorage.t) (user : FileUser.t) :
  isValidObjectId id = true ->
  JsMap.get id (FileStorage.users s) = Some user ->
  exists user' s',
    FileStorage.updateUserLocation tActive tUpdated id location s
    = (Ok user', s') /\
    user' = FileUser.mk (FileUser._id user) (FileUser.username user)
              (FileUser.password user) (FileUser.name user)
              (FileUser.email user) (FileUser.role user)
              (FileUser.teamId user)
              (Some tActive)
              (Some (Point.mk "Point" (lng location, lat location)))
              (FileUser.createdAt user)
              tUpdated /\
    JsMap.get id (FileStorage.users s') = Some user' /\
    (forall id', id' <> id ->
       JsMap.get id' (FileStorage.users s')
       = JsMap.get id' (FileStorage.users s)) /\
    JsMap.keys (FileStorage.users s') = JsMap.keys (FileStorage.users s) /\
    FileStorage.tasks s' = FileStorage.tasks s /\
    FileStorage.features s' = FileStorage.features s /\
    FileStorage.boundaries s' = FileStorage.boundaries s /\
    FileStorage.taskUpdates s' = FileStorage.taskUpdates s /\
    FileStorage.taskEvidence s' = FileStorage.taskEvidence s /\
    FileStorage.teams s' = FileStorage.teams s.
Proof.
  intros Hid Hget. unfold FileStorage.updateUserLocation.
  rewrite Hid. run_op. rewrite Hget.
  eexists _, _. split; [reflexivity|].
  split; [reflexivity|].
  split; [cbn; apply JsMapFacts.get_set_same|].
  split; [intros id' Hne; cbn; apply JsMapFacts.get_set_other; congruence|].
  split; [cbn; now apply JsMapFacts.keys_set_present with (v0 := user)|].
  repeat split.
Qed.

Lemma file_updateUserLocation_frame_witness :
  isValidObjectId sampleAliceId = true /\
  exists user user' s',
    JsMap.get sampleAliceId (FileStorage.users fileWithUser) = Some user /\
    FileStorage.updateUserLocation 5000 5001 sampleAliceId
      (mkLatLng 10 20) fileWithUser = (Ok user', s') /\
    FileUser.currentLocation user' = Some (Point.mk "Point" (20, 10)).
Proof.
  assert (V : isValidObjectId sampleAliceId = true) by reflexivity.
  assert (G : JsMap.get sampleAliceId (FileStorage.users fileWithUser)
              = Some (FileUser.mk sampleAliceId "Alice" "secret" "Alice Doe"
                        "alice@example.org" Supervisor None None None
                        1000 1000)) by reflexivity.
  split; [exact V|].
  destruct (file_updateUserLocation_frame 5000 5001 sampleAliceId
              (mkLatLng 10 20) fileWithUser _ V G)
    as (user' & s' & Hrun & Hu & _).
  eexists _, user', s'. split; [exact G|]. split; [exact Hrun|].
  rewrite Hu. reflexivity.
Defined.

(** C10: in the file backend, [assignUserToTeam(userId, teamId)] on an
    existing user and with well-formed ids succeeds and sets the user's
    [teamId], whether or not a team has that id -- in particular when none
    has; the in-memory backend, on an existing user and a team id that no
    team has, throws ["Team with ID ... not found"] and changes nothing. *)
Theorem assignUserToTeam_missing_team
  (tUpdated : Date) (userId teamId : string)
  (fs : FileStorage.t) (fuser : FileUser.t)
  (ms : MemStorage.t) (muser : MemUser.t) :
  (isValidObjectId userId = true -> isValidObjectId teamId = true ->
   JsMap.get userId (FileStorage.users fs) = Some fuser ->
   exists user' fs',
     FileStorage.assignUserToTeam tUpdated userId teamId fs
     = (Ok user', fs') /\
     FileUser.teamId user' = Some teamId /\
     JsMap.get userId (FileStorage.users fs') = Some user' /\
     FileStorage.teams fs' = FileStorage.teams fs) /\
  (JsMap.get userId (MemStorage.users ms) = Some muser ->
   JsMap.get teamId (MemStorage.teams ms) = None ->
   MemStorage.assignUserToTeam tUpdated userId teamId ms
   = (Throw ("Team with ID " ++ teamId ++ " not found"), ms)).
Proof.
  split.
  - intros Hu Ht Hget. unfold FileStorage.assignUserToTeam.
    rewrite Hu, Ht. run_op. rewrite Hget.
    eexists _, _. split; [reflexivity|]. split; [reflexivity|].
    split; [cbn; apply JsMapFacts.get_set_same | reflexivity].
  - intros Hget Hteam.
    unfold MemStorage.assignUserToTeam, MemStorage.getUser,
      MemStorage.getTeam.
    run_op. rewrite Hget. cbn beta iota. rewrite Hteam. reflexivity.
Qed.

Lemma assignUserToTeam_missing_team_witness :
  JsMap.get sampleTeamId (FileStorage.teams fileWithUser) = None /\
  (exists user' fs',
     FileStorage.assignUserToTeam 7000 sampleAliceId sampleTeamId
       fileWithUser = (Ok user', fs') /\
     FileUser.teamId user' = Some sampleTeamId) /\
  MemStorage.assignUserToTeam 7000 "user_000001" "team_000001" memWithUser
  = (Throw "Team with ID team_000001 not found", memWithUser).
Proof.
  assert (V1 : isValidObjectId sampleAliceId = true) by reflexivity.
  assert (V2 : isValidObjectId sampleTeamId = true) by reflexivity.
  assert (G : JsMap.get sampleAliceId (FileStorage.users fileWithUser)
              = Some (FileUser.mk sampleAliceId "Alice" "secret" "Alice Doe"
                        "alice@example.org" Supervisor None None None
                        1000 1000)) by reflexivity.
  assert (GM : JsMap.get "user_000001" (MemStorage.users memWithUser)
               = Some (MemUser.mk "user_000001" sampleInsertUser 1000 1000
                         None None)) by reflexivity.
  assert (TM : JsMap.get "team_000001" (MemStorage.teams memWithUser)
               = None) by reflexivity.
  split; [reflexivity|]. split.
  - destruct (proj1 (assignUserToTeam_missing_team 7000 sampleAliceId
                       sampleTeamId fileWithUser _ memWithUser
                       (MemUser.mk "x" sampleInsertUser 0 0 None None))
                V1 V2 G) as (user' & fs' & H1 & H2 & _).
    exists user', fs'. split; assumption.
  - exact (proj2 (assignUserToTeam_missing_team 7000 "user_000001"
                    "team_000001" fileWithUser
                    (FileUser.mk "x" "" "" "" "" Field None None None 0 0)
                    memWithUser _) GM TM).
Defined.

(** ** Lookup by user name *)

(** C8, the failing call: the file backend holds the user ["Alice"];
    ["alice"] equals that name up to letter case, and
    [getUserByUsername("alice")] returns nothing, where the user is
    required.  The in-memory backend, holding the same user, returns it. *)
Theorem file_getUserByUsername_case_sensitive :
  sameUpToCase "Alice" "alice" /\
  (exists user,
     JsMap.get sampleAliceId (FileStorage.users fileWithUser) = Some user /\
     FileUser.username user = "Alice") /\
  FileStorage.getUserByUsername "alice" fileWithUser
  = (Ok None, fileWithUser) /\
  (exists user,
     MemStorage.getUserByUsername "alice" memWithUser
     = (Ok (Some user), memWithUser) /\
     InsertUser.username (MemUser.data user) = "Alice").
Proof.
  split; [reflexivity|]. split.
  - eexists. split; reflexivity.
  - split; [reflexivity|]. eexists. split; reflexivity.
Qed.

(** The file backend returns only a user whose stored name is the query,
    character for character. *)
Lemma file_getUserByUsername_exact
  (username : string) (s : FileStorage.t) (user : FileUser.t) :
  fst (FileStorage.getUserByUsername username s) = Ok (Some user) ->
  FileUser.username user = username.
Proof.
  unfold FileStorage.getUserByUsername, gets. cbn [fst]. intros H.
  injection H as H. apply find_some in H as [_ H].
  now apply String.eqb_eq.
Qed.

(** The in-memory backend finds a user whenever a stored name equals the
    query up to letter case. *)
Lemma mem_getUserByUsername_found
  (username id : string) (s : MemStorage.t) (user : MemUser.t) :
  JsMap.get id (MemStorage.users s) = Some user ->
  sameUpToCase (InsertUser.username (MemUser.data user)) username ->
  exists found,
    MemStorage.getUserByUsername username s = (Ok (Some found), s) /\
    sameUpToCase (InsertUser.username (MemUser.data found)) username.
Proof.
  intros Hget Hsame. unfold MemStorage.getUserByUsername, gets.
  destruct (find _ (JsMap.values (MemStorage.users s))) as [found|] eqn:F.
  - exists found. split; [reflexivity|].
    apply find_some in F as [_ F]. now apply String.eqb_eq in F.
  - exfalso.
    pose proof (find_none _ _ F user
                  (JsMapFacts.get_in_values _ _ _ Hget)) as Hno.
    unfold sameUpToCase in Hsame. cbv beta in Hno.
    rewrite Hsame, String.eqb_refl in Hno. discriminate.
Qed.

(** ** Registration of a field user *)

(** [createUser] of the file backend inserts a field user whose team is
    ["Pending"]: the storage operation does not look at the team. *)
Lemma file_createUser_skips_team_check :
  (exists team,
     JsMap.get storedTeamId (FileStorage.teams fileWithPendingTeam)
     = Some team /\
     FileTeam.status team = "Pending") /\
  InsertUser.role fieldUserInput = Field /\
  InsertUser.teamId fieldUserInput = Some storedTeamId /\
  (exists user s',
     FileStorage.createUser sampleSource2 2000 2000 fieldUserInput
       fileWithPendingTeam = (Ok user, s') /\
     JsMap.get (FileUser._id user) (FileStorage.users s') = Some user /\
     JsMap.size (FileStorage.users s')
     = S (JsMap.size (FileStorage.users fileWithPendingTeam))).
Proof.
  split; [eexists; split; reflexivity|].
  split; [reflexivity|]. split; [reflexivity|].
  eexists _, _. split; [vm_compute; reflexivity|].
  split; vm_compute; reflexivity.
Qed.

Lemma postUsers_reject (bcrypt_hash : string -> string) (e : IdSource)
  (t1 t2 : Date) (userData : InsertUser.t) (teamId : string)
  (s : FileStorage.t) :
  InsertUser.role userData = Field ->
  truthy (InsertUser.teamId userData) = Some teamId ->
  (JsMap.get teamId (FileStorage.teams s) = None \/
   exists team,
     JsMap.get teamId (FileStorage.teams s) = Some team /\
     FileTeam.status team <> "Approved") ->
  exists message,
    postUsersFile bcrypt_hash e t1 t2 (inl userData) s
    = (Ok (respond 400 (Message message)), s).
Proof.
  intros Hrole Hteam Hbad.
  unfold postUsersFile, postUsers, checkTeam, FileStorage.getTeam.
  rewrite Hrole, Hteam.
  destruct (isValidObjectId teamId); run_op.
  - destruct Hbad as [Hnone|(team & Hsome & Hst)].
    + rewrite Hnone. eexists. reflexivity.
    + rewrite Hsome. cbn beta iota.
      apply String.eqb_neq in Hst. rewrite Hst. cbn.
      eexists. reflexivity.
  - eexists. reflexivity.
Qed.

Lemma postUsers_accept (bcrypt_hash : string -> string) (e : IdSource)
  (t1 t2 : Date) (userData : InsertUser.t) (teamId : string)
  (s : FileStorage.t) (team : FileTeam.t) :
  InsertUser.role userData = Field ->
  truthy (InsertUser.teamId userData) = Some teamId ->
  isValidObjectId teamId = true ->
  JsMap.get teamId (FileStorage.teams s) = Some team ->
  FileTeam.status team = "Approved" ->
  exists user s',
    FileStorage.createUser e t1 t2
      (InsertUser.set_password userData
         (bcrypt_hash (InsertUser.password userData))) s
    = (Ok user, s') /\
    postUsersFile bcrypt_hash e t1 t2 (inl userData) s
    = (Ok (respond 201 (Entity (UserResponse.ofFileUser user))), s') /\
    JsMap.get (FileUser._id user) (FileStorage.users s') = Some user /\
    FileUser.teamId user = Some teamId.
Proof.
  intros Hrole Hteam Hvalid Hget Hst.
  unfold postUsersFile, postUsers, checkTeam, FileStorage.getTeam.
  rewrite Hrole, Hteam, Hvalid. run_op. rewrite Hget. cbn beta iota.
  rewrite Hst. cbn [String.eqb Ascii.eqb Bool.eqb negb].
  unfold FileStorage.createUser. run_op.
  eexists _, _. split; [reflexivity|]. split; [reflexivity|].
  split; [cbn; apply JsMapFacts.get_set_same|].
  cbn. exact Hteam.
Qed.

(** C2, as amended: the check sits in the [POST /api/users] handler, not in
    the storage operation.  For every user data with role ["Field"] and a
    non-empty [teamId], the handler over the file backend replies 400 and
    leaves the store as it is (no user is inserted) when no team is stored
    under that id or the team's status is not ["Approved"] (["Pending"],
    say); and when the id is well-formed and the team's status is
    ["Approved"], it calls [createUser] with the hashed password, replies
    201 with that user, and the user is in the store. *)
Theorem postUsers_validates_team
  (bcrypt_hash : string -> string) (e : IdSource) (t1 t2 : Date)
  (userData : InsertUser.t) (teamId : string) (s : FileStorage.t) :
  InsertUser.role userData = Field ->
  truthy (InsertUser.teamId userData) = Some teamId ->
  ((JsMap.get teamId (FileStorage.teams s) = None \/
    exists team,
      JsMap.get teamId (FileStorage.teams s) = Some team /\
      FileTeam.status team <> "Approved") ->
   exists message,
     postUsersFile bcrypt_hash e t1 t2 (inl userData) s
     = (Ok (respond 400 (Message message)), s)) /\
  (isValidObjectId teamId = true ->
   (exists team,
      JsMap.get teamId (FileStorage.teams s) = Some team /\
      FileTeam.status team = "Approved") ->
   exists user s',
     FileStorage.createUser e t1 t2
       (InsertUser.set_password userData
          (bcrypt_hash (InsertUser.password userData))) s
     = (Ok user, s') /\
     postUsersFile bcrypt_hash e t1 t2 (inl userData) s
     = (Ok (respond 201 (Entity (UserResponse.ofFileUser user))), s') /\
     JsMap.get (FileUser._id user) (FileStorage.users s') = Some user /\
     FileUser.teamId user = Some teamId).
Proof.
  intros Hrole Hteam. split.
  - now apply postUsers_reject.
  - intros Hvalid (team & Hget & Hst).
    now apply postUsers_accept with (team := team).
Qed.

Lemma postUsers_validates_team_witness :
  InsertUser.role fieldUserInput = Field /\
  truthy (InsertUser.teamId fieldUserInput) = Some storedTeamId /\
  (exists message,
     postUsersFile sampleHash sampleSource2 2000 2000 (inl fieldUserInput)
       fileWithPendingTeam
     = (Ok (respond 400 (Message message)), fileWithPendingTeam)) /\
  (exists user s',
     postUsersFile sampleHash sampleSource2 2000 2000 (inl fieldUserInput)
       fileWithApprovedTeam
     = (Ok (respond 201 (Entity (UserResponse.ofFileUser user))), s') /\
     JsMap.get (FileUser._id user) (FileStorage.users s') = Some user).
Proof.
  assert (R : InsertUser.role fieldUserInput = Field) by reflexivity.
  assert (T : truthy (InsertUser.teamId fieldUserInput) = Some storedTeamId)
    by reflexivity.
  split; [exact R|]. split; [exact T|]. split.
  - apply (proj1 (postUsers_validates_team sampleHash sampleSource2 2000
                    2000 fieldUserInput storedTeamId fileWithPendingTeam
                    R T)).
    right. eexists. split; [reflexivity|]. cbn. discriminate.
  - destruct (proj2 (postUsers_validates_team sampleHash sampleSource2 2000
                       2000 fieldUserInput storedTeamId
                       fileWithApprovedTeam R T))
      as (user & s' & _ & H2 & H3 & _).
    + reflexivity.
    + eexists. split; reflexivity.
    + exists user, s'. split; assumption.
Defined.

(** ** Bulk status change *)

Section BulkFold.
Variable clock : string -> Date.
Variable status : string.

Let step := MongoStorage.bulkStep clock status.

Lemma bulkWrite_idem (id : string) (task : FileTask.t) :
  bulkWrite clock status id (bulkWrite clock status id task)
  = bulkWrite clock status id task.
Proof. destruct task; reflexivity. Qed.

Lemma bulkStep_get (m : MongoStorage.t) (id k : string) :
  JsMap.get k (step m id)
  = if String.eqb k id
    then option_map (bulkWrite clock status k) (JsMap.get k m)
    else JsMap.get k m.
Proof.
  unfold step, MongoStorage.bulkStep.
  destruct (String.eqb_spec k id) as [->|Hne].
  - destruct (JsMap.get id m) as [task|] eqn:G.
    + rewrite JsMapFacts.get_set_same. reflexivity.
    + rewrite G. reflexivity.
  - destruct (JsMap.get id m) as [task|] eqn:G.
    + apply JsMapFacts.get_set_other. congruence.
    + reflexivity.
Qed.

Lemma bulk_fold_get (ids : list string) :
  forall (m : MongoStorage.t) (k : string),
    JsMap.get k (fold_left step ids m)
    = if existsb (String.eqb k) ids
      then option_map (bulkWrite clock status k) (JsMap.get k m)
      else JsMap.get k m.
Proof.
  induction ids as [|id rest IH]; intros m k;
    cbn [fold_left existsb]; [reflexivity|].
  rewrite IH, bulkStep_get.
  destruct (String.eqb k id), (existsb (String.eqb k) rest);
    cbn [orb]; try reflexivity.
  destruct (JsMap.get k m); cbn [option_map]; [|reflexivity].
  now rewrite bulkWrite_idem.
Qed.
End BulkFold.

Lemma existsb_eqb_In (k : string) (ids : list string) :
  existsb (String.eqb k) ids = true <-> In k ids.
Proof.
  rewrite existsb_exists. split.
  - intros (x & Hin & E). apply String.eqb_eq in E. now subst.
  - intros Hin. exists k. split; [exact Hin | apply String.eqb_refl].
Qed.

(** The tasks a bulk call affects are the ids of the call that resolve to
    a task. *)
Lemma affected_In (ids : list string) (tasks : MongoStorage.t)
  (id : string) :
  In id (MongoStorage.affected ids tasks) <->
  In id ids /\ exists task, JsMap.get id tasks = Some task.
Proof.
  unfold MongoStorage.affected. rewrite nodup_In, filter_In.
  unfold JsMap.has. split; intros [Hin H]; (split; [exact Hin|]).
  - destruct (JsMap.get id tasks) as [task|]; [now exists task|].
    discriminate.
  - destruct H as (task & ->). reflexivity.
Qed.

(** The handler, whatever the storage behind it: one malformed id is enough
    for a 400 reply, before the storage is reached. *)
Lemma patchBulkStatus_rejects {S : Type}
  (storage : list string -> string -> M S nat) (u : SessionUser)
  (ids : list string) (status : option string) (s : S) :
  (exists id, In id ids /\ isValidObjectId id = false) ->
  exists reply,
    patchBulkStatus storage (Some u) (Some ids) status s = (Ok reply, s) /\
    statusCode reply = 400.
Proof.
  intros (id & Hin & Hbad). unfold patchBulkStatus, isAuthenticated.
  destruct ids as [|i rest]; [destruct Hin|].
  destruct (truthy status) as [st|]; run_op.
  - assert (Hf : In id (filter (fun id => negb (isValidObjectId id))
                          (i :: rest))).
    { apply filter_In. split; [exact Hin | now rewrite Hbad]. }
    destruct (filter _ (i :: rest)) as [|x l]; [destruct Hf|].
    cbn. eexists. split; reflexivity.
  - eexists. split; reflexivity.
Qed.

Lemma filter_all_valid (ids : list string) :
  (forall id, In id ids -> isValidObjectId id = true) ->
  filter (fun id => negb (isValidObjectId id)) ids = [].
Proof.
  induction ids as [|x l IH]; intros Hall; [reflexivity|].
  cbn [filter]. rewrite (Hall x (or_introl eq_refl)). cbn [negb].
  apply IH. intros id Hin. apply Hall. now right.
Qed.

(** With a session, a non-empty list of well-formed ids and a non-empty
    status, the handler passes both on: it reports the count it gets back,
    and replies 500 when the storage throws. *)
Lemma patchBulkStatus_passes {S : Type}
  (storage : list string -> string -> M S nat) (u : SessionUser)
  (ids : list string) (status : string) (s : S) :
  ids <> [] -> status <> "" ->
  (forall id, In id ids -> isValidObjectId id = true) ->
  patchBulkStatus storage (Some u) (Some ids) (Some status) s
  = match storage ids status s with
    | (Ok count, s') =>
        (Ok (respond 200
               (UpdatedCount
                  ("Updated " ++ toString10 (Z.of_nat count) ++ " tasks")
                  count)), s')
    | (Throw _, s') =>
        (Ok (respond 500 (Message "Failed to bulk update task status")), s')
    end.
Proof.
  intros Hne Hst Hall. unfold patchBulkStatus, isAuthenticated.
  destruct ids as [|i rest]; [congruence|].
  cbn [truthy]. apply String.eqb_neq in Hst. rewrite Hst.
  assert (Hf : filter (fun id => negb (isValidObjectId id)) (i :: rest)
               = []).
  { apply filter_all_valid. exact Hall. }
  rewrite Hf. run_op. cbn [List.length Nat.ltb Nat.leb].
  destruct (storage (i :: rest) status s) as [[count|msg] s'];
    reflexivity.
Qed.

(** C3: [bulkUpdateTaskStatus(ids, status)] checks the format of every id
    before it writes.  If some id is malformed, the call fails with the
    validation error and the task collection is what it was (so the tasks
    under the well-formed ids of the call are unchanged), and the handler
    of [PATCH /api/tasks/bulk-status] in front of it replies 400 without
    reaching the storage, whatever that storage is.  Otherwise the call
    returns the number of tasks it affects, which are the ids of the call
    that resolve to a task, each counted once; each such task gets the
    status (and its write time), an id that resolves to no task is
    skipped, and every task that is not named stays as it was; the handler
    then replies 200 with that count, and with whatever count its storage
    returns, and 500 when the storage throws.  The handler answers 401
    without a session, and the route exists only on a backend with the
    enhanced methods. *)
Theorem bulkUpdateTaskStatus_all_or_nothing
  (S : Type) (storage : list string -> string -> M S nat) (s : S)
  (clock : string -> Date) (u : SessionUser) (ids : list string)
  (status : string) (tasks : MongoStorage.t) :
  (bulkStatusRoute storage false = None /\
   bulkStatusRoute storage true = Some (patchBulkStatus storage) /\
   forall st,
     patchBulkStatus storage None (Some ids) st s
     = (Ok (respond 401 (Message "Not authenticated")), s)) /\
  ((exists id, In id ids /\ isValidObjectId id = false) ->
   MongoStorage.bulkUpdateTaskStatus clock ids status tasks
   = (Throw "Invalid task ID format", tasks) /\
   forall st,
   exists reply,
     patchBulkStatus storage (Some u) (Some ids) st s = (Ok reply, s) /\
     statusCode reply = 400) /\
  ((forall id, In id ids -> isValidObjectId id = true) ->
   exists tasks',
     let count := List.length (MongoStorage.affected ids tasks) in
     MongoStorage.bulkUpdateTaskStatus clock ids status tasks
     = (Ok count, tasks') /\
     NoDup (MongoStorage.affected ids tasks) /\
     (forall id,
        In id (MongoStorage.affected ids tasks) <->
        In id ids /\ exists task, JsMap.get id tasks = Some task) /\
     (forall id task,
        In id ids -> JsMap.get id tasks = Some task ->
        JsMap.get id tasks' = Some (bulkWrite clock status id task) /\
        FileTask.status (bulkWrite clock status id task) = status) /\
     (forall id,
        In id ids -> JsMap.get id tasks = None ->
        JsMap.get id tasks' = None) /\
     (forall id, ~ In id ids -> JsMap.get id tasks' = JsMap.get id tasks) /\
     (ids <> [] -> status <> "" ->
      patchBulkStatus (MongoStorage.bulkUpdateTaskStatus clock) (Some u)
        (Some ids) (Some status) tasks
      = (Ok (respond 200
               (UpdatedCount
                  ("Updated " ++ toString10 (Z.of_nat count) ++ " tasks")
                  count)), tasks')) /\
     (forall n s',
        ids <> [] -> status <> "" ->
        storage ids status s = (Ok n, s') ->
        patchBulkStatus storage (Some u) (Some ids) (Some status) s
        = (Ok (respond 200
                 (UpdatedCount
                    ("Updated " ++ toString10 (Z.of_nat n) ++ " tasks")
                    n)), s')) /\
     (forall message s',
        ids <> [] -> status <> "" ->
        storage ids status s = (Throw message, s') ->
        patchBulkStatus storage (Some u) (Some ids) (Some status) s
        = (Ok (respond 500 (Message "Failed to bulk update task status")),
           s'))).
Proof.
  split; [|split].
  - split; [reflexivity|]. split; [reflexivity|]. intros st. reflexivity.
  - intros Hbad. split.
    + unfold MongoStorage.bulkUpdateTaskStatus.
      destruct (forallb isValidObjectId ids) eqn:F; [|reflexivity].
      destruct Hbad as (id & Hin & Hid).
      rewrite forallb_forall in F. rewrite (F id Hin) in Hid.
      discriminate.
    + intros st. now apply patchBulkStatus_rejects.
  - intros Hall.
    assert (F : forallb isValidObjectId ids = true)
      by (apply forallb_forall; exact Hall).
    assert (Hrun :
              MongoStorage.bulkUpdateTaskStatus clock ids status tasks
              = (Ok (List.length (MongoStorage.affected ids tasks)),
                 fold_left (MongoStorage.bulkStep clock status)
                   (MongoStorage.affected ids tasks) tasks)).
    { unfold MongoStorage.bulkUpdateTaskStatus. now rewrite F. }
    eexists. cbv zeta. split; [exact Hrun|].
    split; [apply NoDup_nodup|].
    split; [intros id; apply affected_In|].
    split; [|split; [|split; [|split; [|split]]]].
    + intros id task Hin Hget. rewrite bulk_fold_get.
      assert (Ha : In id (MongoStorage.affected ids tasks))
        by (apply affected_In; split; [exact Hin | now exists task]).
      rewrite (proj2 (existsb_eqb_In id _) Ha), Hget.
      split; [reflexivity | destruct task; reflexivity].
    + intros id Hin Hget. rewrite bulk_fold_get, Hget.
      now destruct (existsb _ _).
    + intros id Hout. rewrite bulk_fold_get.
      destruct (existsb (String.eqb id) _) eqn:E; [|reflexivity].
      apply existsb_eqb_In, affected_In in E. destruct E as [E _].
      contradiction.
    + intros Hne Hst.
      rewrite (patchBulkStatus_passes _ u ids status tasks Hne Hst Hall).
      now rewrite Hrun.
    + intros n s' Hne Hst Hs.
      rewrite (patchBulkStatus_passes _ u ids status s Hne Hst Hall).
      now rewrite Hs.
    + intros message s' Hne Hst Hs.
      rewrite (patchBulkStatus_passes _ u ids status s Hne Hst Hall).
      now rewrite Hs.
Qed.

Lemma bulkUpdateTaskStatus_all_or_nothing_witness :
  (exists a b,
     JsMap.get sampleTaskId twoTasks = Some a /\
     JsMap.get secondTaskId twoTasks = Some b /\
     FileTask.status a = "In Progress" /\
     FileTask.status b = "In Progress") /\
  MongoStorage.bulkUpdateTaskStatus sampleClock
    [sampleTaskId; secondTaskId; "not-an-id"] "Completed" twoTasks
  = (Throw "Invalid task ID format", twoTasks) /\
  (exists reply,
     patchBulkStatus (MongoStorage.bulkUpdateTaskStatus sampleClock)
       (Some creatorSession)
       (Some [sampleTaskId; secondTaskId; "not-an-id"]) (Some "Completed")
       twoTasks = (Ok reply, twoTasks) /\
     statusCode reply = 400) /\
  (exists tasks',
     MongoStorage.bulkUpdateTaskStatus sampleClock
       [sampleTaskId; sampleTeamId; sampleTaskId] "Completed" twoTasks
     = (Ok 1%nat, tasks') /\
     patchBulkStatus (MongoStorage.bulkUpdateTaskStatus sampleClock)
       (Some creatorSession)
       (Some [sampleTaskId; sampleTeamId; sampleTaskId]) (Some "Completed")
       twoTasks
     = (Ok (respond 200 (UpdatedCount "Updated 1 tasks" 1%nat)), tasks') /\
     JsMap.get secondTaskId tasks' = JsMap.get secondTaskId twoTasks).
Proof.
  split; [eexists _, _; repeat split; reflexivity|].
  pose proof (bulkUpdateTaskStatus_all_or_nothing MongoStorage.t
                (MongoStorage.bulkUpdateTaskStatus sampleClock) twoTasks
                sampleClock creatorSession
                [sampleTaskId; secondTaskId; "not-an-id"] "Completed"
                twoTasks) as (_ & Hbad & _).
  destruct Hbad as [Hthrow Hreply].
  { exists "not-an-id". split; [cbn; auto | reflexivity]. }
  split; [exact Hthrow|]. split; [exact (Hreply (Some "Completed"))|].
  pose proof (bulkUpdateTaskStatus_all_or_nothing MongoStorage.t
                (MongoStorage.bulkUpdateTaskStatus sampleClock) twoTasks
                sampleClock creatorSession
                [sampleTaskId; sampleTeamId; sampleTaskId] "Completed"
                twoTasks) as (_ & _ & Hok).
  destruct Hok as (tasks' & Hrun & _ & _ & _ & _ & Hout & Hroute & _).
  { intros id [<-|[<-|[<-|[]]]]; reflexivity. }
  exists tasks'. split; [exact Hrun|]. split.
  - apply Hroute; discriminate.
  - apply Hout. intros [H|[H|[H|[]]]]; discriminate.
Defined.

(* ================================================================== *)
(** * Further properties of the storage code *)

(** ** Sorting newest first *)

Section SortDescending.
Context {A : Type}.
Variable key : A -> Z.

Let newestFirst (a b : A) : Z := key b - key a.
Let notBefore (a b : A) : Prop := key b <= key a.

Lemma sortInsert_perm (x : A) (l : list A) :
  Permutation (sortInsert newestFirst x l) (x :: l).
Proof.
  induction l as [|y r IH]; cbn [sortInsert]; [apply Permutation_refl|].
  destruct (0 <? newestFirst x y); [|apply Permutation_refl].
  apply perm_trans with (y :: x :: r);
    [apply perm_skip, IH | apply perm_swap].
Qed.

Lemma arraySort_perm (l : list A) :
  Permutation (arraySort newestFirst l) l.
Proof.
  induction l as [|x r IH]; cbn [arraySort]; [apply perm_nil|].
  apply perm_trans with (x :: arraySort newestFirst r);
    [apply sortInsert_perm | apply perm_skip, IH].
Qed.

Lemma sortInsert_sorted (x : A) (l : list A) :
  StronglySorted notBefore l ->
  StronglySorted notBefore (sortInsert newestFirst x l).
Proof.
  induction 1 as [|y r Hs IH Hall]; cbn [sortInsert].
  - constructor; constructor.
  - unfold newestFirst at 1. destruct (Z.ltb_spec 0 (key y - key x)).
    + constructor; [exact IH|].
      apply (Permutation_Forall (Permutation_sym (sortInsert_perm x r))).
      constructor; [unfold notBefore; lia | exact Hall].
    + constructor; [constructor; assumption|].
      constructor; [unfold notBefore; lia|].
      apply Forall_impl with (P := notBefore y); [|exact Hall].
      unfold notBefore. intros z Hz. lia.
Qed.

Lemma arraySort_sorted (l : list A) :
  StronglySorted notBefore (arraySort newestFirst l).
Proof.
  induction l as [|x r IH]; cbn [arraySort]; [constructor|].
  now apply sortInsert_sorted.
Qed.

Lemma sortInsert_ties (t : Z) (x : A) (l : list A) :
  filter (fun a => key a =? t) (sortInsert newestFirst x l)
  = filter (fun a => key a =? t) (x :: l).
Proof.
  induction l as [|y r IH]; cbn [sortInsert]; [reflexivity|].
  unfold newestFirst at 1. destruct (Z.ltb_spec 0 (key y - key x));
    [|reflexivity].
  cbn [filter] in *. rewrite IH.
  destruct (Z.eqb_spec (key x) t), (Z.eqb_spec (key y) t);
    try reflexivity.
  lia.
Qed.

Lemma arraySort_ties (t : Z) (l : list A) :
  filter (fun a => key a =? t) (arraySort newestFirst l)
  = filter (fun a => key a =? t) l.
Proof.
  induction l as [|x r IH]; cbn [arraySort]; [reflexivity|].
  rewrite sortInsert_ties. cbn [filter]. now rewrite IH.
Qed.
End SortDescending.

(** ** Keys and ids *)

Section Keyed.
Context {V : Type}.
Variable idOf : V -> string.
Implicit Types (m : JsMap.t V) (k : string) (v : V).

Lemma get_in_entries k v m : JsMap.get k m = Some v -> In (k, v) m.
Proof.
  induction m as [|[k' v'] r IH]; cbn [JsMap.get]; [discriminate|].
  destruct (String.eqb_spec k k') as [->|Hne]; intros H.
  - left. congruence.
  - right. auto.
Qed.

Lemma get_none_not_key k m : JsMap.get k m = None -> ~ In k (JsMap.keys m).
Proof.
  unfold JsMap.keys.
  induction m as [|[k' v'] r IH]; cbn [JsMap.get map fst];
    [intros _ []|].
  destruct (String.eqb_spec k k') as [->|Hne]; [discriminate|].
  intros H [E|Hin]; [congruence | now apply IH].
Qed.

Lemma in_entries_get k v m :
  NoDup (JsMap.keys m) -> In (k, v) m -> JsMap.get k m = Some v.
Proof.
  unfold JsMap.keys.
  induction m as [|[k' v'] r IH]; cbn [JsMap.get map fst];
    [intros _ []|].
  intros Hnd [E|Hin].
  - injection E as -> ->. now rewrite String.eqb_refl.
  - inversion Hnd as [|? ? Hnot Hnd']; subst.
    destruct (String.eqb_spec k k') as [->|Hne]; [|auto].
    exfalso. apply Hnot. apply (in_map fst) in Hin. exact Hin.
Qed.

Lemma keys_set k v m :
  JsMap.keys (JsMap.set k v m)
  = if JsMap.has k m then JsMap.keys m else (JsMap.keys m ++ [k])%list.
Proof.
  unfold JsMap.keys, JsMap.has.
  induction m as [|[k' v'] r IH]; cbn [JsMap.set JsMap.get map fst];
    [reflexivity|].
  destruct (String.eqb_spec k k') as [->|Hne]; cbn [map fst];
    [reflexivity|].
  rewrite IH. destruct (JsMap.get k r); reflexivity.
Qed.

Lemma set_entries k v m :
  forall kv, In kv (JsMap.set k v m) -> kv = (k, v) \/ In kv m.
Proof.
  induction m as [|[k' v'] r IH]; cbn [JsMap.set]; intros kv.
  - intros [<-|[]]. now left.
  - destruct (String.eqb k k').
    + intros [<-|Hin]; [now left | right; now right].
    + intros [<-|Hin]; [right; now left|].
      destruct (IH kv Hin); [now left | right; now right].
Qed.

Lemma keyed_set k v m :
  keyedById idOf m -> idOf v = k -> keyedById idOf (JsMap.set k v m).
Proof.
  intros [Hnd Hall] Hid. split.
  - rewrite keys_set. unfold JsMap.has.
    destruct (JsMap.get k m) eqn:G; [exact Hnd|].
    apply NoDup_app.
    + exact Hnd.
    + constructor; [tauto | constructor].
    + intros x Hx [<-|[]]. exact (get_none_not_key _ _ G Hx).
  - apply Forall_forall. intros kv Hin.
    destruct (set_entries k v m kv Hin) as [->|Hold]; [exact Hid|].
    exact (proj1 (Forall_forall _ _) Hall kv Hold).
Qed.

Lemma delete_entries k m :
  forall kv, In kv (JsMap.delete k m) -> In kv m.
Proof.
  induction m as [|[k' v'] r IH]; cbn [JsMap.delete]; intros kv;
    [intros []|].
  destruct (String.eqb k k'); [now right|].
  intros [<-|Hin]; [now left | right; auto].
Qed.

Lemma keyed_delete k m :
  keyedById idOf m -> keyedById idOf (JsMap.delete k m).
Proof.
  intros [Hnd Hall]. split.
  - revert Hnd. unfold JsMap.keys.
    induction m as [|[k' v'] r IH]; cbn [JsMap.delete map fst];
      intros Hnd; [constructor|].
    inversion Hnd as [|? ? Hnot Hnd']; subst.
    destruct (String.eqb k k'); [exact Hnd'|].
    cbn [map fst]. constructor.
    + intros Hin. apply Hnot.
      apply in_map_iff in Hin as ([k0 v0] & E & Hin0).
      apply in_map_iff. exists (k0, v0). split; [exact E|].
      apply (delete_entries k r). exact Hin0.
    + apply IH; [|exact Hnd'].
      now inversion Hall.
  - apply Forall_forall. intros kv Hin.
    exact (proj1 (Forall_forall _ _) Hall kv (delete_entries k m kv Hin)).
Qed.

Lemma keyed_get k v m :
  keyedById idOf m -> JsMap.get k m = Some v -> idOf v = k.
Proof.
  intros [_ Hall] G.
  exact (proj1 (Forall_forall _ _) Hall (k, v) (get_in_entries _ _ _ G)).
Qed.

Lemma keyed_in_values v m :
  keyedById idOf m -> In v (JsMap.values m) ->
  JsMap.get (idOf v) m = Some v.
Proof.
  intros [Hnd Hall] Hin. unfold JsMap.values in Hin.
  apply in_map_iff in Hin as ([k v0] & E & Hin). cbn in E. subst v0.
  pose proof (proj1 (Forall_forall _ _) Hall (k, v) Hin) as Hk.
  cbn in Hk. rewrite Hk. now apply in_entries_get.
Qed.

Lemma keyed_empty : keyedById idOf [].
Proof. split; constructor. Qed.
End Keyed.

Ltac unfold_file_ops :=
  unfold FileStorage.createUser, FileStorage.updateUserLocation,
    FileStorage.updateUserLastActive, FileStorage.createTeam,
    FileStorage.updateTeamStatus, FileStorage.assignUserToTeam,
    FileStorage.createTask, FileStorage.updateTaskStatus,
    FileStorage.assignTask, FileStorage.createFeature,
    FileStorage.updateFeature, FileStorage.deleteFeature,
    FileStorage.createBoundary, FileStorage.updateBoundaryStatus,
    FileStorage.assignBoundary, FileStorage.createTaskUpdate,
    FileStorage.addTaskEvidence.

Ltac split_cases :=
  repeat match goal with
    | |- context [isValidObjectId ?x] =>
        destruct (isValidObjectId x); cbn [negb orb andb]
    | |- context [truthy ?o] => destruct (truthy o)
    | |- context [JsMap.get ?k ?m] =>
        let G := fresh "G" in destruct (JsMap.get k m) eqn:G
    end.

Ltac keys_kept :=
  unfold fileWellKeyed;
  cbn [FileStorage.users FileStorage.tasks FileStorage.features
       FileStorage.boundaries FileStorage.taskUpdates
       FileStorage.taskEvidence FileStorage.teams
       FileStorage.on_users FileStorage.on_tasks FileStorage.on_features
       FileStorage.on_boundaries FileStorage.on_taskUpdates
       FileStorage.on_taskEvidence FileStorage.on_teams snd];
  refine (conj _ (conj _ (conj _ (conj _ (conj _ (conj _ _))))));
  try assumption;
  try (apply keyed_delete; assumption);
  try (apply keyed_set; [assumption|];
       first [reflexivity | cbn; eapply keyed_get; eassumption]).

(** X4.  Every operation of the file backend keeps each map keyed by the ids of
    its records, without a repeated key, whatever its outcome; the empty
    store is keyed so. *)
Theorem file_operations_keep_keys (s : FileStorage.t) :
  fileWellKeyed s ->
  fileWellKeyed FileStorage.empty /\
  (forall e t1 t2 ins,
     fileWellKeyed (snd (FileStorage.createUser e t1 t2 ins s))) /\
  (forall t1 t2 id loc,
     fileWellKeyed (snd (FileStorage.updateUserLocation t1 t2 id loc s))) /\
  (forall t1 t2 id,
     fileWellKeyed (snd (FileStorage.updateUserLastActive t1 t2 id s))) /\
  (forall e t1 t2 ins,
     fileWellKeyed (snd (FileStorage.createTeam e t1 t2 ins s))) /\
  (forall t id status approver,
     fileWellKeyed
       (snd (FileStorage.updateTeamStatus t id status approver s))) /\
  (forall t userId teamId,
     fileWellKeyed (snd (FileStorage.assignUserToTeam t userId teamId s))) /\
  (forall e t1 t2 ins,
     fileWellKeyed (snd (FileStorage.createTask e t1 t2 ins s))) /\
  (forall e t1 t2 id status userId,
     fileWellKeyed
       (snd (FileStorage.updateTaskStatus e t1 t2 id status userId s))) /\
  (forall t id userId,
     fileWellKeyed (snd (FileStorage.assignTask t id userId s))) /\
  (forall e t1 t2 t3 ins,
     fileWellKeyed (snd (FileStorage.createFeature e t1 t2 t3 ins s))) /\
  (forall t1 t2 id upd,
     fileWellKeyed (snd (FileStorage.updateFeature t1 t2 id upd s))) /\
  (forall id, fileWellKeyed (snd (FileStorage.deleteFeature id s))) /\
  (forall e t1 t2 ins,
     fileWellKeyed (snd (FileStorage.createBoundary e t1 t2 ins s))) /\
  (forall t id status,
     fileWellKeyed (snd (FileStorage.updateBoundaryStatus t id status s))) /\
  (forall t id userId,
     fileWellKeyed (snd (FileStorage.assignBoundary t id userId s))) /\
  (forall e t ins,
     fileWellKeyed (snd (FileStorage.createTaskUpdate e t ins s))) /\
  (forall e t ins,
     fileWellKeyed (snd (FileStorage.addTaskEvidence e t ins s))).
Proof.
  intros H.
  assert (H0 : fileWellKeyed s) by exact H.
  destruct H as (Hu & Ht & Hf & Hb & Hup & Hev & Htm).
  split; [unfold fileWellKeyed; cbn; repeat split; constructor|].
  repeat match goal with
    | |- _ /\ _ => split
    end;
    intros; unfold_file_ops; run_op; split_cases; run_op;
    try exact H0; keys_kept.
Qed.

Lemma file_operations_keep_keys_witness :
  fileWellKeyed fileWithTask /\
  fileWellKeyed
    (snd (FileStorage.assignTask 3000 sampleTaskId sampleUserId
            fileWithTask)).
Proof.
  assert (H : fileWellKeyed fileWithTask).
  { unfold fileWellKeyed, keyedById. cbn.
    repeat split; repeat constructor. intros []. }
  split; [exact H|].
  destruct (file_operations_keep_keys fileWithTask H)
    as (_ & _ & _ & _ & _ & _ & _ & _ & _ & Hassign & _).
  apply Hassign.
Defined.

Section KeyedValues.
Context {V : Type}.
Variable idOf : V -> string.

Lemma not_key_get_none (k : string) (m : JsMap.t V) :
  ~ In k (JsMap.keys m) -> JsMap.get k m = None.
Proof.
  unfold JsMap.keys.
  induction m as [|[k' v'] r IH]; cbn [JsMap.get map fst]; [reflexivity|].
  intros Hnot. destruct (String.eqb_spec k k') as [->|Hne].
  - exfalso. apply Hnot. now left.
  - apply IH. intros Hin. apply Hnot. now right.
Qed.

Lemma set_fresh_append (k : string) (v : V) (m : JsMap.t V) :
  JsMap.get k m = None -> JsMap.set k v m = (m ++ [(k, v)])%list.
Proof.
  induction m as [|[k' v'] r IH]; cbn [JsMap.get JsMap.set app];
    [reflexivity|].
  destruct (String.eqb k k'); [discriminate|].
  intros H. now rewrite IH.
Qed.

Lemma fold_set_append (entries : list (string * V)) :
  forall acc : JsMap.t V,
    NoDup (JsMap.keys acc ++ JsMap.keys entries) ->
    fold_left (fun m kv => JsMap.set (fst kv) (snd kv) m) entries acc
    = (acc ++ entries)%list.
Proof.
  unfold JsMap.keys.
  induction entries as [|[k v] r IH]; intros acc Hnd; cbn [fold_left].
  - now rewrite app_nil_r.
  - cbn [fst snd map] in *.
    rewrite set_fresh_append.
    + rewrite IH.
      * now rewrite <- app_assoc.
      * rewrite map_app. cbn [map fst]. now rewrite <- app_assoc.
    + apply not_key_get_none. unfold JsMap.keys.
      apply NoDup_remove_2 in Hnd. intros Hin. apply Hnd.
      apply in_or_app. now left.
Qed.

Lemma mapOfEntries_same (m : JsMap.t V) :
  NoDup (JsMap.keys m) -> mapOfEntries m = m.
Proof.
  intros Hnd. unfold mapOfEntries.
  now rewrite fold_set_append.
Qed.

Lemma reload_entries (json : V -> V) (m : JsMap.t V) :
  (forall v, idOf (json v) = idOf v) ->
  keyedById idOf m ->
  mapOfEntries (map (fun v => (idOf v, v)) (map json (JsMap.values m)))
  = map (fun kv => (fst kv, json (snd kv))) m.
Proof.
  intros Hjson [Hnd Hall].
  assert (E : map (fun v => (idOf v, v)) (map json (JsMap.values m))
              = map (fun kv => (fst kv, json (snd kv))) m).
  { unfold JsMap.values. rewrite !map_map. apply map_ext_in.
    intros [k v] Hin. cbn [fst snd]. rewrite Hjson.
    pose proof (proj1 (Forall_forall _ _) Hall (k, v) Hin) as Hk.
    cbn [fst snd] in Hk. now rewrite Hk. }
  rewrite E. apply mapOfEntries_same.
  unfold JsMap.keys. rewrite map_map. exact Hnd.
Qed.

Lemma values_set_keyed (k : string) (v x : V) (m : JsMap.t V) :
  keyedById idOf m -> idOf v = k ->
  In x (JsMap.values (JsMap.set k v m)) <->
  x = v \/ (In x (JsMap.values m) /\ idOf x <> k).
Proof.
  intros Hk Hid.
  pose proof (keyed_set idOf k v m Hk Hid) as Hk'. split.
  - intros Hin. apply (keyed_in_values idOf) in Hin; [|exact Hk'].
    destruct (String.eqb_spec (idOf x) k) as [E|Hne].
    + rewrite E, JsMapFacts.get_set_same in Hin. left. congruence.
    + rewrite JsMapFacts.get_set_other in Hin by congruence.
      right. split; [|exact Hne].
      exact (JsMapFacts.get_in_values _ _ _ Hin).
  - intros [->|[Hin Hne]].
    + apply JsMapFacts.get_in_values with (k := k).
      apply JsMapFacts.get_set_same.
    + apply (keyed_in_values idOf) in Hin; [|exact Hk].
      apply JsMapFacts.get_in_values with (k := idOf x).
      rewrite JsMapFacts.get_set_other by congruence. exact Hin.
Qed.
End KeyedValues.

(** ** Restart of the file backend *)

(** X5.  What [saveUsers] and [saveTasks] write, once through JSON and through
    [loadUsers] and [loadTasks], gives the maps back with the same keys in
    the same order, each key with the record that JSON makes of the saved
    one -- provided JSON keeps the [_id] strings and the maps were keyed by
    their records' ids.  Without a readable file the load keeps the store
    as it is. *)
Theorem file_save_then_load
  (jsonUser : FileUser.t -> FileUser.t) (jsonTask : FileTask.t -> FileTask.t)
  (s s0 : FileStorage.t) :
  (forall u, FileUser._id (jsonUser u) = FileUser._id u) ->
  (forall t, FileTask._id (jsonTask t) = FileTask._id t) ->
  fileWellKeyed s ->
  FileStorage.users
    (snd (FileStorage.loadUsers
            (Some (map jsonUser (FileStorage.saveUsers s))) s0))
  = map (fun kv => (fst kv, jsonUser (snd kv))) (FileStorage.users s) /\
  FileStorage.tasks
    (snd (FileStorage.loadTasks
            (Some (map jsonTask (FileStorage.saveTasks s))) s0))
  = map (fun kv => (fst kv, jsonTask (snd kv))) (FileStorage.tasks s) /\
  FileStorage.loadUsers None s0 = (Ok tt, s0) /\
  FileStorage.loadTasks None s0 = (Ok tt, s0).
Proof.
  intros Hu Ht (Ku & Kt & _).
  split; [|split; [|split; reflexivity]].
  - cbn. now apply reload_entries.
  - cbn. now apply reload_entries.
Qed.

Lemma file_save_then_load_witness :
  fileWellKeyed fileWithTask /\
  FileStorage.tasks
    (snd (FileStorage.loadTasks
            (Some (map (fun t => t) (FileStorage.saveTasks fileWithTask)))
            FileStorage.empty))
  = map (fun kv => (fst kv, snd kv)) (FileStorage.tasks fileWithTask).
Proof.
  assert (H : fileWellKeyed fileWithTask).
  { unfold fileWellKeyed, keyedById. cbn.
    repeat split; repeat constructor. intros []. }
  split; [exact H|].
  exact (proj1 (proj2 (file_save_then_load (fun u => u) (fun t => t)
                         fileWithTask FileStorage.empty
                         (fun u => eq_refl) (fun t => eq_refl) H))).
Defined.

(** ** Assignment, then the assignee's list *)

(** X6.  Assigning a task in the file backend moves it: the task is in the new
    assignee's list, and the list of any other user is what it was, less
    that task. *)
Theorem file_assignTask_moves_task
  (tUpdated : Date) (id a b : string) (s : FileStorage.t)
  (task : FileTask.t) :
  isValidObjectId id = true -> isValidObjectId a = true ->
  isValidObjectId b = true -> a <> b ->
  keyedById FileTask._id (FileStorage.tasks s) ->
  JsMap.get id (FileStorage.tasks s) = Some task ->
  exists task' s' lb la0 la,
    FileStorage.assignTask tUpdated id b s = (Ok task', s') /\
    FileStorage.getTasksByAssignee b s' = (Ok lb, s') /\
    In task' lb /\
    FileStorage.getTasksByAssignee a s = (Ok la0, s) /\
    FileStorage.getTasksByAssignee a s' = (Ok la, s') /\
    forall x, In x la <-> In x la0 /\ FileTask._id x <> id.
Proof.
  intros Hid Ha Hb Hab Hk Hget.
  unfold FileStorage.assignTask, FileStorage.getTasksByAssignee.
  rewrite Hid, Ha, Hb. run_op. rewrite Hget.
  eexists _, _, _, _, _. split; [reflexivity|].
  split; [reflexivity|].
  pose proof (keyed_get _ _ _ _ Hk Hget) as Hidof.
  cbn [FileStorage.tasks FileStorage.on_tasks].
  split.
  - apply filter_In. split.
    + apply JsMapFacts.get_in_values with (k := id).
      apply JsMapFacts.get_set_same.
    + cbn. apply String.eqb_refl.
  - split; [reflexivity|]. split; [reflexivity|].
    intros x. rewrite !filter_In.
    rewrite (values_set_keyed FileTask._id) by (assumption || exact Hidof).
    split.
    + intros [[->|[Hin Hne]] Hx].
      * cbn in Hx. apply String.eqb_eq in Hx. congruence.
      * tauto.
    + intros [[Hin Hx] Hne]. tauto.
Qed.

Lemma file_assignTask_moves_task_witness :
  exists task' s' lb,
    FileStorage.assignTask 3000 sampleTaskId sampleUserId fileWithTask
    = (Ok task', s') /\
    FileStorage.getTasksByAssignee sampleUserId s' = (Ok lb, s') /\
    In task' lb.
Proof.
  assert (V1 : isValidObjectId sampleTaskId = true) by reflexivity.
  assert (V2 : isValidObjectId sampleTeamId = true) by reflexivity.
  assert (V3 : isValidObjectId sampleUserId = true) by reflexivity.
  assert (N : sampleTeamId <> sampleUserId) by discriminate.
  assert (K : keyedById FileTask._id (FileStorage.tasks fileWithTask)).
  { unfold keyedById. cbn. split; repeat constructor. intros []. }
  assert (G : JsMap.get sampleTaskId (FileStorage.tasks fileWithTask)
              = Some (FileTask.mk sampleTaskId "Inspect tower" None
                        "In Progress" "High" None None None None None None
                        1000 1000)) by reflexivity.
  destruct (file_assignTask_moves_task 3000 sampleTaskId sampleTeamId
              sampleUserId fileWithTask _ V1 V2 V3 N K G)
    as (task' & s' & lb & _ & _ & H1 & H2 & H3 & _).
  exists task', s', lb. repeat split; assumption.
Defined.

(** X7.  Assigning a user to a team in the file backend moves the user: the user
    is in the new team's member list, and the member list of any other team
    is what it was, less that user. *)
Theorem file_assignUserToTeam_moves_user
  (tUpdated : Date) (userId a b : string) (s : FileStorage.t)
  (user : FileUser.t) :
  isValidObjectId userId = true -> isValidObjectId a = true ->
  isValidObjectId b = true -> a <> b ->
  keyedById FileUser._id (FileStorage.users s) ->
  JsMap.get userId (FileStorage.users s) = Some user ->
  exists user' s' lb la0 la,
    FileStorage.assignUserToTeam tUpdated userId b s = (Ok user', s') /\
    FileStorage.getUsersByTeam b s' = (Ok lb, s') /\
    In user' lb /\
    FileStorage.getUsersByTeam a s = (Ok la0, s) /\
    FileStorage.getUsersByTeam a s' = (Ok la, s') /\
    forall x, In x la <-> In x la0 /\ FileUser._id x <> userId.
Proof.
  intros Hid Ha Hb Hab Hk Hget.
  unfold FileStorage.assignUserToTeam, FileStorage.getUsersByTeam.
  rewrite Hid, Ha, Hb. run_op. rewrite Hget.
  eexists _, _, _, _, _. split; [reflexivity|].
  split; [reflexivity|].
  pose proof (keyed_get _ _ _ _ Hk Hget) as Hidof.
  cbn [FileStorage.users FileStorage.on_users].
  split.
  - apply filter_In. split.
    + apply JsMapFacts.get_in_values with (k := userId).
      apply JsMapFacts.get_set_same.
    + cbn. apply String.eqb_refl.
  - split; [reflexivity|]. split; [reflexivity|].
    intros x. rewrite !filter_In.
    rewrite (values_set_keyed FileUser._id) by (assumption || exact Hidof).
    split.
    + intros [[->|[Hin Hne]] Hx].
      * cbn in Hx. apply String.eqb_eq in Hx. congruence.
      * tauto.
    + intros [[Hin Hx] Hne]. tauto.
Qed.

Lemma file_assignUserToTeam_moves_user_witness :
  exists user' s' lb,
    FileStorage.assignUserToTeam 7000 sampleAliceId sampleTeamId
      fileWithUser = (Ok user', s') /\
    FileStorage.getUsersByTeam sampleTeamId s' = (Ok lb, s') /\
    In user' lb.
Proof.
  assert (V1 : isValidObjectId sampleAliceId = true) by reflexivity.
  assert (V2 : isValidObjectId sampleUserId = true) by reflexivity.
  assert (V3 : isValidObjectId sampleTeamId = true) by reflexivity.
  assert (N : sampleUserId <> sampleTeamId) by discriminate.
  assert (K : keyedById FileUser._id (FileStorage.users fileWithUser)).
  { unfold keyedById. cbn. split; repeat constructor. intros []. }
  assert (G : JsMap.get sampleAliceId (FileStorage.users fileWithUser)
              = Some (FileUser.mk sampleAliceId "Alice" "secret" "Alice Doe"
                        "alice@example.org" Supervisor None None None
                        1000 1000)) by reflexivity.
  destruct (file_assignUserToTeam_moves_user 7000 sampleAliceId
              sampleUserId sampleTeamId fileWithUser _ V1 V2 V3 N K G)
    as (user' & s' & lb & _ & _ & H1 & H2 & H3 & _).
  exists user', s', lb. repeat split; assumption.
Defined.

(** ** Identifier collisions in the file backend *)

(** X8.  [createTask] of the file backend does not look whether the generated id
    is taken: when it is, the task stored under it is replaced, and the
    number of tasks stays what it was. *)
Theorem file_createTask_replaces_on_collision
  (e : IdSource) (t1 t2 : Date) (ins : InsertTask.t) (s : FileStorage.t)
  (old : FileTask.t) :
  JsMap.get (generateObjectId e) (FileStorage.tasks s) = Some old ->
  exists task s',
    FileStorage.createTask e t1 t2 ins s = (Ok task, s') /\
    JsMap.get (generateObjectId e) (FileStorage.tasks s') = Some task /\
    JsMap.size (FileStorage.tasks s') = JsMap.size (FileStorage.tasks s) /\
    JsMap.keys (FileStorage.tasks s') = JsMap.keys (FileStorage.tasks s).
Proof.
  intros Hold. unfold FileStorage.createTask. run_op.
  eexists _, _. split; [reflexivity|].
  cbn [FileStorage.tasks FileStorage.on_tasks].
  split; [apply JsMapFacts.get_set_same|].
  split.
  - now apply JsMapFacts.size_set_present with (v0 := old).
  - now apply JsMapFacts.keys_set_present with (v0 := old).
Qed.

Lemma file_createTask_replaces_on_collision_witness :
  exists old task s',
    JsMap.get (generateObjectId sampleSource)
      (FileStorage.tasks fileWithTask) = Some old /\
    FileStorage.createTask sampleSource 5000 5000
      (InsertTask.set_status sampleInsertTask (Some "Completed"))
      fileWithTask = (Ok task, s') /\
    FileTask.status old = "In Progress" /\
    FileTask.status task = "Completed" /\
    JsMap.size (FileStorage.tasks s') = 1%nat.
Proof.
  assert (G : JsMap.get (generateObjectId sampleSource)
                (FileStorage.tasks fileWithTask)
              = Some (FileTask.mk sampleTaskId "Inspect tower" None
                        "In Progress" "High" None None None None None None
                        1000 1000)) by reflexivity.
  destruct (file_createTask_replaces_on_collision sampleSource 5000 5000
              (InsertTask.set_status sampleInsertTask (Some "Completed"))
              fileWithTask _ G) as (task & s' & Hrun & Hget & Hsize & _).
  eexists _, task, s'. split; [exact G|]. split; [exact Hrun|].
  split; [reflexivity|]. split.
  - unfold FileStorage.createTask in Hrun. vm_compute in Hrun.
    injection Hrun as <- _. reflexivity.
  - rewrite Hsize. reflexivity.
Defined.

(** ** Deleting and updating a feature *)

Section DeleteFacts.
Context {V : Type}.
Implicit Types (m : JsMap.t V) (k : string).

Lemma get_delete_other k k' m :
  k <> k' -> JsMap.get k' (JsMap.delete k m) = JsMap.get k' m.
Proof.
  intros Hne. induction m as [|[k0 v0] r IH];
    cbn [JsMap.delete JsMap.get]; [reflexivity|].
  destruct (String.eqb_spec k k0) as [->|Hk].
  - destruct (String.eqb_spec k' k0); [congruence | reflexivity].
  - cbn [JsMap.get]. now rewrite IH.
Qed.

Lemma get_delete_same k m :
  NoDup (JsMap.keys m) -> JsMap.get k (JsMap.delete k m) = None.
Proof.
  unfold JsMap.keys. induction m as [|[k0 v0] r IH];
    cbn [JsMap.delete JsMap.get map fst]; [reflexivity|].
  intros Hnd. inversion Hnd as [|? ? Hnot Hnd']; subst.
  destruct (String.eqb_spec k k0) as [->|Hk].
  - now apply not_key_get_none.
  - cbn [JsMap.get]. destruct (String.eqb_spec k k0); [congruence|].
    now apply IH.
Qed.

Lemma delete_absent k m : JsMap.get k m = None -> JsMap.delete k m = m.
Proof.
  induction m as [|[k0 v0] r IH]; cbn [JsMap.delete JsMap.get];
    [reflexivity|].
  destruct (String.eqb k k0); [discriminate|].
  intros H. now rewrite IH.
Qed.
End DeleteFacts.

(** X9.  [deleteFeature] of the file backend.  A malformed id and an id without
    a feature give [false] and change nothing.  An id with a feature gives
    [true]; afterwards [getFeature] of that id finds nothing, a second
    [deleteFeature] gives [false], and every other feature is still
    there. *)
Theorem file_deleteFeature_spec (id : string) (s : FileStorage.t) :
  NoDup (JsMap.keys (FileStorage.features s)) ->
  (isValidObjectId id = false ->
   FileStorage.deleteFeature id s = (Ok false, s)) /\
  (JsMap.get id (FileStorage.features s) = None ->
   FileStorage.deleteFeature id s = (Ok false, s)) /\
  (isValidObjectId id = true ->
   (exists feature, JsMap.get id (FileStorage.features s) = Some feature) ->
   exists s',
     FileStorage.deleteFeature id s = (Ok true, s') /\
     FileStorage.getFeature id s' = (Ok None, s') /\
     fst (FileStorage.deleteFeature id s') = Ok false /\
     (forall k, k <> id ->
        JsMap.get k (FileStorage.features s')
        = JsMap.get k (FileStorage.features s)) /\
     FileStorage.on_features (fun _ => FileStorage.features s) s' = s).
Proof.
  intros Hnd. unfold FileStorage.deleteFeature, FileStorage.getFeature.
  split; [intros ->; reflexivity|]. split.
  - intros Hnone. destruct (isValidObjectId id); run_op; [|reflexivity].
    unfold JsMap.has. rewrite Hnone.
    unfold FileStorage.on_features. rewrite (delete_absent _ _ Hnone).
    destruct s; reflexivity.
  - intros -> (feature & Hget). run_op.
    unfold JsMap.has at 1. rewrite Hget.
    eexists. split; [reflexivity|].
    cbn [FileStorage.features FileStorage.on_features fst].
    unfold JsMap.has. rewrite (get_delete_same _ _ Hnd).
    split; [reflexivity|]. split; [reflexivity|].
    split; [intros k Hne; apply get_delete_other; congruence|].
    destruct s; reflexivity.
Qed.

Lemma file_deleteFeature_spec_witness :
  NoDup (JsMap.keys (FileStorage.features fileWithFeature)) /\
  isValidObjectId sampleTaskId = true /\
  exists s',
    FileStorage.deleteFeature sampleTaskId fileWithFeature = (Ok true, s') /\
    FileStorage.getFeature sampleTaskId s' = (Ok None, s').
Proof.
  assert (N : NoDup (JsMap.keys (FileStorage.features fileWithFeature))).
  { cbn. repeat constructor. intros []. }
  assert (V : isValidObjectId sampleTaskId = true) by reflexivity.
  split; [exact N|]. split; [exact V|].
  destruct (proj2 (proj2 (file_deleteFeature_spec sampleTaskId
                            fileWithFeature N)) V)
    as (s' & H1 & H2 & _).
  - eexists. reflexivity.
  - exists s'. split; assumption.
Defined.

(** X10.  [updateFeature] of the file backend on an existing feature keeps the
    feature's id, its key and [createdAt], and stamps [updatedAt] and
    [lastUpdated].  An update that carries nothing changes nothing else.
    An update whose geometry has a type that is none of the three keeps the
    existing geometry (where [createFeature] stores none), and an empty
    [feaStatus] keeps the existing status. *)
Theorem file_updateFeature_merge
  (tLast tUpdated : Date) (id : string) (upd : PartialFeature.t)
  (s : FileStorage.t) (old : FileFeature.t) :
  isValidObjectId id = true ->
  JsMap.get id (FileStorage.features s) = Some old ->
  exists new s',
    FileStorage.updateFeature tLast tUpdated id upd s = (Ok new, s') /\
    JsMap.get id (FileStorage.features s') = Some new /\
    JsMap.keys (FileStorage.features s') = JsMap.keys (FileStorage.features s)
    /\
    FileFeature._id new = FileFeature._id old /\
    FileFeature.createdAt new = FileFeature.createdAt old /\
    FileFeature.updatedAt new = tUpdated /\
    FileFeature.lastUpdated new = tLast /\
    (upd = PartialFeature.empty ->
     new = FileFeature.mk (FileFeature._id old) (FileFeature.name old)
             (FileFeature.feaNo old) (FileFeature.feaState old)
             (FileFeature.feaStatus old) (FileFeature.feaType old)
             (FileFeature.specificType old) (FileFeature.maintenance old)
             (FileFeature.maintenanceDate old) (FileFeature.geometry old)
             (FileFeature.remarks old) (FileFeature.createdBy old)
             (FileFeature.boundaryId old) (FileFeature.createdAt old)
             tUpdated tLast) /\
    (forall g,
       PartialFeature.geometry upd = Some g ->
       Geometry.type g <> "Point" -> Geometry.type g <> "LineString" ->
       Geometry.type g <> "Polygon" ->
       FileFeature.geometry new = FileFeature.geometry old /\
       FileStorage.convertGeometry (Some g) = None) /\
    (PartialFeature.feaStatus upd = Some "" ->
     FileFeature.feaStatus new = FileFeature.feaStatus old).
Proof.
  intros Hid Hget. unfold FileStorage.updateFeature.
  rewrite Hid. run_op. rewrite Hget.
  eexists _, _. split; [reflexivity|].
  cbn [FileStorage.features FileStorage.on_features].
  split; [apply JsMapFacts.get_set_same|].
  split; [now apply JsMapFacts.keys_set_present with (v0 := old)|].
  do 4 (split; [reflexivity|]).
  split; [intros ->; reflexivity|]. split.
  - intros g Hg H1 H2 H3. cbn [FileFeature.geometry].
    unfold FileStorage.mergeGeometry, FileStorage.convertGeometry.
    rewrite Hg.
    apply String.eqb_neq in H1, H2, H3. rewrite H1, H2, H3.
    split; reflexivity.
  - intros Hst. cbn [FileFeature.feaStatus]. rewrite Hst. reflexivity.
Qed.

Lemma file_updateFeature_merge_witness :
  isValidObjectId sampleTaskId = true /\
  exists old new s',
    JsMap.get sampleTaskId (FileStorage.features fileWithFeature)
    = Some old /\
    FileStorage.updateFeature 2000 2001 sampleTaskId PartialFeature.empty
      fileWithFeature = (Ok new, s') /\
    FileFeature.name new = "Tower 1" /\
    FileFeature.updatedAt new = 2001.
Proof.
  assert (V : isValidObjectId sampleTaskId = true) by reflexivity.
  split; [exact V|].
  assert (G : JsMap.get sampleTaskId (FileStorage.features fileWithFeature)
              = Some (FileFeature.mk sampleTaskId "Tower 1" "T-1" "Plan"
                        "New" "Tower" "Lattice" "None" None
                        (Some (Geometry.mk "Point" (Position (20, 10))))
                        None (Some sampleUserId) None 1000 1000 1000))
    by reflexivity.
  destruct (file_updateFeature_merge 2000 2001 sampleTaskId
              PartialFeature.empty fileWithFeature _ V G)
    as (new & s' & Hrun & _ & _ & _ & _ & Hu & _ & Hempty & _).
  eexists _, new, s'. split; [exact G|]. split; [exact Hrun|].
  split; [|exact Hu]. rewrite (Hempty eq_refl). reflexivity.
Defined.

(** ** Status of a team *)

(** X11.  [updateTeamStatus] sets the status to whatever string it is given.
    In both backends the approver is written only when one is passed and
    non-empty; without one the team keeps the approver it had (a team that
    is rejected after its approval still names who approved it).  The file
    backend refuses a malformed approver id before it changes anything. *)
Theorem updateTeamStatus_approver
  (tUpdated : Date) (id status : string) (approvedBy : option string)
  (fs : FileStorage.t) (fteam : FileTeam.t)
  (ms : MemStorage.t) (mteam : MemTeam.t) :
  (isValidObjectId id = true ->
   JsMap.get id (FileStorage.teams fs) = Some fteam ->
   (truthy approvedBy = None ->
    exists team' fs',
      FileStorage.updateTeamStatus tUpdated id status approvedBy fs
      = (Ok team', fs') /\
      FileTeam.status team' = status /\
      FileTeam.approvedBy team' = FileTeam.approvedBy fteam /\
      JsMap.get id (FileStorage.teams fs') = Some team') /\
   (forall approver,
      truthy approvedBy = Some approver ->
      isValidObjectId approver = true ->
      exists team' fs',
        FileStorage.updateTeamStatus tUpdated id status approvedBy fs
        = (Ok team', fs') /\
        FileTeam.status team' = status /\
        FileTeam.approvedBy team' = Some approver /\
        JsMap.get id (FileStorage.teams fs') = Some team') /\
   (forall approver,
      truthy approvedBy = Some approver ->
      isValidObjectId approver = false ->
      FileStorage.updateTeamStatus tUpdated id status approvedBy fs
      = (Throw "Invalid approver ID", fs))) /\
  (JsMap.get id (MemStorage.teams ms) = Some mteam ->
   exists team' ms',
     MemStorage.updateTeamStatus tUpdated id status approvedBy ms
     = (Ok team', ms') /\
     InsertTeam.status (MemTeam.data team') = Some status /\
     MemTeam.approvedBy team'
     = orElseOpt (truthy approvedBy) (MemTeam.approvedBy mteam) /\
     JsMap.get id (MemStorage.teams ms') = Some team').
Proof.
  split.
  - intros Hid Hget. unfold FileStorage.updateTeamStatus. rewrite Hid.
    split; [|split].
    + intros Hnone. rewrite Hnone. run_op. rewrite Hget.
      eexists _, _. split; [reflexivity|].
      do 2 (split; [reflexivity|]).
      cbn. apply JsMapFacts.get_set_same.
    + intros approver Hsome Hvalid. rewrite Hsome, Hvalid. run_op.
      rewrite Hget.
      eexists _, _. split; [reflexivity|].
      do 2 (split; [reflexivity|]).
      cbn. apply JsMapFacts.get_set_same.
    + intros approver Hsome Hbad. rewrite Hsome, Hbad. reflexivity.
  - intros Hget. unfold MemStorage.updateTeamStatus, MemStorage.getTeam.
    run_op. rewrite Hget.
    eexists _, _. split; [reflexivity|]. split.
    + destruct (truthy approvedBy); reflexivity.
    + split; [destruct (truthy approvedBy); reflexivity|].
      cbn. apply JsMapFacts.get_set_same.
Qed.

Lemma updateTeamStatus_approver_witness :
  exists team team' fs',
    JsMap.get storedTeamId (FileStorage.teams fileWithApprovedBy)
    = Some team /\
    FileTeam.approvedBy team = Some sampleUserId /\
    FileStorage.updateTeamStatus 3000 storedTeamId "Rejected" None
      fileWithApprovedBy = (Ok team', fs') /\
    FileTeam.status team' = "Rejected" /\
    FileTeam.approvedBy team' = Some sampleUserId.
Proof.
  assert (V : isValidObjectId storedTeamId = true) by reflexivity.
  assert (G : JsMap.get storedTeamId (FileStorage.teams fileWithApprovedBy)
              = Some (FileTeam.mk storedTeamId "Alpha" None "Approved"
                        sampleUserId (Some sampleUserId) 1000 2000))
    by reflexivity.
  destruct (proj1 (proj1 (updateTeamStatus_approver 3000 storedTeamId
                            "Rejected" None fileWithApprovedBy _
                            MemStorage.empty
                            (MemTeam.mk "x"
                               (InsertTeam.mk "x" None None "x") 0 0 None))
                     V G) eq_refl)
    as (team' & fs' & Hrun & Hs & Ha & _).
  eexists _, team', fs'. split; [exact G|]. split; [reflexivity|].
  split; [exact Hrun|]. split; [exact Hs | exact Ha].
Defined.

(** ** Location of a user in the in-memory backend *)

(** X12.  [updateUserLocation] of the in-memory backend sets [currentLocation]
    to the point [[lng, lat]] and [updatedAt], and nothing else: unlike the
    file backend it leaves [lastActive] as it was.  Without the user it
    throws and changes nothing. *)
Theorem mem_updateUserLocation_frame
  (tUpdated : Date) (id : string) (location : LatLng) (s : MemStorage.t) :
  (forall user,
     JsMap.get id (MemStorage.users s) = Some user ->
     exists user' s',
       MemStorage.updateUserLocation tUpdated id location s
       = (Ok user', s') /\
       user' = MemUser.mk (MemUser._id user) (MemUser.data user)
                 (MemUser.createdAt user) tUpdated (MemUser.lastActive user)
                 (Some (Point.mk "Point" (lng location, lat location))) /\
       JsMap.get id (MemStorage.users s') = Some user' /\
       (forall id', id' <> id ->
          JsMap.get id' (MemStorage.users s')
          = JsMap.get id' (MemStorage.users s))) /\
  (JsMap.get id (MemStorage.users s) = None ->
   MemStorage.updateUserLocation tUpdated id location s
   = (Throw ("User with ID " ++ id ++ " not found"), s)).
Proof.
  unfold MemStorage.updateUserLocation, MemStorage.getUser. split.
  - intros user Hget. run_op. rewrite Hget.
    eexists _, _. split; [reflexivity|]. split; [reflexivity|].
    split; [cbn; apply JsMapFacts.get_set_same|].
    intros id' Hne. cbn. apply JsMapFacts.get_set_other. congruence.
  - intros Hnone. run_op. rewrite Hnone. reflexivity.
Qed.

Lemma mem_updateUserLocation_frame_witness :
  exists user user' s',
    JsMap.get "user_000001" (MemStorage.users memWithUser) = Some user /\
    MemStorage.updateUserLocation 5000 "user_000001" (mkLatLng 10 20)
      memWithUser = (Ok user', s') /\
    MemUser.lastActive user' = None /\
    MemUser.currentLocation user' = Some (Point.mk "Point" (20, 10)).
Proof.
  assert (G : JsMap.get "user_000001" (MemStorage.users memWithUser)
              = Some (MemUser.mk "user_000001" sampleInsertUser 1000 1000
                        None None)) by reflexivity.
  destruct (proj1 (mem_updateUserLocation_frame 5000 "user_000001"
                     (mkLatLng 10 20) memWithUser) _ G)
    as (user' & s' & Hrun & Hu & _).
  eexists _, user', s'. split; [exact G|]. split; [exact Hrun|].
  rewrite Hu. split; reflexivity.
Defined.

(** ** Identifiers of the in-memory backend *)

Lemma radixValue_snoc (radix : Z) (s : string) (c : ascii) :
  radixValue radix (s ++ String c "")
  = radix * radixValue radix s + hexCharValue c.
Proof.
  unfold radixValue. rewrite list_ascii_app, fold_left_app. reflexivity.
Qed.

Lemma radixValue_zeros (radix : Z) (k : nat) (s : string) :
  radixValue radix (zeros k ++ s) = radixValue radix s.
Proof.
  unfold radixValue. rewrite list_ascii_app, fold_left_app.
  replace (fold_left (fun acc c => radix * acc + hexCharValue c)
             (list_ascii_of_string (zeros k)) 0) with 0; [reflexivity|].
  induction k as [|k IH]; cbn [zeros list_ascii_of_string fold_left];
    [reflexivity|].
  replace (radix * 0 + hexCharValue "0") with 0; [exact IH|].
  change (hexCharValue "0") with 0. lia.
Qed.

Lemma radixDigits_value (radix : Z) (f : nat) :
  2 <= radix <= 16 ->
  forall n, 0 <= n < radix ^ Z.of_nat f ->
            radixValue radix (radixDigits radix f n) = n.
Proof.
  intros Hr. induction f as [|f IH]; intros n Hn.
  - cbn in Hn. assert (n = 0) by lia. subst. reflexivity.
  - cbn [radixDigits]. destruct (Z.ltb_spec n radix) as [Hs|Hb].
    + unfold radixValue. cbn [list_ascii_of_string fold_left].
      rewrite hexDigit_value by lia. lia.
    + rewrite radixValue_snoc, IH.
      * rewrite hexDigit_value.
        -- symmetry. apply Z.div_mod. lia.
        -- pose proof (Z.mod_pos_bound n radix ltac:(lia)). lia.
      * rewrite Nat2Z.inj_succ, Z.pow_succ_r in Hn by lia. split.
        -- apply Z.div_pos; lia.
        -- apply Z.div_lt_upper_bound; lia.
Qed.

Lemma digitFuel_enough_radix (radix n : Z) :
  2 <= radix -> 0 <= n -> n < radix ^ Z.of_nat (digitFuel n).
Proof.
  intros Hr H. unfold digitFuel.
  rewrite Nat2Z.inj_succ, Z2Nat.id by apply Z.log2_nonneg.
  apply Z.lt_le_trans with (2 ^ Z.succ (Z.log2 n)).
  - destruct (Z.eq_dec n 0) as [->|Hn].
    + apply Z.pow_pos_nonneg; [lia | simpl; lia].
    + apply Z.log2_spec. lia.
  - apply Z.pow_le_mono_l. lia.
Qed.

Lemma padStart_zeros_prefix (k : nat) (s : string) :
  exists j, padStart k "0" s = zeros j ++ s.
Proof.
  unfold padStart. destruct (k <=? String.length s)%nat.
  - exists O. reflexivity.
  - eexists. now rewrite (proj1 (padFill_zeros _)).
Qed.

Lemma padded_counter_value (n : Z) :
  0 <= n -> radixValue 10 (padStart 6 "0" (toString10 n)) = n.
Proof.
  intros H. destruct (padStart_zeros_prefix 6 (toString10 n)) as [j ->].
  rewrite radixValue_zeros. unfold toString10, toStringRadix.
  destruct (Z.ltb_spec n 0); [lia|].
  apply radixDigits_value; [lia|].
  split; [exact H | apply digitFuel_enough_radix; lia].
Qed.

Lemma substring_tail (a b : string) :
  substring (String.length a) (String.length (a ++ b) - String.length a)
    (a ++ b) = b.
Proof.
  rewrite length_app.
  replace (String.length a + String.length b - String.length a)%nat
    with (String.length b) by lia.
  rewrite <- (Nat.add_0_r (String.length a)) at 1.
  rewrite (substring_at a b (String.length a) 0 _ eq_refl).
  now apply substring_whole.
Qed.

Lemma idCounter_generateId (prefix : string) (c : Z) :
  0 <= c -> idCounter prefix (MemStorage.generateId prefix c) = c.
Proof.
  intros Hc. unfold idCounter, MemStorage.generateId.
  change (prefix ++ "_" ++ padStart 6 "0" (toString10 c))
    with (prefix ++ String "_" (padStart 6 "0" (toString10 c))).
  replace (prefix ++ String "_" (padStart 6 "0" (toString10 c)))
    with ((prefix ++ "_") ++ padStart 6 "0" (toString10 c))
    by (now rewrite append_assoc).
  replace (S (String.length prefix)) with (String.length (prefix ++ "_"))
    by (rewrite length_app; cbn; lia).
  rewrite substring_tail. now apply padded_counter_value.
Qed.

Lemma generateId_inj (prefix : string) (n m : Z) :
  0 <= n -> 0 <= m ->
  MemStorage.generateId prefix n = MemStorage.generateId prefix m -> n = m.
Proof.
  intros Hn Hm E.
  rewrite <- (idCounter_generateId prefix n Hn),
    <- (idCounter_generateId prefix m Hm).
  now rewrite E.
Qed.

(** X13.  [generateId] can be read back: the counter is recovered from the id,
    so two counters never give the same id under one prefix. *)
Theorem mem_generateId_decodes (prefix : string) (n m : Z) :
  0 <= n -> 0 <= m ->
  idCounter prefix (MemStorage.generateId prefix n) = n /\
  (MemStorage.generateId prefix n = MemStorage.generateId prefix m ->
   n = m).
Proof.
  intros Hn Hm. split; [now apply idCounter_generateId|].
  now apply generateId_inj.
Qed.

Lemma mem_generateId_decodes_witness :
  idCounter "task" (MemStorage.generateId "task" 1234567) = 1234567 /\
  MemStorage.generateId "task" 42 = "task_000042".
Proof.
  split; [|reflexivity].
  apply (mem_generateId_decodes "task" 1234567 0); lia.
Defined.

Section Issued.
Context {V : Type}.
Implicit Types (m : JsMap.t V) (k prefix : string) (c : Z).

Lemma issued_fresh prefix c m :
  issuedBy prefix c m -> JsMap.get (MemStorage.generateId prefix c) m = None.
Proof.
  intros [Hc Hall]. apply not_key_get_none. intros Hin.
  destruct (Hall _ Hin) as (n & Hn & E).
  apply generateId_inj in E; lia.
Qed.

Lemma issued_create prefix c v m :
  issuedBy prefix c m ->
  issuedBy prefix (c + 1) (JsMap.set (MemStorage.generateId prefix c) v m).
Proof.
  intros H. pose proof (issued_fresh _ _ _ H) as Hfresh.
  destruct H as [Hc Hall]. split; [lia|].
  intros k. rewrite keys_set. unfold JsMap.has. rewrite Hfresh.
  intros Hin. apply in_app_or in Hin as [Hin|[<-|[]]].
  - destruct (Hall _ Hin) as (n & Hn & E). exists n. split; [lia | exact E].
  - exists c. split; [lia | reflexivity].
Qed.

Lemma issued_update prefix c k v v0 m :
  issuedBy prefix c m -> JsMap.get k m = Some v0 ->
  issuedBy prefix c (JsMap.set k v m).
Proof.
  intros [Hc Hall] Hget. split; [exact Hc|].
  intros k'. rewrite keys_set. unfold JsMap.has. rewrite Hget. apply Hall.
Qed.

Lemma issued_delete prefix c k m :
  issuedBy prefix c m -> issuedBy prefix c (JsMap.delete k m).
Proof.
  intros [Hc Hall]. split; [exact Hc|].
  intros k' Hin. apply Hall. unfold JsMap.keys in *.
  apply in_map_iff in Hin as (kv & E & Hin).
  apply in_map_iff. exists kv. split; [exact E|].
  now apply (delete_entries k m).
Qed.
End Issued.

Ltac unfold_mem_ops :=
  unfold MemStorage.createUser, MemStorage.updateUserLocation,
    MemStorage.updateUserLastActive, MemStorage.createTeam,
    MemStorage.updateTeamStatus, MemStorage.assignUserToTeam,
    MemStorage.createTask, MemStorage.updateTaskStatus,
    MemStorage.assignTask, MemStorage.createFeature,
    MemStorage.updateFeature, MemStorage.deleteFeature,
    MemStorage.createBoundary, MemStorage.updateBoundaryStatus,
    MemStorage.assignBoundary, MemStorage.createTaskUpdate,
    MemStorage.addTaskEvidence,
    MemStorage.getUser, MemStorage.getTeam, MemStorage.getTask,
    MemStorage.getFeature, MemStorage.getBoundary,
    MemStorage.nextUserId, MemStorage.nextTeamId, MemStorage.nextTaskId,
    MemStorage.nextFeatureId, MemStorage.nextBoundaryId,
    MemStorage.nextTaskUpdateId, MemStorage.nextTaskEvidenceId.

Ltac mem_fields :=
  cbn [MemStorage.users MemStorage.teams MemStorage.tasks
       MemStorage.features MemStorage.boundaries MemStorage.taskUpdates
       MemStorage.taskEvidence MemStorage.userCurrentId
       MemStorage.teamCurrentId MemStorage.taskCurrentId
       MemStorage.featureCurrentId MemStorage.boundaryCurrentId
       MemStorage.taskUpdateCurrentId MemStorage.taskEvidenceCurrentId
       MemStorage.on_users MemStorage.on_teams MemStorage.on_tasks
       MemStorage.on_features MemStorage.on_boundaries
       MemStorage.on_taskUpdates MemStorage.on_taskEvidence snd fst].

Ltac issued_kept :=
  unfold memIssued; mem_fields;
  refine (conj _ (conj _ (conj _ (conj _ (conj _ (conj _ _))))));
  try assumption;
  try (apply issued_delete; assumption);
  try (apply issued_create; assumption);
  try (eapply issued_update; eassumption).

Section Numbered.
Context {V : Type}.
Implicit Types (m : JsMap.t V) (k prefix : string) (c : Z).

Lemma numbered_issued prefix c m :
  numberedBy prefix c m -> issuedBy prefix c m.
Proof.
  intros [Hc Hall]. split; [lia|]. intros k Hin.
  destruct (Hall k Hin) as (n & Hn & E). exists n. split; [lia | exact E].
Qed.

Lemma numbered_create prefix c v m :
  numberedBy prefix c m ->
  numberedBy prefix (c + 1)
    (JsMap.set (MemStorage.generateId prefix c) v m).
Proof.
  intros H.
  pose proof (issued_fresh _ _ _ (numbered_issued _ _ _ H)) as Hfresh.
  destruct H as [Hc Hall]. split; [lia|].
  intros k. rewrite keys_set. unfold JsMap.has. rewrite Hfresh.
  intros Hin. apply in_app_or in Hin as [Hin|[<-|[]]].
  - destruct (Hall _ Hin) as (n & Hn & E). exists n. split; [lia | exact E].
  - exists c. split; [lia | reflexivity].
Qed.

Lemma numbered_update prefix c k v v0 m :
  numberedBy prefix c m -> JsMap.get k m = Some v0 ->
  numberedBy prefix c (JsMap.set k v m).
Proof.
  intros [Hc Hall] Hget. split; [exact Hc|].
  intros k'. rewrite keys_set. unfold JsMap.has. rewrite Hget. apply Hall.
Qed.

Lemma numbered_delete prefix c k m :
  numberedBy prefix c m -> numberedBy prefix c (JsMap.delete k m).
Proof.
  intros [Hc Hall]. split; [exact Hc|].
  intros k' Hin. apply Hall. unfold JsMap.keys in *.
  apply in_map_iff in Hin as (kv & E & Hin).
  apply in_map_iff. exists kv. split; [exact E|].
  now apply (delete_entries k m).
Qed.
End Numbered.

Lemma memNumbered_issued (s : MemStorage.t) : memNumbered s -> memIssued s.
Proof.
  intros (Hu & Htm & Ht & Hf & Hb & Hup & Hev).
  unfold memIssued.
  refine (conj _ (conj _ (conj _ (conj _ (conj _ (conj _ _))))));
    now apply numbered_issued.
Qed.

Lemma memNumbered_empty : memNumbered MemStorage.empty.
Proof.
  unfold memNumbered, numberedBy. cbn.
  repeat split; try lia; intros k [].
Qed.

Ltac numbered_kept :=
  unfold memNumbered; mem_fields;
  refine (conj _ (conj _ (conj _ (conj _ (conj _ (conj _ _))))));
  try assumption;
  try (apply numbered_delete; assumption);
  try (apply numbered_create; assumption);
  try (eapply numbered_update; eassumption).

(** X14.  In the in-memory backend every key of every map is an id that
    [generateId] made from a counter value from 1 up to, but not
    including, the map's current counter, which is at least 1.  The empty
    store is so, and every operation keeps it so, whatever its outcome.
    Such a store is one whose keys were all issued by its counters. *)
Theorem mem_operations_keep_issued (s : MemStorage.t) :
  memNumbered s ->
  memNumbered MemStorage.empty /\
  memIssued s /\
  (forall t1 t2 ins,
     memNumbered (snd (MemStorage.createUser t1 t2 ins s))) /\
  (forall t id loc,
     memNumbered (snd (MemStorage.updateUserLocation t id loc s))) /\
  (forall t1 t2 id,
     memNumbered (snd (MemStorage.updateUserLastActive t1 t2 id s))) /\
  (forall t1 t2 ins,
     memNumbered (snd (MemStorage.createTeam t1 t2 ins s))) /\
  (forall t id status approver,
     memNumbered
       (snd (MemStorage.updateTeamStatus t id status approver s))) /\
  (forall t userId teamId,
     memNumbered (snd (MemStorage.assignUserToTeam t userId teamId s))) /\
  (forall t1 t2 ins,
     memNumbered (snd (MemStorage.createTask t1 t2 ins s))) /\
  (forall t id status userId,
     memNumbered (snd (MemStorage.updateTaskStatus t id status userId s))) /\
  (forall t id userId,
     memNumbered (snd (MemStorage.assignTask t id userId s))) /\
  (forall t1 t2 t3 ins,
     memNumbered (snd (MemStorage.createFeature t1 t2 t3 ins s))) /\
  (forall t1 t2 id upd,
     memNumbered (snd (MemStorage.updateFeature t1 t2 id upd s))) /\
  (forall id, memNumbered (snd (MemStorage.deleteFeature id s))) /\
  (forall t1 t2 ins,
     memNumbered (snd (MemStorage.createBoundary t1 t2 ins s))) /\
  (forall t id status,
     memNumbered (snd (MemStorage.updateBoundaryStatus t id status s))) /\
  (forall t id userId,
     memNumbered (snd (MemStorage.assignBoundary t id userId s))) /\
  (forall t ins,
     memNumbered (snd (MemStorage.createTaskUpdate t ins s))) /\
  (forall t ins,
     memNumbered (snd (MemStorage.addTaskEvidence t ins s))).
Proof.
  intros H.
  assert (H0 : memNumbered s) by exact H.
  destruct H as (Hu & Htm & Ht & Hf & Hb & Hup & Hev).
  split; [exact memNumbered_empty|].
  split; [now apply memNumbered_issued|].
  repeat match goal with
    | |- _ /\ _ => split
    end;
    intros; unfold_mem_ops; run_op; split_cases; run_op;
    try exact H0; numbered_kept.
Qed.

Lemma mem_operations_keep_issued_witness :
  memNumbered MemStorage.empty /\
  memNumbered (snd (MemStorage.createTask 1000 1000 sampleInsertTask
                      MemStorage.empty)) /\
  numberedBy "task" 2 (MemStorage.tasks memWithTask).
Proof.
  pose proof memNumbered_empty as H.
  split; [exact H|].
  destruct (mem_operations_keep_issued MemStorage.empty H)
    as (_ & _ & _ & _ & _ & _ & _ & _ & Hcreate & _).
  split; [apply Hcreate|].
  exact (proj1 (proj2 (proj2 (Hcreate 1000 1000 sampleInsertTask)))).
Defined.

Ltac mem_appends H :=
  unfold appendsOne; unfold_mem_ops; run_op;
  eexists _, _; split; [reflexivity|]; mem_fields;
  cbn [MemUser._id MemTeam._id MemTask._id MemFeature._id MemBoundary._id
       MemTaskUpdate._id MemTaskEvidence._id];
  split; [apply issued_fresh; exact H
         | apply set_fresh_append, issued_fresh; exact H].

(** X15.  In the in-memory backend a [create*] or [addTaskEvidence] call never
    replaces a record: in a store whose keys were all issued by the
    counters, the id it generates is new, and the map afterwards is the
    former map followed by the new record. *)
Theorem mem_create_appends (s : MemStorage.t) (t1 t2 t3 : Date)
  (u : InsertUser.t) (tm : InsertTeam.t) (tk : InsertTask.t)
  (f : InsertFeature.t) (b : InsertBoundary.t) (up : InsertTaskUpdate.t)
  (ev : InsertTaskEvidence.t) :
  memIssued s ->
  appendsOne (MemStorage.createUser t1 t2 u) MemStorage.users
    MemUser._id s /\
  appendsOne (MemStorage.createTeam t1 t2 tm) MemStorage.teams
    MemTeam._id s /\
  appendsOne (MemStorage.createTask t1 t2 tk) MemStorage.tasks
    MemTask._id s /\
  appendsOne (MemStorage.createFeature t1 t2 t3 f) MemStorage.features
    MemFeature._id s /\
  appendsOne (MemStorage.createBoundary t1 t2 b) MemStorage.boundaries
    MemBoundary._id s /\
  appendsOne (MemStorage.createTaskUpdate t1 up) MemStorage.taskUpdates
    MemTaskUpdate._id s /\
  appendsOne (MemStorage.addTaskEvidence t1 ev) MemStorage.taskEvidence
    MemTaskEvidence._id s.
Proof.
  intros (Hu & Htm & Ht & Hf & Hb & Hup & Hev).
  split; [mem_appends Hu|]. split; [mem_appends Htm|].
  split; [mem_appends Ht|]. split; [mem_appends Hf|].
  split; [mem_appends Hb|]. split; [mem_appends Hup | mem_appends Hev].
Qed.

Lemma mem_create_appends_witness :
  memIssued memWithTask /\
  appendsOne (MemStorage.createTask 2000 2000 sampleInsertTask)
    MemStorage.tasks MemTask._id memWithTask.
Proof.
  assert (H0 : memIssued MemStorage.empty).
  { unfold memIssued, issuedBy. cbn.
    repeat split; try lia; intros k []. }
  assert (H : memIssued memWithTask).
  { unfold memWithTask, MemStorage.createTask, MemStorage.nextTaskId.
    run_op. destruct H0 as (Hu & Htm & Ht & Hf & Hb & Hup & Hev).
    issued_kept. }
  split; [exact H|].
  exact (proj1 (proj2 (proj2
           (mem_create_appends memWithTask 2000 2000 2000 sampleInsertUser
              (InsertTeam.mk "Alpha" None None sampleUserId)
              sampleInsertTask sampleInsertFeature
              (InsertBoundary.mk "North" None None None
                 (Geometry.mk "Polygon" (Rings [])))
              (InsertTaskUpdate.mk "task_000001" "user_000001" None None
                 None)
              (InsertTaskEvidence.mk "task_000001" "user_000001" "/u/1.png"
                 None)
              H)))).
Defined.

(** ** Who may delete a feature *)

Lemma optEqb_true (o : option string) (x : string) :
  FileStorage.optEqb o x = true <-> o = Some x.
Proof.
  destruct o as [v|]; cbn; [|split; discriminate].
  rewrite String.eqb_eq. split; congruence.
Qed.

Lemma Role_eqb_true (a b : Role) : Role_eqb a b = true <-> a = b.
Proof. destruct a, b; cbn; split; congruence. Qed.

(** X16.  [DELETE /api/features/:id] over the file backend replies 200 exactly
    when the request is authenticated, the id is well-formed, a feature is
    stored under it, and the user is its creator or a supervisor; the
    feature is then gone.  With any other reply the store is what it
    was. *)
Theorem deleteFeatureRoute_permission
  (user : option SessionUser) (id : string) (s : FileStorage.t) :
  NoDup (JsMap.keys (FileStorage.features s)) ->
  exists reply s',
    deleteFeatureRouteFile user id s = (Ok reply, s') /\
    (statusCode reply = 200 <->
     exists u feature,
       user = Some u /\ isValidObjectId id = true /\
       JsMap.get id (FileStorage.features s) = Some feature /\
       (FileFeature.createdBy feature = Some (session_id u) \/
        session_role u = Supervisor)) /\
    (statusCode reply = 200 ->
     FileStorage.getFeature id s' = (Ok None, s')) /\
    (statusCode reply <> 200 -> s' = s).
Proof.
  intros Hnd.
  unfold deleteFeatureRouteFile, deleteFeatureRoute, isAuthenticated,
    validateObjectId.
  destruct user as [u|].
  2:{ eexists _, _. split; [reflexivity|]. cbn [statusCode].
      split; [split; [discriminate|]|split; [discriminate | reflexivity]].
      intros (u & f & E & _). discriminate. }
  destruct (isValidObjectId id) eqn:Hid; cbn [negb].
  2:{ eexists _, _. split; [reflexivity|]. cbn [statusCode].
      split; [split; [discriminate|]|split; [discriminate | reflexivity]].
      intros (u' & f & _ & E & _). discriminate. }
  unfold FileStorage.getFeature, FileStorage.deleteFeature. rewrite Hid.
  run_op.
  destruct (JsMap.get id (FileStorage.features s)) as [f|] eqn:Hget;
    cbn beta iota.
  2:{ eexists _, _. split; [reflexivity|]. cbn [statusCode].
      split; [split; [discriminate|]|split; [discriminate | reflexivity]].
      intros (u' & f & _ & _ & E & _). discriminate. }
  destruct (FileStorage.optEqb (FileFeature.createdBy f) (session_id u))
    eqn:Hown;
    destruct (Role_eqb (session_role u) Supervisor) eqn:Hrole;
    cbn [negb andb].
  4:{ eexists _, _. split; [reflexivity|]. cbn [statusCode].
      split; [split; [discriminate|]|split; [discriminate | reflexivity]].
      intros (u' & f' & Eu & _ & Ef & [Hc|Hr]).
      - injection Eu as <-. injection Ef as <-.
        apply optEqb_true in Hc. congruence.
      - injection Eu as <-. apply Role_eqb_true in Hr. congruence. }
  all: unfold JsMap.has; rewrite Hget; cbn beta iota;
    eexists _, _; (split; [reflexivity|]); cbn [statusCode];
    (split; [split; [intros _|reflexivity]|]);
    [ exists u, f; repeat split; try reflexivity;
      first [ left; now apply optEqb_true
            | right; now apply Role_eqb_true ]
    | split; [|congruence]; intros _;
      run_op; cbn [FileStorage.features FileStorage.on_features];
      now rewrite (get_delete_same _ _ Hnd) ].
Qed.

Lemma deleteFeatureRoute_permission_witness :
  NoDup (JsMap.keys (FileStorage.features fileWithFeature)) /\
  (exists reply,
     deleteFeatureRouteFile (Some strangerSession) sampleTaskId
       fileWithFeature = (Ok reply, fileWithFeature) /\
     statusCode reply = 403) /\
  (exists reply s',
     deleteFeatureRouteFile (Some creatorSession) sampleTaskId
       fileWithFeature = (Ok reply, s') /\
     statusCode reply = 200 /\
     FileStorage.getFeature sampleTaskId s' = (Ok None, s')).
Proof.
  assert (N : NoDup (JsMap.keys (FileStorage.features fileWithFeature))).
  { cbn. repeat constructor. intros []. }
  split; [exact N|]. split.
  - destruct (deleteFeatureRoute_permission (Some strangerSession)
                sampleTaskId fileWithFeature N)
      as (reply & s' & Hrun & _ & _ & Hsame).
    assert (Hcode : statusCode reply = 403).
    { vm_compute in Hrun. injection Hrun as <- _. reflexivity. }
    exists reply. split; [|exact Hcode].
    rewrite Hrun. f_equal. apply Hsame. rewrite Hcode. discriminate.
  - destruct (deleteFeatureRoute_permission (Some creatorSession)
                sampleTaskId fileWithFeature N)
      as (reply & s' & Hrun & Hiff & Hgone & _).
    assert (Hcode : statusCode reply = 200).
    { apply Hiff. eexists _, _. split; [reflexivity|].
      split; [reflexivity|]. split; [reflexivity|]. left. reflexivity. }
    exists reply, s'. split; [exact Hrun|]. split; [exact Hcode|].
    exact (Hgone Hcode).
Defined.

(** ** Who changes the status of a team *)

(** X17.  [PATCH /api/teams/:id/status] over the file backend replies 200
    only to a supervisor, for one of the three statuses and a stored team; the
    team then has that status, and its approver is the supervisor when the
    status is ["Approved"] and the approver it had otherwise.  With any
    other reply the store is what it was. *)
Theorem patchTeamStatus_spec
  (tUpdated : Date) (user : option SessionUser) (id status : string)
  (s : FileStorage.t) :
  exists reply s',
    patchTeamStatusFile tUpdated user id status s = (Ok reply, s') /\
    (statusCode reply = 200 ->
     exists u team team',
       user = Some u /\ session_role u = Supervisor /\
       In status ["Pending"; "Approved"; "Rejected"] /\
       JsMap.get id (FileStorage.teams s) = Some team /\
       body reply = Entity team' /\
       JsMap.get id (FileStorage.teams s') = Some team' /\
       FileTeam.status team' = status /\
       (status = "Approved" -> session_id u <> "" ->
        FileTeam.approvedBy team' = Some (session_id u)) /\
       (status <> "Approved" ->
        FileTeam.approvedBy team' = FileTeam.approvedBy team)) /\
    (statusCode reply <> 200 -> s' = s).
Proof.
  unfold patchTeamStatusFile, patchTeamStatus, isSupervisor,
    validateObjectId.
  destruct user as [u|];
    [|eexists _, _; split; [reflexivity|]; cbn [statusCode];
      split; [discriminate | reflexivity]].
  destruct (Role_eqb (session_role u) Supervisor) eqn:Hrole;
    [|eexists _, _; split; [reflexivity|]; cbn [statusCode];
      split; [discriminate | reflexivity]].
  apply Role_eqb_true in Hrole.
  destruct (isValidObjectId id) eqn:Hid; cbn [negb];
    [|eexists _, _; split; [reflexivity|]; cbn [statusCode];
      split; [discriminate | reflexivity]].
  destruct (existsb (String.eqb status) ["Pending"; "Approved"; "Rejected"])
    eqn:Hstatus; cbn [negb]; run_op;
    [|eexists _, _; split; [reflexivity|]; cbn [statusCode];
      split; [discriminate | reflexivity]].
  apply existsb_exists in Hstatus as (x & Hin & Hx).
  apply String.eqb_eq in Hx. subst x.
  unfold FileStorage.getTeam, FileStorage.updateTeamStatus.
  rewrite Hid. run_op.
  destruct (JsMap.get id (FileStorage.teams s)) as [team|] eqn:Hget;
    cbn beta iota;
    [|eexists _, _; split; [reflexivity|]; cbn [statusCode];
      split; [discriminate | reflexivity]].
  destruct (String.eqb_spec status "Approved") as [Happ|Happ].
  - destruct (truthy (Some (session_id u))) as [approver|] eqn:Htr.
    + assert (Happrover : approver = session_id u /\ session_id u <> "").
      { cbn in Htr. destruct (String.eqb_spec (session_id u) "");
          [discriminate|]. split; congruence. }
      destruct Happrover as [-> Hnonempty].
      destruct (isValidObjectId (session_id u)); run_op.
      * rewrite Hget. cbn beta iota.
        eexists _, _. split; [reflexivity|]. cbn [statusCode body].
        split; [|congruence]. intros _.
        exists u, team. eexists.
        do 5 (split; [first [reflexivity | assumption]|]).
        split; [cbn; apply JsMapFacts.get_set_same|].
        split; [reflexivity|]. split; [reflexivity | congruence].
      * eexists _, _. split; [reflexivity|]. cbn [statusCode].
        split; [discriminate | reflexivity].
    + run_op. rewrite Hget. cbn beta iota.
      eexists _, _. split; [reflexivity|]. cbn [statusCode body].
      split; [|congruence]. intros _.
      exists u, team. eexists.
      do 5 (split; [first [reflexivity | assumption]|]).
      split; [cbn; apply JsMapFacts.get_set_same|].
      split; [reflexivity|]. split; [|congruence].
      intros _ Hne. cbn in Htr.
      destruct (String.eqb_spec (session_id u) ""); [contradiction|].
      discriminate.
  - cbn [truthy]. run_op. rewrite Hget. cbn beta iota.
    eexists _, _. split; [reflexivity|]. cbn [statusCode body].
    split; [|congruence]. intros _.
    exists u, team. eexists.
    do 5 (split; [first [reflexivity | assumption]|]).
    split; [cbn; apply JsMapFacts.get_set_same|].
    split; [reflexivity|]. split; [contradiction | reflexivity].
Qed.

Lemma patchTeamStatus_spec_witness :
  exists reply s' team',
    patchTeamStatusFile 2000 (Some supervisorSession) storedTeamId
      "Approved" fileWithPendingTeam = (Ok reply, s') /\
    statusCode reply = 200 /\
    JsMap.get storedTeamId (FileStorage.teams s') = Some team' /\
    FileTeam.approvedBy team' = Some sampleUserId.
Proof.
  destruct (patchTeamStatus_spec 2000 (Some supervisorSession) storedTeamId
              "Approved" fileWithPendingTeam)
    as (reply & s' & Hrun & H200 & _).
  assert (Hcode : statusCode reply = 200).
  { vm_compute in Hrun. injection Hrun as <- _. reflexivity. }
  destruct (H200 Hcode)
    as (u & team & team' & Eu & _ & _ & _ & _ & Hget & _ & Happ & _).
  injection Eu as <-.
  exists reply, s', team'. split; [exact Hrun|]. split; [exact Hcode|].
  split; [exact Hget|]. apply Happ; [reflexivity | discriminate].
Defined.

(** ** Initial data *)

Lemma find_none_values_set {V : Type} (p : V -> bool) (k : string) (v : V)
  (m : JsMap.t V) :
  p v = false -> find p (JsMap.values m) = None ->
  find p (JsMap.values (JsMap.set k v m)) = None.
Proof.
  intros Hv. unfold JsMap.values.
  induction m as [|[k' v'] r IH]; cbn [JsMap.set map snd find].
  - now rewrite Hv.
  - destruct (p v') eqn:Hp; [discriminate|]. intros Hr.
    destruct (String.eqb k k'); cbn [map snd find].
    + now rewrite Hv.
    + rewrite Hp. now apply IH.
Qed.

Lemma values_set_cases {V : Type} (k : string) (v x : V) (m : JsMap.t V) :
  In x (JsMap.values (JsMap.set k v m)) -> x = v \/ In x (JsMap.values m).
Proof.
  unfold JsMap.values. intros Hin.
  apply in_map_iff in Hin as ([k0 v0] & E & Hin). cbn in E. subst v0.
  destruct (set_entries k v m _ Hin) as [E|Hold].
  - left. congruence.
  - right. apply in_map_iff. exists (k0, x). split; [reflexivity|exact Hold].
Qed.

Lemma match_same {A B : Type} (o : option A) (b : B) :
  match o with Some _ => b | None => b end = b.
Proof. destruct o; reflexivity. Qed.

Lemma set_nonempty {V : Type} (k : string) (v : V) (m : JsMap.t V) :
  JsMap.set k v m <> [].
Proof.
  destruct m as [|[k0 v0] r]; cbn [JsMap.set]; [discriminate|].
  destruct (String.eqb k k0); discriminate.
Qed.

(** X18.  [addInitialData] over the file backend.  On a store that has the
    supervisor, a team and the demo user it changes nothing.  On a store
    without any team it creates the four teams, all ["Approved"], but no
    demo user: the list of teams it looks at was read before the teams
    were created.  On a store that has the supervisor and a team but no
    demo user it creates the demo user, a field user of the first team,
    with the password as written in the source. *)
Theorem addInitialData_runs
  (userEnv teamEnv : nat -> CreateEnv) (s : FileStorage.t) :
  (forall sup first rest demo,
     fst (FileStorage.getUserByUsername "supervisor12" s) = Ok (Some sup) ->
     JsMap.values (FileStorage.teams s) = first :: rest ->
     fst (FileStorage.getUserByUsername "field_user_demo" s)
     = Ok (Some demo) ->
     addInitialDataFile userEnv teamEnv s = (Ok tt, s)) /\
  (FileStorage.teams s = [] ->
   fst (FileStorage.getUserByUsername "field_user_demo" s) = Ok None ->
   exists s',
     addInitialDataFile userEnv teamEnv s = (Ok tt, s') /\
     fst (FileStorage.getUserByUsername "field_user_demo" s') = Ok None /\
     FileStorage.teams s' <> [] /\
     forall team,
       In team (JsMap.values (FileStorage.teams s')) ->
       FileTeam.status team = "Approved") /\
  (forall sup first rest,
     fst (FileStorage.getUserByUsername "supervisor12" s) = Ok (Some sup) ->
     JsMap.values (FileStorage.teams s) = first :: rest ->
     fst (FileStorage.getUserByUsername "field_user_demo" s) = Ok None ->
     exists user s',
       addInitialDataFile userEnv teamEnv s = (Ok tt, s') /\
       JsMap.get (generateObjectId (env_source (userEnv 1%nat)))
         (FileStorage.users s') = Some user /\
       FileUser.username user = "field_user_demo" /\
       FileUser.role user = Field /\
       FileUser.teamId user = truthy (Some (FileTeam._id first)) /\
       FileUser.password user = "demo123" /\
       FileStorage.teams s' = FileStorage.teams s).
Proof.
  unfold addInitialDataFile, addInitialData, FileStorage.getUserByUsername,
    FileStorage.getAllTeams, FileStorage.createUser, FileStorage.createTeam.
  split; [|split].
  - intros sup first rest demo Hsup Hteams Hdemo. cbn [fst gets] in *.
    injection Hsup as Hsup. injection Hdemo as Hdemo.
    run_op. rewrite Hsup. cbn beta iota. rewrite Hteams. cbn beta iota.
    rewrite Hdemo. reflexivity.
  - intros Hteams Hdemo. cbn [fst gets] in *. injection Hdemo as Hdemo.
    run_op.
    destruct (find (fun user => String.eqb (FileUser.username user)
                                  "supervisor12")
                (JsMap.values (FileStorage.users s))) as [sup|] eqn:Hsup;
      cbn -[generateObjectId JsMap.set find String.eqb];
      rewrite ?Hteams;
      cbn -[generateObjectId JsMap.set find String.eqb];
      rewrite match_same;
      (eexists; split; [reflexivity|]);
      cbn [FileStorage.users FileStorage.teams FileStorage.on_teams
           FileStorage.on_users];
      (split; [f_equal; first [exact Hdemo
                              | now apply find_none_values_set]|]);
      (split; [apply set_nonempty|]);
      intros team Hin; rewrite Hteams in Hin;
      repeat (apply values_set_cases in Hin as [->|Hin]; [reflexivity|]);
      destruct Hin.
  - intros sup first rest Hsup Hteams Hdemo. cbn [fst gets] in *.
    injection Hsup as Hsup. injection Hdemo as Hdemo.
    run_op. rewrite Hsup. cbn beta iota. rewrite Hteams. cbn beta iota.
    rewrite Hdemo. cbn beta iota.
    eexists _, _. split; [reflexivity|].
    cbn [FileStorage.users FileStorage.on_users FileStorage.teams].
    split; [apply JsMapFacts.get_set_same|].
    repeat split.
Qed.

Lemma addInitialData_runs_witness :
  (exists s',
     addInitialDataFile seedUserEnv seedTeamEnv FileStorage.empty
     = (Ok tt, s') /\
     fst (FileStorage.getUserByUsername "field_user_demo" s') = Ok None /\
     JsMap.size (FileStorage.teams s') = 4%nat) /\
  (exists demo,
     fst (FileStorage.getUserByUsername "field_user_demo" afterSecondStart)
     = Ok (Some demo)) /\
  addInitialDataFile seedUserEnv seedTeamEnv afterSecondStart
  = (Ok tt, afterSecondStart).
Proof.
  split; [|split].
  - destruct (proj1 (proj2 (addInitialData_runs seedUserEnv seedTeamEnv
                              FileStorage.empty)) eq_refl eq_refl)
      as (s' & Hrun & Hdemo & _).
    exists s'. split; [exact Hrun|]. split; [exact Hdemo|].
    vm_compute in Hrun. injection Hrun as <-. reflexivity.
  - eexists. vm_compute. reflexivity.
  - eapply (proj1 (addInitialData_runs seedUserEnv seedTeamEnv
                     afterSecondStart)); vm_compute; reflexivity.
Defined.

(** ** Updating a feature in the in-memory backend *)

(** X19.  [updateFeature] of the in-memory backend on a stored feature keeps its
    id and [createdAt] and stamps [updatedAt] and [lastUpdated]; an update
    that carries nothing changes nothing else.  Unlike the file backend it
    takes an empty [feaStatus] as the new status, and stores a geometry of
    any type as it is given.  Without the feature it throws and changes
    nothing. *)
Theorem mem_updateFeature_merge
  (tUpdated tLast : Date) (id : string) (upd : PartialFeature.t)
  (s : MemStorage.t) :
  (forall old,
     JsMap.get id (MemStorage.features s) = Some old ->
     exists new s',
       MemStorage.updateFeature tUpdated tLast id upd s = (Ok new, s') /\
       JsMap.get id (MemStorage.features s') = Some new /\
       MemFeature._id new = MemFeature._id old /\
       MemFeature.createdAt new = MemFeature.createdAt old /\
       MemFeature.updatedAt new = tUpdated /\
       MemFeature.lastUpdated new = tLast /\
       (upd = PartialFeature.empty ->
        MemFeature.data new = MemFeature.data old) /\
       (PartialFeature.feaStatus upd = Some "" ->
        InsertFeature.feaStatus (MemFeature.data new) = "") /\
       (forall g,
          PartialFeature.geometry upd = Some g ->
          InsertFeature.geometry (MemFeature.data new) = Some g)) /\
  (JsMap.get id (MemStorage.features s) = None ->
   MemStorage.updateFeature tUpdated tLast id upd s
   = (Throw ("Feature with ID " ++ id ++ " not found"), s)).
Proof.
  unfold MemStorage.updateFeature, MemStorage.getFeature. split.
  - intros old Hget. run_op. rewrite Hget.
    eexists _, _. split; [reflexivity|].
    split; [cbn; apply JsMapFacts.get_set_same|].
    do 4 (split; [reflexivity|]).
    split; [|split].
    + intros ->. cbn. destruct (MemFeature.data old). reflexivity.
    + intros Hst. cbn. now rewrite Hst.
    + intros g Hg. cbn. now rewrite Hg.
  - intros Hnone. run_op. rewrite Hnone. reflexivity.
Qed.

Lemma mem_updateFeature_merge_witness :
  exists old new s',
    JsMap.get "feature_000001" (MemStorage.features memWithFeature)
    = Some old /\
    MemStorage.updateFeature 2000 2001 "feature_000001"
      PartialFeature.empty memWithFeature = (Ok new, s') /\
    MemFeature.data new = sampleInsertFeature /\
    MemFeature.updatedAt new = 2000.
Proof.
  assert (G : JsMap.get "feature_000001"
                (MemStorage.features memWithFeature)
              = Some (MemFeature.mk "feature_000001" sampleInsertFeature
                        1000 1000 1000)) by reflexivity.
  destruct (proj1 (mem_updateFeature_merge 2000 2001 "feature_000001"
                     PartialFeature.empty memWithFeature) _ G)
    as (new & s' & Hrun & _ & _ & _ & Hu & _ & Hempty & _).
  eexists _, new, s'. split; [exact G|]. split; [exact Hrun|].
  split; [exact (Hempty eq_refl) | exact Hu].
Defined.

(** ** Status and assignee of a boundary *)

(** X21.  In the file backend [updateBoundaryStatus] and [assignBoundary] on a
    stored boundary commute: in either order the boundary ends with the new
    status, the new assignee and the time of the second call, and with the
    geometry, name, description and [createdAt] it had. *)
Theorem file_boundary_updates_commute
  (t1 t2 : Date) (id status userId : string) (s : FileStorage.t)
  (b : FileBoundary.t) :
  isValidObjectId id = true -> isValidObjectId userId = true ->
  JsMap.get id (FileStorage.boundaries s) = Some b ->
  let final :=
    FileBoundary.mk (FileBoundary._id b) (FileBoundary.name b)
      (FileBoundary.description b) status (Some userId)
      (FileBoundary.geometry b) (FileBoundary.createdAt b) t2 in
  (exists b1 s1 s2,
     FileStorage.updateBoundaryStatus t1 id status s = (Ok b1, s1) /\
     FileStorage.assignBoundary t2 id userId s1 = (Ok final, s2) /\
     JsMap.get id (FileStorage.boundaries s2) = Some final) /\
  (exists b1 s1 s2,
     FileStorage.assignBoundary t1 id userId s = (Ok b1, s1) /\
     FileStorage.updateBoundaryStatus t2 id status s1 = (Ok final, s2) /\
     JsMap.get id (FileStorage.boundaries s2) = Some final).
Proof.
  intros Hid Hu Hget final.
  unfold FileStorage.updateBoundaryStatus, FileStorage.assignBoundary.
  rewrite Hid, Hu. run_op. rewrite Hget. split.
  - eexists _, _, _. split; [reflexivity|].
    cbn [FileStorage.boundaries FileStorage.on_boundaries].
    rewrite JsMapFacts.get_set_same.
    split; [reflexivity|]. cbn. apply JsMapFacts.get_set_same.
  - eexists _, _, _. split; [reflexivity|].
    cbn [FileStorage.boundaries FileStorage.on_boundaries].
    rewrite JsMapFacts.get_set_same.
    split; [reflexivity|]. cbn. apply JsMapFacts.get_set_same.
Qed.

Lemma file_boundary_updates_commute_witness :
  exists b1 b2 s1 s2,
    FileStorage.updateBoundaryStatus 2000 sampleTaskId "In Progress"
      fileWithBoundary = (Ok b1, s1) /\
    FileStorage.assignBoundary 3000 sampleTaskId sampleUserId s1
    = (Ok b2, s2) /\
    FileBoundary.status b2 = "In Progress" /\
    FileBoundary.assignedTo b2 = Some sampleUserId /\
    FileBoundary.geometry b2 = InsertBoundary.geometry sampleInsertBoundary.
Proof.
  assert (V1 : isValidObjectId sampleTaskId = true) by reflexivity.
  assert (V2 : isValidObjectId sampleUserId = true) by reflexivity.
  assert (G : JsMap.get sampleTaskId (FileStorage.boundaries fileWithBoundary)
              = Some (FileBoundary.mk sampleTaskId "North" None "New" None
                        (InsertBoundary.geometry sampleInsertBoundary)
                        1000 1000)) by reflexivity.
  destruct (proj1 (file_boundary_updates_commute 2000 3000 sampleTaskId
                     "In Progress" sampleUserId fileWithBoundary _ V1 V2 G))
    as (b1 & s1 & s2 & H1 & H2 & _).
  eexists b1, _, s1, s2. split; [exact H1|]. split; [exact H2|].
  repeat split.
Defined.

(** ** Lists sorted by creation date *)

Section SortDates.
Context {A : Type}.
Variable isDate : A -> bool.
Variable key : A -> Z.

Lemma sortInsertM_dates (x : A) (l : list A) :
  isDate x = true -> (forall y, In y l -> isDate y = true) ->
  sortInsertM (byCreatedAt isDate key) x l
  = Ok (sortInsert (fun a b => key b - key a) x l).
Proof.
  intros Hx. induction l as [|y r IH]; intros Hl;
    cbn [sortInsertM sortInsert]; [reflexivity|].
  unfold byCreatedAt at 1. rewrite (Hl y (or_introl eq_refl)), Hx.
  destruct (0 <? key y - key x); [|reflexivity].
  rewrite IH; [reflexivity|]. intros z Hz. apply Hl. now right.
Qed.

(** On records that all hold [Date] objects the comparator never throws,
    and the sort is the stable sort by date. *)
Lemma arraySortM_dates (l : list A) :
  (forall x, In x l -> isDate x = true) ->
  arraySortM (byCreatedAt isDate key) l
  = Ok (arraySort (fun a b => key b - key a) l).
Proof.
  induction l as [|x r IH]; intros Hl; cbn [arraySortM arraySort];
    [reflexivity|].
  rewrite IH by (intros z Hz; apply Hl; now right).
  apply sortInsertM_dates; [apply Hl; now left|].
  intros y Hy. apply Hl. right.
  exact (Permutation_in _ (arraySort_perm key r) Hy).
Qed.

Lemma sortInsertM_ok (x : A) (l l' : list A) :
  sortInsertM (byCreatedAt isDate key) x l = Ok l' ->
  Permutation l' (x :: l) /\
  (l <> [] ->
   isDate x = true /\ exists y r, l = y :: r /\ isDate y = true).
Proof.
  revert l'. induction l as [|y r IH]; intros l'; cbn [sortInsertM].
  - intros E. injection E as <-. split; [apply Permutation_refl|].
    intros H. now contradiction H.
  - unfold byCreatedAt at 1.
    destruct (isDate y) eqn:Hy; [|discriminate].
    destruct (isDate x) eqn:Hx; [|discriminate].
    assert (Hhead : y :: r <> [] ->
                    true = true /\
                    exists y0 r0, y :: r = y0 :: r0 /\ isDate y0 = true).
    { intros _. split; [reflexivity|]. now exists y, r. }
    destruct (0 <? key y - key x).
    + destruct (sortInsertM (byCreatedAt isDate key) x r) as [r'|e] eqn:E;
        [|discriminate].
      intros E'. injection E' as <-. split; [|exact Hhead].
      apply perm_trans with (y :: x :: r);
        [apply perm_skip, (proj1 (IH r' eq_refl)) | apply perm_swap].
    + intros E'. injection E' as <-.
      split; [apply Permutation_refl | exact Hhead].
Qed.

(** When the sort returns, it returns a rearrangement, and on an array of
    two or more records every record held a [Date]. *)
Lemma arraySortM_ok (l l' : list A) :
  arraySortM (byCreatedAt isDate key) l = Ok l' ->
  Permutation l' l /\
  ((2 <= List.length l)%nat -> forall x, In x l -> isDate x = true).
Proof.
  revert l'. induction l as [|x r IH]; intros l'; cbn [arraySortM].
  - intros E. injection E as <-. split; [apply perm_nil|].
    cbn. lia.
  - destruct (arraySortM (byCreatedAt isDate key) r) as [r'|e] eqn:E;
      [|discriminate].
    intros H. destruct (IH r' eq_refl) as [Hp Hd].
    destruct (sortInsertM_ok x r' l' H) as [Hp' Hne].
    split.
    { apply perm_trans with (x :: r'); [exact Hp' | now apply perm_skip]. }
    intros Hlen z Hz.
    destruct r as [|y r2]; [cbn in Hlen; lia|].
    assert (Hr' : r' <> []).
    { intros ->. exact (Permutation_nil_cons Hp). }
    destruct (Hne Hr') as [Hx (y' & r'' & -> & Hy')].
    destruct Hz as [<-|Hz]; [exact Hx|].
    destruct r2 as [|y2 r3].
    + apply Permutation_sym, Permutation_length_1_inv in Hp.
      injection Hp as -> _. destruct Hz as [<-|[]]. exact Hy'.
    + apply Hd; [cbn; lia | exact Hz].
Qed.

Lemma arraySortM_short (l : list A) :
  (List.length l <= 1)%nat -> arraySortM (byCreatedAt isDate key) l = Ok l.
Proof.
  destruct l as [|x [|y r]]; cbn [List.length]; intros H;
    [reflexivity | reflexivity | lia].
Qed.

(** One record with a string date among two or more makes the sort
    throw. *)
Lemma arraySortM_throws (l : list A) :
  (2 <= List.length l)%nat ->
  (exists x, In x l /\ isDate x = false) ->
  exists message, arraySortM (byCreatedAt isDate key) l = Throw message.
Proof.
  intros Hlen (x & Hin & Hx).
  destruct (arraySortM (byCreatedAt isDate key) l) as [l'|e] eqn:E.
  - destruct (arraySortM_ok l l' E) as [_ Hd].
    rewrite (Hd Hlen x Hin) in Hx. discriminate.
  - now exists e.
Qed.

(** What the sort by date returns on records that all hold [Date]
    objects: a rearrangement, newest first, with records of the same date
    in their original order. *)
Lemma arraySortM_newest_first (l : list A) :
  (forall x, In x l -> isDate x = true) ->
  exists l',
    arraySortM (byCreatedAt isDate key) l = Ok l' /\
    Permutation l' l /\
    StronglySorted (fun a b => key b <= key a) l' /\
    forall t,
      filter (fun a => key a =? t) l' = filter (fun a => key a =? t) l.
Proof.
  intros Hl. eexists. split; [now apply arraySortM_dates|].
  split; [apply arraySort_perm|].
  split; [apply arraySort_sorted | intros t; apply arraySort_ties].
Qed.
End SortDates.

Lemma two_in_length {A : Type} (x y : A) (l : list A) :
  In x l -> In y l -> x <> y -> (2 <= List.length l)%nat.
Proof.
  destruct l as [|a [|b r]]; cbn [List.length In]; intros Hx Hy Hne;
    [contradiction | | lia].
  destruct Hx as [<-|[]], Hy as [<-|[]]. now contradiction Hne.
Qed.

(** X1.  [getAllTasks] of the file backend.  When every stored task holds a
    [Date] in [createdAt], it returns every stored task once, newest
    first, tasks of the same instant in the order of the map.  With at
    most one task it returns the map's values.  With two or more tasks of
    which one holds a string date it throws, and so it does on every store
    of two or more tasks that was saved and loaded again, since loading
    leaves the dates as the strings of the file. *)
Theorem file_getAllTasks_newest_first
  (isDate : FileTask.t -> bool) (s : FileStorage.t) :
  let all := JsMap.values (FileStorage.tasks s) in
  ((forall t, In t all -> isDate t = true) ->
   exists l,
     FileStorage.getAllTasks isDate s = (Ok l, s) /\
     Permutation l all /\
     StronglySorted
       (fun a b => FileTask.createdAt b <= FileTask.createdAt a) l /\
     forall t,
       filter (fun a => FileTask.createdAt a =? t) l
       = filter (fun a => FileTask.createdAt a =? t) all) /\
  ((List.length all <= 1)%nat ->
   FileStorage.getAllTasks isDate s = (Ok all, s)) /\
  ((2 <= List.length all)%nat ->
   (exists t, In t all /\ isDate t = false) ->
   exists message,
     FileStorage.getAllTasks isDate s = (Throw message, s)) /\
  (forall (json : FileTask.t -> FileTask.t) (s0 : FileStorage.t),
     (forall t, FileTask._id (json t) = FileTask._id t) ->
     (forall t, isDate (json t) = false) ->
     keyedById FileTask._id (FileStorage.tasks s) ->
     (2 <= List.length all)%nat ->
     exists message s1,
       FileStorage.loadTasks
         (Some (map json (FileStorage.saveTasks s))) s0 = (Ok tt, s1) /\
       JsMap.values (FileStorage.tasks s1) = map json all /\
       FileStorage.getAllTasks isDate s1 = (Throw message, s1)).
Proof.
  cbv zeta. unfold FileStorage.getAllTasks.
  split; [|split; [|split]].
  - intros Hall.
    destruct (arraySortM_newest_first isDate FileTask.createdAt _ Hall)
      as (l & E & Hp & Hs & Ht).
    exists l. rewrite E. now repeat split.
  - intros Hlen. now rewrite arraySortM_short.
  - intros Hlen Hbad.
    destruct (arraySortM_throws isDate FileTask.createdAt _ Hlen Hbad)
      as (message & E).
    exists message. now rewrite E.
  - intros json s0 Hid Hjson Hkeyed Hlen.
    unfold FileStorage.loadTasks, FileStorage.saveTasks. run_op.
    cbn [FileStorage.tasks FileStorage.on_tasks].
    rewrite (reload_entries FileTask._id json _ Hid Hkeyed).
    assert (Hv : JsMap.values
                   (map (fun kv => (fst kv, json (snd kv)))
                      (FileStorage.tasks s))
                 = map json (JsMap.values (FileStorage.tasks s))).
    { unfold JsMap.values. rewrite !map_map. reflexivity. }
    destruct (arraySortM_throws isDate FileTask.createdAt
                (map json (JsMap.values (FileStorage.tasks s))))
      as (message & E).
    + now rewrite length_map.
    + destruct (JsMap.values (FileStorage.tasks s)) as [|t0 r];
        [cbn in Hlen; lia|].
      exists (json t0). split; [now left | apply Hjson].
    + exists message. eexists. split; [reflexivity|].
      cbn [FileStorage.tasks FileStorage.on_tasks]. rewrite Hv.
      split; [reflexivity|]. now rewrite E.
Qed.

Lemma file_getAllTasks_newest_first_witness :
  (exists a b,
     FileStorage.getAllTasks (fun _ => true) fileWithTwoTasks
     = (Ok [a; b], fileWithTwoTasks) /\
     FileTask.createdAt a = 1500 /\ FileTask.createdAt b = 1000) /\
  (exists message s1,
     FileStorage.loadTasks
       (Some (map (fun t => t) (FileStorage.saveTasks fileWithTwoTasks)))
       FileStorage.empty = (Ok tt, s1) /\
     FileStorage.getAllTasks (fun _ => false) s1 = (Throw message, s1)).
Proof.
  split.
  - destruct (proj1 (file_getAllTasks_newest_first (fun _ => true)
                       fileWithTwoTasks))
      as (l & Hrun & _); [reflexivity|].
    eexists _, _. split; [|split]; reflexivity.
  - destruct (proj2 (proj2 (proj2
                (file_getAllTasks_newest_first (fun _ => false)
                   fileWithTwoTasks)))
                (fun t => t) FileStorage.empty)
      as (message & s1 & Hload & _ & Hget).
    + reflexivity.
    + reflexivity.
    + split; [|repeat constructor].
      cbn. constructor; [intros [H|[]]; discriminate|].
      constructor; [intros [] | constructor].
    + apply Nat.leb_le. reflexivity.
    + exists message, s1. split; assumption.
Defined.

Lemma file_getTaskUpdates_members
  (isDate : FileTaskUpdate.t -> bool) (taskId : string)
  (s : FileStorage.t) :
  isValidObjectId taskId = true ->
  let mine :=
    filter (fun u => String.eqb (FileTaskUpdate.taskId u) taskId)
      (JsMap.values (FileStorage.taskUpdates s)) in
  ((forall u, In u mine -> isDate u = true) ->
   exists l,
     FileStorage.getTaskUpdates isDate taskId s = (Ok l, s) /\
     Permutation l mine) /\
  ((2 <= List.length mine)%nat ->
   (exists u, In u mine /\ isDate u = false) ->
   exists message,
     FileStorage.getTaskUpdates isDate taskId s = (Throw message, s)).
Proof.
  intros Hid. cbv zeta. unfold FileStorage.getTaskUpdates. rewrite Hid.
  cbn [negb]. split.
  - intros Hall.
    destruct (arraySortM_newest_first isDate FileTaskUpdate.createdAt
                _ Hall) as (l & E & Hp & _).
    exists l. rewrite E. now split.
  - intros Hlen Hbad.
    destruct (arraySortM_throws isDate FileTaskUpdate.createdAt _
                Hlen Hbad) as (message & E).
    exists message. now rewrite E.
Qed.

Lemma file_getTaskEvidence_members
  (isDate : FileTaskEvidence.t -> bool) (taskId : string)
  (s : FileStorage.t) :
  isValidObjectId taskId = true ->
  let mine :=
    filter (fun x => String.eqb (FileTaskEvidence.taskId x) taskId)
      (JsMap.values (FileStorage.taskEvidence s)) in
  ((forall x, In x mine -> isDate x = true) ->
   exists l,
     FileStorage.getTaskEvidence isDate taskId s = (Ok l, s) /\
     Permutation l mine) /\
  ((2 <= List.length mine)%nat ->
   (exists x, In x mine /\ isDate x = false) ->
   exists message,
     FileStorage.getTaskEvidence isDate taskId s = (Throw message, s)).
Proof.
  intros Hid. cbv zeta. unfold FileStorage.getTaskEvidence. rewrite Hid.
  cbn [negb]. split.
  - intros Hall.
    destruct (arraySortM_newest_first isDate FileTaskEvidence.createdAt
                _ Hall) as (l & E & Hp & _).
    exists l. rewrite E. now split.
  - intros Hlen Hbad.
    destruct (arraySortM_throws isDate FileTaskEvidence.createdAt _
                Hlen Hbad) as (message & E).
    exists message. now rewrite E.
Qed.

(** X2.  [getTaskUpdates(taskId)] of the file backend never changes the
    store.  For a malformed id it returns the empty list.  For a
    well-formed id, with [mine] the stored updates of that task in the
    order of the map: when they all hold a [Date] it returns exactly
    them, newest first, those of the same instant in their order; when
    there is at most one it returns [mine]; when there are two or more and
    one holds a string date, as after a load from the file, it throws. *)
Theorem file_getTaskUpdates_spec
  (isDate : FileTaskUpdate.t -> bool) (taskId : string)
  (s : FileStorage.t) :
  let mine :=
    filter (fun u => String.eqb (FileTaskUpdate.taskId u) taskId)
      (JsMap.values (FileStorage.taskUpdates s)) in
  (isValidObjectId taskId = false ->
   FileStorage.getTaskUpdates isDate taskId s = (Ok [], s)) /\
  (isValidObjectId taskId = true ->
   ((forall u, In u mine -> isDate u = true) ->
    exists l,
      FileStorage.getTaskUpdates isDate taskId s = (Ok l, s) /\
      Permutation l mine /\
      StronglySorted
        (fun a b => FileTaskUpdate.createdAt b <= FileTaskUpdate.createdAt a)
        l /\
      forall t,
        filter (fun a => FileTaskUpdate.createdAt a =? t) l
        = filter (fun a => FileTaskUpdate.createdAt a =? t) mine) /\
   ((List.length mine <= 1)%nat ->
    FileStorage.getTaskUpdates isDate taskId s = (Ok mine, s)) /\
   ((2 <= List.length mine)%nat ->
    (exists u, In u mine /\ isDate u = false) ->
    exists message,
      FileStorage.getTaskUpdates isDate taskId s = (Throw message, s))).
Proof.
  cbv zeta. unfold FileStorage.getTaskUpdates. split.
  - intros ->. reflexivity.
  - intros ->. cbn [negb]. split; [|split].
    + intros Hall.
      destruct (arraySortM_newest_first isDate FileTaskUpdate.createdAt
                  _ Hall) as (l & E & Hp & Hs & Ht).
      exists l. rewrite E. now repeat split.
    + intros Hlen. now rewrite arraySortM_short.
    + intros Hlen Hbad.
      destruct (arraySortM_throws isDate FileTaskUpdate.createdAt _
                  Hlen Hbad) as (message & E).
      exists message. now rewrite E.
Qed.

Lemma file_getTaskUpdates_spec_witness :
  FileStorage.getTaskUpdates (fun _ => true) "task-1" fileWithUpdate
  = (Ok [], fileWithUpdate) /\
  FileStorage.getTaskUpdates (fun _ => false) sampleTaskId fileWithUpdate
  = (Ok [auditRecord secondTaskId sampleTaskId sampleUserId "In Progress"
           "Completed" 2001], fileWithUpdate) /\
  (exists a b,
     FileStorage.getTaskUpdates (fun _ => true) sampleTaskId
       fileWithTwoUpdates = (Ok [a; b], fileWithTwoUpdates) /\
     FileTaskUpdate.createdAt a = 3001 /\
     FileTaskUpdate.createdAt b = 2001) /\
  (exists message,
     FileStorage.getTaskUpdates
       (fun u => negb (FileTaskUpdate.createdAt u =? 2001)) sampleTaskId
       fileWithTwoUpdates = (Throw message, fileWithTwoUpdates)).
Proof.
  split; [|split; [|split]].
  - apply (proj1 (file_getTaskUpdates_spec (fun _ => true) "task-1"
                    fileWithUpdate)).
    reflexivity.
  - apply (proj1 (proj2 (proj2 (file_getTaskUpdates_spec (fun _ => false)
                            sampleTaskId fileWithUpdate) eq_refl))).
    apply Nat.leb_le. reflexivity.
  - destruct (proj1 (proj2 (file_getTaskUpdates_spec (fun _ => true)
                              sampleTaskId fileWithTwoUpdates) eq_refl))
      as (l & Hrun & _); [reflexivity|].
    eexists _, _. split; [|split]; reflexivity.
  - apply (proj2 (proj2 (proj2 (file_getTaskUpdates_spec
                                  (fun u => negb
                                     (FileTaskUpdate.createdAt u =? 2001))
                                  sampleTaskId fileWithTwoUpdates)
                           eq_refl))).
    + apply Nat.leb_le. reflexivity.
    + exists (auditRecord secondTaskId sampleTaskId sampleUserId
                "In Progress" "Completed" 2001).
      split; [|reflexivity]. vm_compute. left. reflexivity.
Defined.

(** X3.  A status change of the file backend and the task's update list.
    After a successful [updateTaskStatus], whose audit record holds a
    [Date]: when the updates already stored for the task hold [Date]
    objects too, [getTaskUpdates] of the task contains the record with the
    old and the new status; when one of them, stored under another id,
    holds a string date, as after a load from the file, [getTaskUpdates]
    of the task throws. *)
Theorem file_updateTaskStatus_then_getTaskUpdates
  (isDate : FileTaskUpdate.t -> bool)
  (e : IdSource) (tUpdated tAudit : Date) (id status userId : string)
  (s : FileStorage.t) (task : FileTask.t) :
  let record :=
    auditRecord (generateObjectId e) id userId (FileTask.status task)
      status tAudit in
  isValidObjectId id = true -> isValidObjectId userId = true ->
  JsMap.get id (FileStorage.tasks s) = Some task ->
  isDate record = true ->
  exists task' s',
    FileStorage.updateTaskStatus e tUpdated tAudit id status userId s
    = (Ok task', s') /\
    ((forall u,
        In u (JsMap.values (FileStorage.taskUpdates s)) ->
        FileTaskUpdate.taskId u = id -> isDate u = true) ->
     exists l,
       FileStorage.getTaskUpdates isDate id s' = (Ok l, s') /\
       In record l) /\
    (forall k u,
       JsMap.get k (FileStorage.taskUpdates s) = Some u ->
       k <> generateObjectId e ->
       FileTaskUpdate.taskId u = id -> isDate u = false ->
       exists message,
         FileStorage.getTaskUpdates isDate id s' = (Throw message, s')).
Proof.
  cbv zeta. intros Hid Hu Hget Hrec.
  destruct (file_updateTaskStatus_audit e tUpdated tAudit id status userId
              s task Hid Hu Hget) as (task' & s' & Hrun & _ & _ & Hupd).
  exists task', s'. split; [exact Hrun|].
  assert (Hnew : In (auditRecord (generateObjectId e) id userId
                       (FileTask.status task) status tAudit)
                   (filter (fun u => String.eqb (FileTaskUpdate.taskId u) id)
                      (JsMap.values (FileStorage.taskUpdates s')))).
  { apply filter_In. split; [|apply String.eqb_refl].
    rewrite Hupd.
    apply JsMapFacts.get_in_values with (k := generateObjectId e).
    apply JsMapFacts.get_set_same. }
  destruct (file_getTaskUpdates_members isDate id s' Hid)
    as (Hdates & Hthrows).
  split.
  - intros Hold.
    destruct Hdates as (l & Hl & Hp).
    + intros u Hin. apply filter_In in Hin as [Hin Ht].
      apply String.eqb_eq in Ht. rewrite Hupd in Hin.
      apply values_set_cases in Hin as [->|Hin]; [exact Hrec|].
      now apply Hold.
    + exists l. split; [exact Hl|].
      exact (Permutation_in _ (Permutation_sym Hp) Hnew).
  - intros k u Hk Hne Ht Hbad.
    assert (Hin : In u (filter
                          (fun u => String.eqb (FileTaskUpdate.taskId u) id)
                          (JsMap.values (FileStorage.taskUpdates s')))).
    { apply filter_In. split; [|now apply String.eqb_eq].
      rewrite Hupd. apply JsMapFacts.get_in_values with (k := k).
      rewrite JsMapFacts.get_set_other; [exact Hk | congruence]. }
    apply Hthrows.
    + apply (two_in_length u _ _ Hin Hnew). intros ->.
      rewrite Hrec in Hbad. discriminate.
    + now exists u.
Qed.

Lemma file_updateTaskStatus_then_getTaskUpdates_witness :
  (exists task' s' l,
     FileStorage.updateTaskStatus sampleSource2 2000 2001 sampleTaskId
       "Completed" sampleUserId fileWithTask = (Ok task', s') /\
     FileStorage.getTaskUpdates (fun _ => true) sampleTaskId s'
     = (Ok l, s') /\
     In (auditRecord (generateObjectId sampleSource2) sampleTaskId
           sampleUserId "In Progress" "Completed" 2001) l) /\
  (exists task' s' message,
     FileStorage.updateTaskStatus sampleSource 3000 3001 sampleTaskId
       "Verified" sampleUserId fileWithUpdate = (Ok task', s') /\
     FileStorage.getTaskUpdates
       (fun u => negb (FileTaskUpdate.createdAt u =? 2001)) sampleTaskId s'
     = (Throw message, s')).
Proof.
  assert (V1 : isValidObjectId sampleTaskId = true) by reflexivity.
  assert (V2 : isValidObjectId sampleUserId = true) by reflexivity.
  split.
  - assert (G : JsMap.get sampleTaskId (FileStorage.tasks fileWithTask)
                = Some (FileTask.mk sampleTaskId "Inspect tower" None
                          "In Progress" "High" None None None None None
                          None 1000 1000)) by reflexivity.
    destruct (file_updateTaskStatus_then_getTaskUpdates (fun _ => true)
                sampleSource2 2000 2001 sampleTaskId "Completed"
                sampleUserId fileWithTask _ V1 V2 G eq_refl)
      as (task' & s' & Hrun & Hlist & _).
    destruct Hlist as (l & Hl & Hin); [reflexivity|].
    now exists task', s', l.
  - assert (G : JsMap.get sampleTaskId (FileStorage.tasks fileWithUpdate)
                = Some (FileTask.mk sampleTaskId "Inspect tower" None
                          "Completed" "High" None None None None None
                          None 1000 2000)) by reflexivity.
    destruct (file_updateTaskStatus_then_getTaskUpdates
                (fun u => negb (FileTaskUpdate.createdAt u =? 2001))
                sampleSource 3000 3001 sampleTaskId "Verified"
                sampleUserId fileWithUpdate _ V1 V2 G eq_refl)
      as (task' & s' & Hrun & _ & Hthrow).
    destruct (Hthrow secondTaskId
                (auditRecord secondTaskId sampleTaskId sampleUserId
                   "In Progress" "Completed" 2001))
      as (message & Hm); try reflexivity; [discriminate|].
    now exists task', s', message.
Defined.

(** X20.  [addTaskEvidence] of the file backend refuses a malformed task or
    user id without changing anything; otherwise it stores the evidence.
    [getTaskEvidence] of that task then lists it, and only evidence of
    that task, when the evidence already stored for the task holds [Date]
    objects as the new one does; it throws when one of them, stored under
    another id, holds a string date, as after a load from the file. *)
Theorem file_addTaskEvidence_then_get
  (isDate : FileTaskEvidence.t -> bool)
  (e : IdSource) (tCreated : Date) (ins : InsertTaskEvidence.t)
  (s : FileStorage.t) :
  let taskId := InsertTaskEvidence.taskId ins in
  let evidence :=
    FileTaskEvidence.mk (generateObjectId e) taskId
      (InsertTaskEvidence.userId ins) (InsertTaskEvidence.imageUrl ins)
      (InsertTaskEvidence.description ins) tCreated in
  (isValidObjectId taskId = false \/
   isValidObjectId (InsertTaskEvidence.userId ins) = false ->
   FileStorage.addTaskEvidence e tCreated ins s
   = (Throw "Invalid task or user ID", s)) /\
  (isValidObjectId taskId = true ->
   isValidObjectId (InsertTaskEvidence.userId ins) = true ->
   isDate evidence = true ->
   exists s',
     FileStorage.addTaskEvidence e tCreated ins s = (Ok evidence, s') /\
     ((forall x,
         In x (JsMap.values (FileStorage.taskEvidence s)) ->
         FileTaskEvidence.taskId x = taskId -> isDate x = true) ->
      exists l,
        FileStorage.getTaskEvidence isDate taskId s' = (Ok l, s') /\
        In evidence l /\
        forall x, In x l -> FileTaskEvidence.taskId x = taskId) /\
     (forall k x,
        JsMap.get k (FileStorage.taskEvidence s) = Some x ->
        k <> generateObjectId e ->
        FileTaskEvidence.taskId x = taskId -> isDate x = false ->
        exists message,
          FileStorage.getTaskEvidence isDate taskId s'
          = (Throw message, s'))).
Proof.
  cbv zeta. split.
  - unfold FileStorage.addTaskEvidence.
    intros [H|H]; rewrite H; [reflexivity|].
    destruct (isValidObjectId (InsertTaskEvidence.taskId ins)); reflexivity.
  - intros Ht Hu Hrec. unfold FileStorage.addTaskEvidence. rewrite Ht, Hu.
    run_op. eexists. split; [reflexivity|].
    match goal with
    | |- context [FileStorage.getTaskEvidence _ _ ?s1] =>
        destruct (file_getTaskEvidence_members isDate
                    (InsertTaskEvidence.taskId ins) s1 Ht)
          as (Hdates & Hthrows)
    end.
    cbn [FileStorage.taskEvidence FileStorage.on_taskEvidence]
      in Hdates, Hthrows.
    match type of Hthrows with
    | (2 <= List.length (filter ?p (JsMap.values (JsMap.set ?k ?v ?m))))%nat
      -> _ =>
        assert (Hnew : In v (filter p (JsMap.values (JsMap.set k v m))))
    end.
    { apply filter_In. split; [|apply String.eqb_refl].
      apply JsMapFacts.get_in_values with (k := generateObjectId e).
      apply JsMapFacts.get_set_same. }
    split.
    + intros Hold.
      destruct Hdates as (l & Hl & Hp).
      * intros x Hin. apply filter_In in Hin as [Hin Hx].
        apply String.eqb_eq in Hx.
        apply values_set_cases in Hin as [->|Hin]; [exact Hrec|].
        now apply Hold.
      * exists l. split; [exact Hl|]. split.
        -- exact (Permutation_in _ (Permutation_sym Hp) Hnew).
        -- intros x Hin. apply (Permutation_in _ Hp) in Hin.
           apply filter_In in Hin as [_ Hx]. now apply String.eqb_eq.
    + intros k x Hk Hne Hx Hbad.
      match type of Hnew with
      | In _ ?mine =>
          assert (Hin : In x mine)
      end.
      { apply filter_In. split; [|now apply String.eqb_eq].
        apply JsMapFacts.get_in_values with (k := k).
        rewrite JsMapFacts.get_set_other; [exact Hk | congruence]. }
      apply Hthrows.
      * apply (two_in_length x _ _ Hin Hnew). intros ->.
        rewrite Hrec in Hbad. discriminate.
      * now exists x.
Qed.

Lemma file_addTaskEvidence_then_get_witness :
  (exists evidence s' l,
     FileStorage.addTaskEvidence sampleSource2 4000 sampleInsertEvidence
       fileWithTask = (Ok evidence, s') /\
     FileStorage.getTaskEvidence (fun _ => true) sampleTaskId s'
     = (Ok l, s') /\
     In evidence l) /\
  (exists evidence s' message,
     FileStorage.addTaskEvidence sampleSource 5000 sampleInsertEvidence
       fileWithEvidence = (Ok evidence, s') /\
     FileStorage.getTaskEvidence
       (fun x => negb (FileTaskEvidence.createdAt x =? 4000)) sampleTaskId
       s' = (Throw message, s')).
Proof.
  split.
  - destruct (proj2 (file_addTaskEvidence_then_get (fun _ => true)
                       sampleSource2 4000 sampleInsertEvidence
                       fileWithTask) eq_refl eq_refl eq_refl)
      as (s' & Hrun & Hlist & _).
    destruct Hlist as (l & Hl & Hin & _); [reflexivity|].
    eexists _, s', l. split; [exact Hrun|]. now split.
  - destruct (proj2 (file_addTaskEvidence_then_get
                       (fun x => negb (FileTaskEvidence.createdAt x =? 4000))
                       sampleSource 5000 sampleInsertEvidence
                       fileWithEvidence) eq_refl eq_refl eq_refl)
      as (s' & Hrun & _ & Hthrow).
    destruct (Hthrow secondTaskId
                (FileTaskEvidence.mk secondTaskId sampleTaskId sampleUserId
                   "/uploads/1.png" (Some "") 4000))
      as (message & Hm); try reflexivity; [discriminate|].
    eexists _, s', message. split; [exact Hrun | exact Hm].
Defined.
